(** * PDF layout optimizer (ReportEngine/renderers/pdf_layout_optimizer.py)

    A shallow embedding of the layout optimizer: the text-width estimator,
    the font-size solver, the document analyzer, the configuration
    adjustment rules, the configuration store and the stylesheet emitter,
    followed by the properties established about them.

    Conventions of the embedding.
    - A Python [str] is the list of its Unicode code points ([pystr]).
    - A Python [int] is a [Z]; a Python [float] is a binary64 primitive
      float, with the operators of [PrimFloat] (IEEE 754, round to nearest
      even, as CPython computes them).
    - A call either returns or raises; [res] records which.  [Undef] marks a
      state the embedding does not describe (a dangling reference, a field
      whose value is not of the annotated type, an exhausted recursion
      budget); it is not a Python exception.
    - Objects that the code mutates live in a store ([world]); a dataclass
      instance is a location, attribute assignment rewrites the store.
    - Logging through loguru is not observable by the program and is
      omitted.  Stack depth and memory are unbounded. *)

From Stdlib Require Import ZArith NArith List Bool String Ascii Floats Lia.
From stdpp Require Import gmap.
Import ListNotations.

Set Warnings "-register-all,-inexact-float,-clear-no-such-hyp".
Local Open Scope Z_scope.

(* ------------------------------------------------------------------ *)
(** ** Python strings *)

(** A [str] as the sequence of its code points. *)
Definition pystr := list N.

(** Decoder used to write Python literals as Rocq string literals, whose
    bytes are the UTF-8 encoding of the text. *)
Fixpoint utf8_decode (bs : list N) : pystr :=
  match bs with
  | [] => []
  | b0 :: r0 =>
      if (b0 <? 0x80)%N then b0 :: utf8_decode r0
      else if (b0 <? 0xE0)%N then
        match r0 with
        | b1 :: r1 =>
            N.lor (N.shiftl (N.land b0 0x1F) 6) (N.land b1 0x3F)
              :: utf8_decode r1
        | [] => [b0]
        end
      else if (b0 <? 0xF0)%N then
        match r0 with
        | b1 :: b2 :: r2 =>
            N.lor (N.shiftl (N.land b0 0x0F) 12)
              (N.lor (N.shiftl (N.land b1 0x3F) 6) (N.land b2 0x3F))
              :: utf8_decode r2
        | _ => [b0]
        end
      else
        match r0 with
        | b1 :: b2 :: b3 :: r3 =>
            N.lor (N.shiftl (N.land b0 0x07) 18)
              (N.lor (N.shiftl (N.land b1 0x3F) 12)
                 (N.lor (N.shiftl (N.land b2 0x3F) 6) (N.land b3 0x3F)))
              :: utf8_decode r3
        | _ => [b0]
        end
  end.

Definition lit (s : string) : pystr :=
  utf8_decode (map N_of_ascii (list_ascii_of_string s)).

(** [str(n)] for an [int]: decimal digits, with a minus sign when negative. *)
Fixpoint digits_of_uint (d : Decimal.uint) : pystr :=
  match d with
  | Decimal.Nil => []
  | Decimal.D0 r => 48%N :: digits_of_uint r
  | Decimal.D1 r => 49%N :: digits_of_uint r
  | Decimal.D2 r => 50%N :: digits_of_uint r
  | Decimal.D3 r => 51%N :: digits_of_uint r
  | Decimal.D4 r => 52%N :: digits_of_uint r
  | Decimal.D5 r => 53%N :: digits_of_uint r
  | Decimal.D6 r => 54%N :: digits_of_uint r
  | Decimal.D7 r => 55%N :: digits_of_uint r
  | Decimal.D8 r => 56%N :: digits_of_uint r
  | Decimal.D9 r => 57%N :: digits_of_uint r
  end.

Definition int_str (z : Z) : pystr :=
  match Z.to_int z with
  | Decimal.Pos d => digits_of_uint d
  | Decimal.Neg d => 45%N :: digits_of_uint d
  end.

(** ['c' * n]: a negative count gives the empty string. *)
Definition str_repeat (c : N) (n : Z) : pystr := repeat c (Z.to_nat n).

(** [str.isalpha] and [str.isdigit] on one character of the ASCII range. *)
Definition ascii_isalpha (c : N) : bool :=
  ((65 <=? c) && (c <=? 90) || (97 <=? c) && (c <=? 122))%N.

Definition ascii_isdigit (c : N) : bool := ((48 <=? c) && (c <=? 57))%N.

(* ------------------------------------------------------------------ *)
(** ** Python values and outcomes *)

(** The values an IR tree or a configuration file is made of. A [dict]
    keeps its items in insertion order; its keys are strings. *)
Inductive pyval :=
| PNone
| PBool (b : bool)
| PInt (z : Z)
| PFloat (f : float)
| PStr (s : pystr)
| PList (l : list pyval)
| PDict (d : list (pystr * pyval)).

Inductive exn :=
| AttributeError
| TypeError
| KeyError
| IndexError
| OverflowError
| OSError
| UnicodeEncodeError
| JSONDecodeError.

Inductive res (A : Type) :=
| Ok (a : A)
| Raise (e : exn)
| Undef.
Arguments Ok {A} a.
Arguments Raise {A} e.
Arguments Undef {A}.

Definition res_bind {A B} (m : res A) (k : A -> res B) : res B :=
  match m with
  | Ok a => k a
  | Raise e => Raise e
  | Undef => Undef
  end.

Declare Scope res_scope.
Delimit Scope res_scope with res.
Notation "x <- m ;; k" := (res_bind m (fun x => k))
  (at level 100, m at next level, right associativity) : res_scope.

Fixpoint res_fold {A S : Type} (body : A -> S -> res S) (l : list A) (s : S)
  : res S :=
  match l with
  | [] => Ok s
  | x :: rest => (s' <- body x s ;; res_fold body rest s')%res
  end.


Fixpoint pystr_eqb (a b : pystr) : bool :=
  match a, b with
  | [], [] => true
  | x :: a', y :: b' => (x =? y)%N && pystr_eqb a' b'
  | _, _ => false
  end.

(** Lookup in a [dict]; its keys are pairwise distinct. *)
Fixpoint dict_lookup (d : list (pystr * pyval)) (key : pystr) : option pyval :=
  match d with
  | [] => None
  | (k, v) :: rest => if pystr_eqb k key then Some v else dict_lookup rest key
  end.

(** [x.get(key, default)]: only a [dict] has the method. *)
Definition py_get (x : pyval) (key : pystr) (default : pyval) : res pyval :=
  match x with
  | PDict d =>
      Ok (match dict_lookup d key with Some v => v | None => default end)
  | _ => Raise AttributeError
  end.

(** [x[key]] for a string key. *)
Definition py_getitem (x : pyval) (key : pystr) : res pyval :=
  match x with
  | PDict d =>
      match dict_lookup d key with Some v => Ok v | None => Raise KeyError end
  | _ => Raise TypeError
  end.

(** [x[0]] *)
Definition py_getitem0 (x : pyval) : res pyval :=
  match x with
  | PList (v :: _) => Ok v
  | PList [] => Raise IndexError
  | PStr (c :: _) => Ok (PStr [c])
  | PStr [] => Raise IndexError
  | PDict _ => Raise KeyError
  | _ => Raise TypeError
  end.

(** Truth value of [x] in a condition. *)
Definition py_truthy (x : pyval) : bool :=
  match x with
  | PNone => false
  | PBool b => b
  | PInt z => negb (z =? 0)
  | PFloat f => negb (PrimFloat.eqb f 0%float)
  | PStr [] => false
  | PStr _ => true
  | PList [] => false
  | PList _ => true
  | PDict [] => false
  | PDict _ => true
  end.

(** The items that [for item in x] runs through. *)
Definition py_iter (x : pyval) : res (list pyval) :=
  match x with
  | PList l => Ok l
  | PDict d => Ok (map (fun kv => PStr (fst kv)) d)
  | PStr s => Ok (map (fun c => PStr [c]) s)
  | _ => Raise TypeError
  end.

(** [len(x)] *)
Definition py_len (x : pyval) : res Z :=
  match x with
  | PList l => Ok (Z.of_nat (length l))
  | PDict d => Ok (Z.of_nat (length d))
  | PStr s => Ok (Z.of_nat (length s))
  | _ => Raise TypeError
  end.

Definition is_dict (x : pyval) : bool :=
  match x with PDict _ => true | _ => false end.

Definition is_str (x : pyval) : bool :=
  match x with PStr _ => true | _ => false end.

(** [x == 'literal'] *)
Definition py_eq_str (x : pyval) (s : pystr) : bool :=
  match x with PStr t => pystr_eqb t s | _ => false end.

(** Nesting depth of a value, the recursion budget of the analyzer. *)
Fixpoint height (v : pyval) : nat :=
  match v with
  | PList l => S (fold_right (fun x n => Nat.max (height x) n) O l)
  | PDict d => S (fold_right (fun kv n => Nat.max (height (snd kv)) n) O d)
  | _ => O
  end.

(* ------------------------------------------------------------------ *)
(** ** The layout dataclasses *)

(** Keyword arguments [**d] of a dataclass constructor: [d] must be a
    mapping, and a key that names no field is a [TypeError]. *)
Definition kwargs_of (x : pyval) (fields : list pystr)
  : res (list (pystr * pyval)) :=
  match x with
  | PDict d =>
      if forallb (fun kv => existsb (pystr_eqb (fst kv)) fields) d
      then Ok d else Raise TypeError
  | _ => Raise TypeError
  end.

(** A field taken from the keyword arguments, or its default.  The fields
    are typed as annotated; a value of another type is [Undef]. *)
Definition kw_int (d : list (pystr * pyval)) (name : pystr) (default : Z)
  : res Z :=
  match dict_lookup d name with
  | None => Ok default
  | Some (PInt z) => Ok z
  | Some _ => Undef
  end.

Definition kw_float (d : list (pystr * pyval)) (name : pystr) (default : float)
  : res float :=
  match dict_lookup d name with
  | None => Ok default
  | Some (PFloat f) => Ok f
  | Some _ => Undef
  end.

Definition kw_str (d : list (pystr * pyval)) (name : pystr) (default : pystr)
  : res pystr :=
  match dict_lookup d name with
  | None => Ok default
  | Some (PStr s) => Ok s
  | Some _ => Undef
  end.

Definition kw_bool (d : list (pystr * pyval)) (name : pystr) (default : bool)
  : res bool :=
  match dict_lookup d name with
  | None => Ok default
  | Some (PBool b) => Ok b
  | Some _ => Undef
  end.

Module KPICardLayout.
Record t := {
  font_size_value : Z;
  font_size_label : Z;
  font_size_change : Z;
  padding : Z;
  min_height : Z;
  value_max_length : Z
}.

Definition default : t := {|
  font_size_value := 32; font_size_label := 14; font_size_change := 13;
  padding := 20; min_height := 120; value_max_length := 10 |}.

Definition set_font_size_value (v : Z) (k : t) : t := {|
  font_size_value := v; font_size_label := font_size_label k;
  font_size_change := font_size_change k; padding := padding k;
  min_height := min_height k; value_max_length := value_max_length k |}.

Definition set_padding (v : Z) (k : t) : t := {|
  font_size_value := font_size_value k;
  font_size_label := font_size_label k;
  font_size_change := font_size_change k; padding := v;
  min_height := min_height k; value_max_length := value_max_length k |}.

Definition set_min_height (v : Z) (k : t) : t := {|
  font_size_value := font_size_value k;
  font_size_label := font_size_label k;
  font_size_change := font_size_change k; padding := padding k;
  min_height := v; value_max_length := value_max_length k |}.

Definition fields : list pystr :=
  [lit "font_size_value"; lit "font_size_label"; lit "font_size_change";
   lit "padding"; lit "min_height"; lit "value_max_length"].

Definition asdict (k : t) : pyval := PDict [
  (lit "font_size_value", PInt (font_size_value k));
  (lit "font_size_label", PInt (font_size_label k));
  (lit "font_size_change", PInt (font_size_change k));
  (lit "padding", PInt (padding k));
  (lit "min_height", PInt (min_height k));
  (lit "value_max_length", PInt (value_max_length k))].

Definition of_kwargs (x : pyval) : res t :=
  (d <- kwargs_of x fields ;;
   a <- kw_int d (lit "font_size_value") 32 ;;
   b <- kw_int d (lit "font_size_label") 14 ;;
   c <- kw_int d (lit "font_size_change") 13 ;;
   e <- kw_int d (lit "padding") 20 ;;
   f <- kw_int d (lit "min_height") 120 ;;
   g <- kw_int d (lit "value_max_length") 10 ;;
   Ok {| font_size_value := a; font_size_label := b; font_size_change := c;
         padding := e; min_height := f; value_max_length := g |})%res.

(** The [==] of the dataclass. *)
Definition eqb (a b : t) : bool :=
  (font_size_value a =? font_size_value b)
  && (font_size_label a =? font_size_label b)
  && (font_size_change a =? font_size_change b)
  && (padding a =? padding b)
  && (min_height a =? min_height b)
  && (value_max_length a =? value_max_length b).
End KPICardLayout.

Module CalloutLayout.
Record t := {
  font_size_title : Z;
  font_size_content : Z;
  padding : Z;
  line_height : float;
  max_width : pystr
}.

Definition default : t := {|
  font_size_title := 16; font_size_content := 14; padding := 20;
  line_height := 1.6%float; max_width := lit "100%" |}.

Definition set_line_height (v : float) (c : t) : t := {|
  font_size_title := font_size_title c;
  font_size_content := font_size_content c; padding := padding c;
  line_height := v; max_width := max_width c |}.

Definition fields : list pystr :=
  [lit "font_size_title"; lit "font_size_content"; lit "padding";
   lit "line_height"; lit "max_width"].

Definition asdict (c : t) : pyval := PDict [
  (lit "font_size_title", PInt (font_size_title c));
  (lit "font_size_content", PInt (font_size_content c));
  (lit "padding", PInt (padding c));
  (lit "line_height", PFloat (line_height c));
  (lit "max_width", PStr (max_width c))].

Definition of_kwargs (x : pyval) : res t :=
  (d <- kwargs_of x fields ;;
   a <- kw_int d (lit "font_size_title") 16 ;;
   b <- kw_int d (lit "font_size_content") 14 ;;
   c <- kw_int d (lit "padding") 20 ;;
   e <- kw_float d (lit "line_height") 1.6%float ;;
   f <- kw_str d (lit "max_width") (lit "100%") ;;
   Ok {| font_size_title := a; font_size_content := b; padding := c;
         line_height := e; max_width := f |})%res.

(** The [==] of the dataclass. *)
Definition eqb (a b : t) : bool :=
  (font_size_title a =? font_size_title b)
  && (font_size_content a =? font_size_content b)
  && (padding a =? padding b)
  && PrimFloat.eqb (line_height a) (line_height b)
  && pystr_eqb (max_width a) (max_width b).
End CalloutLayout.

Module TableLayout.
Record t := {
  font_size_header : Z;
  font_size_body : Z;
  cell_padding : Z;
  max_cell_width : Z;
  overflow_strategy : pystr
}.

Definition default : t := {|
  font_size_header := 13; font_size_body := 12; cell_padding := 12;
  max_cell_width := 200; overflow_strategy := lit "wrap" |}.

Definition set_font_size_header (v : Z) (b : t) : t := {|
  font_size_header := v; font_size_body := font_size_body b;
  cell_padding := cell_padding b; max_cell_width := max_cell_width b;
  overflow_strategy := overflow_strategy b |}.

Definition set_font_size_body (v : Z) (b : t) : t := {|
  font_size_header := font_size_header b; font_size_body := v;
  cell_padding := cell_padding b; max_cell_width := max_cell_width b;
  overflow_strategy := overflow_strategy b |}.

Definition set_cell_padding (v : Z) (b : t) : t := {|
  font_size_header := font_size_header b;
  font_size_body := font_size_body b;
  cell_padding := v; max_cell_width := max_cell_width b;
  overflow_strategy := overflow_strategy b |}.

Definition fields : list pystr :=
  [lit "font_size_header"; lit "font_size_body"; lit "cell_padding";
   lit "max_cell_width"; lit "overflow_strategy"].

Definition asdict (b : t) : pyval := PDict [
  (lit "font_size_header", PInt (font_size_header b));
  (lit "font_size_body", PInt (font_size_body b));
  (lit "cell_padding", PInt (cell_padding b));
  (lit "max_cell_width", PInt (max_cell_width b));
  (lit "overflow_strategy", PStr (overflow_strategy b))].

Definition of_kwargs (x : pyval) : res t :=
  (d <- kwargs_of x fields ;;
   a <- kw_int d (lit "font_size_header") 13 ;;
   b <- kw_int d (lit "font_size_body") 12 ;;
   c <- kw_int d (lit "cell_padding") 12 ;;
   e <- kw_int d (lit "max_cell_width") 200 ;;
   f <- kw_str d (lit "overflow_strategy") (lit "wrap") ;;
   Ok {| font_size_header := a; font_size_body := b; cell_padding := c;
         max_cell_width := e; overflow_strategy := f |})%res.

(** The [==] of the dataclass. *)
Definition eqb (a b : t) : bool :=
  (font_size_header a =? font_size_header b)
  && (font_size_body a =? font_size_body b)
  && (cell_padding a =? cell_padding b)
  && (max_cell_width a =? max_cell_width b)
  && pystr_eqb (overflow_strategy a) (overflow_strategy b).
End TableLayout.

Module ChartLayout.
Record t := {
  font_size_title : Z;
  font_size_label : Z;
  min_height : Z;
  max_height : Z;
  padding : Z
}.

Definition default : t := {|
  font_size_title := 16; font_size_label := 12; min_height := 300;
  max_height := 600; padding := 20 |}.

Definition fields : list pystr :=
  [lit "font_size_title"; lit "font_size_label"; lit "min_height";
   lit "max_height"; lit "padding"].

Definition asdict (c : t) : pyval := PDict [
  (lit "font_size_title", PInt (font_size_title c));
  (lit "font_size_label", PInt (font_size_label c));
  (lit "min_height", PInt (min_height c));
  (lit "max_height", PInt (max_height c));
  (lit "padding", PInt (padding c))].

Definition of_kwargs (x : pyval) : res t :=
  (d <- kwargs_of x fields ;;
   a <- kw_int d (lit "font_size_title") 16 ;;
   b <- kw_int d (lit "font_size_label") 12 ;;
   c <- kw_int d (lit "min_height") 300 ;;
   e <- kw_int d (lit "max_height") 600 ;;
   f <- kw_int d (lit "padding") 20 ;;
   Ok {| font_size_title := a; font_size_label := b; min_height := c;
         max_height := e; padding := f |})%res.

(** The [==] of the dataclass. *)
Definition eqb (a b : t) : bool :=
  (font_size_title a =? font_size_title b)
  && (font_size_label a =? font_size_label b)
  && (min_height a =? min_height b)
  && (max_height a =? max_height b)
  && (padding a =? padding b).
End ChartLayout.

Module GridLayout.
Record t := {
  columns : Z;
  gap : Z;
  responsive_breakpoint : Z
}.

Definition default : t := {|
  columns := 2; gap := 20; responsive_breakpoint := 768 |}.

Definition set_columns (v : Z) (g : t) : t := {|
  columns := v; gap := gap g;
  responsive_breakpoint := responsive_breakpoint g |}.

Definition fields : list pystr :=
  [lit "columns"; lit "gap"; lit "responsive_breakpoint"].

Definition asdict (g : t) : pyval := PDict [
  (lit "columns", PInt (columns g));
  (lit "gap", PInt (gap g));
  (lit "responsive_breakpoint", PInt (responsive_breakpoint g))].

Definition of_kwargs (x : pyval) : res t :=
  (d <- kwargs_of x fields ;;
   a <- kw_int d (lit "columns") 2 ;;
   b <- kw_int d (lit "gap") 20 ;;
   c <- kw_int d (lit "responsive_breakpoint") 768 ;;
   Ok {| columns := a; gap := b; responsive_breakpoint := c |})%res.

(** The [==] of the dataclass. *)
Definition eqb (a b : t) : bool :=
  (columns a =? columns b)
  && (gap a =? gap b)
  && (responsive_breakpoint a =? responsive_breakpoint b).
End GridLayout.

Module PageLayout.
Record t := {
  font_size_base : Z;
  font_size_h1 : Z;
  font_size_h2 : Z;
  font_size_h3 : Z;
  font_size_h4 : Z;
  line_height : float;
  paragraph_spacing : Z;
  section_spacing : Z;
  page_padding : Z;
  max_content_width : Z
}.

Definition default : t := {|
  font_size_base := 14; font_size_h1 := 28; font_size_h2 := 24;
  font_size_h3 := 20; font_size_h4 := 16; line_height := 1.6%float;
  paragraph_spacing := 16; section_spacing := 32; page_padding := 40;
  max_content_width := 800 |}.

Definition set_font_size_base (v : Z) (p : t) : t := {|
  font_size_base := v; font_size_h1 := font_size_h1 p;
  font_size_h2 := font_size_h2 p; font_size_h3 := font_size_h3 p;
  font_size_h4 := font_size_h4 p; line_height := line_height p;
  paragraph_spacing := paragraph_spacing p;
  section_spacing := section_spacing p; page_padding := page_padding p;
  max_content_width := max_content_width p |}.

Definition set_font_size_h2 (v : Z) (p : t) : t := {|
  font_size_base := font_size_base p; font_size_h1 := font_size_h1 p;
  font_size_h2 := v; font_size_h3 := font_size_h3 p;
  font_size_h4 := font_size_h4 p; line_height := line_height p;
  paragraph_spacing := paragraph_spacing p;
  section_spacing := section_spacing p; page_padding := page_padding p;
  max_content_width := max_content_width p |}.

Definition set_font_size_h3 (v : Z) (p : t) : t := {|
  font_size_base := font_size_base p; font_size_h1 := font_size_h1 p;
  font_size_h2 := font_size_h2 p; font_size_h3 := v;
  font_size_h4 := font_size_h4 p; line_height := line_height p;
  paragraph_spacing := paragraph_spacing p;
  section_spacing := section_spacing p; page_padding := page_padding p;
  max_content_width := max_content_width p |}.

Definition set_line_height (v : float) (p : t) : t := {|
  font_size_base := font_size_base p; font_size_h1 := font_size_h1 p;
  font_size_h2 := font_size_h2 p; font_size_h3 := font_size_h3 p;
  font_size_h4 := font_size_h4 p; line_height := v;
  paragraph_spacing := paragraph_spacing p;
  section_spacing := section_spacing p; page_padding := page_padding p;
  max_content_width := max_content_width p |}.

Definition set_paragraph_spacing (v : Z) (p : t) : t := {|
  font_size_base := font_size_base p; font_size_h1 := font_size_h1 p;
  font_size_h2 := font_size_h2 p; font_size_h3 := font_size_h3 p;
  font_size_h4 := font_size_h4 p; line_height := line_height p;
  paragraph_spacing := v;
  section_spacing := section_spacing p; page_padding := page_padding p;
  max_content_width := max_content_width p |}.

Definition fields : list pystr :=
  [lit "font_size_base"; lit "font_size_h1"; lit "font_size_h2";
   lit "font_size_h3"; lit "font_size_h4"; lit "line_height";
   lit "paragraph_spacing"; lit "section_spacing"; lit "page_padding";
   lit "max_content_width"].

Definition asdict (p : t) : pyval := PDict [
  (lit "font_size_base", PInt (font_size_base p));
  (lit "font_size_h1", PInt (font_size_h1 p));
  (lit "font_size_h2", PInt (font_size_h2 p));
  (lit "font_size_h3", PInt (font_size_h3 p));
  (lit "font_size_h4", PInt (font_size_h4 p));
  (lit "line_height", PFloat (line_height p));
  (lit "paragraph_spacing", PInt (paragraph_spacing p));
  (lit "section_spacing", PInt (section_spacing p));
  (lit "page_padding", PInt (page_padding p));
  (lit "max_content_width", PInt (max_content_width p))].

Definition of_kwargs (x : pyval) : res t :=
  (d <- kwargs_of x fields ;;
   a <- kw_int d (lit "font_size_base") 14 ;;
   b <- kw_int d (lit "font_size_h1") 28 ;;
   c <- kw_int d (lit "font_size_h2") 24 ;;
   e <- kw_int d (lit "font_size_h3") 20 ;;
   f <- kw_int d (lit "font_size_h4") 16 ;;
   g <- kw_float d (lit "line_height") 1.6%float ;;
   h <- kw_int d (lit "paragraph_spacing") 16 ;;
   i <- kw_int d (lit "section_spacing") 32 ;;
   j <- kw_int d (lit "page_padding") 40 ;;
   k <- kw_int d (lit "max_content_width") 800 ;;
   Ok {| font_size_base := a; font_size_h1 := b; font_size_h2 := c;
         font_size_h3 := e; font_size_h4 := f; line_height := g;
         paragraph_spacing := h; section_spacing := i; page_padding := j;
         max_content_width := k |})%res.

(** The [==] of the dataclass. *)
Definition eqb (a b : t) : bool :=
  (font_size_base a =? font_size_base b)
  && (font_size_h1 a =? font_size_h1 b)
  && (font_size_h2 a =? font_size_h2 b)
  && (font_size_h3 a =? font_size_h3 b)
  && (font_size_h4 a =? font_size_h4 b)
  && PrimFloat.eqb (line_height a) (line_height b)
  && (paragraph_spacing a =? paragraph_spacing b)
  && (section_spacing a =? section_spacing b)
  && (page_padding a =? page_padding b)
  && (max_content_width a =? max_content_width b).
End PageLayout.

(** A reference to an object of the store. *)
Definition loc := positive.

(** A [PDFLayoutConfig] instance: it refers to its six sub-layouts. *)
Module PDFLayoutConfig.
Record t := {
  page : loc;
  kpi_card : loc;
  callout : loc;
  table : loc;
  chart : loc;
  grid : loc;
  auto_adjust_font_size : bool;
  auto_adjust_grid_columns : bool;
  prevent_orphan_headers : bool;
  optimize_for_print : bool
}.
End PDFLayoutConfig.

(** A [PDFLayoutOptimizer] instance. *)
Module PDFLayoutOptimizer.
Record t := {
  config : loc;
  optimization_log : list pystr
}.
End PDFLayoutOptimizer.

(** The content of a configuration: what its fields and the fields of its
    sub-layouts hold. *)
Module ConfigValue.
Record t := {
  page : PageLayout.t;
  kpi_card : KPICardLayout.t;
  callout : CalloutLayout.t;
  table : TableLayout.t;
  chart : ChartLayout.t;
  grid : GridLayout.t;
  auto_adjust_font_size : bool;
  auto_adjust_grid_columns : bool;
  prevent_orphan_headers : bool;
  optimize_for_print : bool
}.

Definition default : t := {|
  page := PageLayout.default; kpi_card := KPICardLayout.default;
  callout := CalloutLayout.default; table := TableLayout.default;
  chart := ChartLayout.default; grid := GridLayout.default;
  auto_adjust_font_size := true; auto_adjust_grid_columns := true;
  prevent_orphan_headers := true; optimize_for_print := true |}.

Definition set_page (v : PageLayout.t) (c : t) : t := {|
  page := v; kpi_card := kpi_card c; callout := callout c;
  table := table c; chart := chart c; grid := grid c;
  auto_adjust_font_size := auto_adjust_font_size c;
  auto_adjust_grid_columns := auto_adjust_grid_columns c;
  prevent_orphan_headers := prevent_orphan_headers c;
  optimize_for_print := optimize_for_print c |}.

Definition set_kpi_card (v : KPICardLayout.t) (c : t) : t := {|
  page := page c; kpi_card := v; callout := callout c;
  table := table c; chart := chart c; grid := grid c;
  auto_adjust_font_size := auto_adjust_font_size c;
  auto_adjust_grid_columns := auto_adjust_grid_columns c;
  prevent_orphan_headers := prevent_orphan_headers c;
  optimize_for_print := optimize_for_print c |}.

Definition set_callout (v : CalloutLayout.t) (c : t) : t := {|
  page := page c; kpi_card := kpi_card c; callout := v;
  table := table c; chart := chart c; grid := grid c;
  auto_adjust_font_size := auto_adjust_font_size c;
  auto_adjust_grid_columns := auto_adjust_grid_columns c;
  prevent_orphan_headers := prevent_orphan_headers c;
  optimize_for_print := optimize_for_print c |}.

Definition set_table (v : TableLayout.t) (c : t) : t := {|
  page := page c; kpi_card := kpi_card c; callout := callout c;
  table := v; chart := chart c; grid := grid c;
  auto_adjust_font_size := auto_adjust_font_size c;
  auto_adjust_grid_columns := auto_adjust_grid_columns c;
  prevent_orphan_headers := prevent_orphan_headers c;
  optimize_for_print := optimize_for_print c |}.

Definition set_grid (v : GridLayout.t) (c : t) : t := {|
  page := page c; kpi_card := kpi_card c; callout := callout c;
  table := table c; chart := chart c; grid := v;
  auto_adjust_font_size := auto_adjust_font_size c;
  auto_adjust_grid_columns := auto_adjust_grid_columns c;
  prevent_orphan_headers := prevent_orphan_headers c;
  optimize_for_print := optimize_for_print c |}.

(** [PDFLayoutConfig.to_dict] on the content. *)
Definition to_dict (c : t) : pyval := PDict [
  (lit "page", PageLayout.asdict (page c));
  (lit "kpi_card", KPICardLayout.asdict (kpi_card c));
  (lit "callout", CalloutLayout.asdict (callout c));
  (lit "table", TableLayout.asdict (table c));
  (lit "chart", ChartLayout.asdict (chart c));
  (lit "grid", GridLayout.asdict (grid c));
  (lit "auto_adjust_font_size", PBool (auto_adjust_font_size c));
  (lit "auto_adjust_grid_columns", PBool (auto_adjust_grid_columns c));
  (lit "prevent_orphan_headers", PBool (prevent_orphan_headers c));
  (lit "optimize_for_print", PBool (optimize_for_print c))].

(** The [==] of two [PDFLayoutConfig] instances, on their contents. *)
Definition eqb (a b : t) : bool :=
  PageLayout.eqb (page a) (page b)
  && KPICardLayout.eqb (kpi_card a) (kpi_card b)
  && CalloutLayout.eqb (callout a) (callout b)
  && TableLayout.eqb (table a) (table b)
  && ChartLayout.eqb (chart a) (chart b)
  && GridLayout.eqb (grid a) (grid b)
  && Bool.eqb (auto_adjust_font_size a) (auto_adjust_font_size b)
  && Bool.eqb (auto_adjust_grid_columns a) (auto_adjust_grid_columns b)
  && Bool.eqb (prevent_orphan_headers a) (prevent_orphan_headers b)
  && Bool.eqb (optimize_for_print a) (optimize_for_print b).
End ConfigValue.

(* ------------------------------------------------------------------ *)
(** ** The store *)

Inductive obj :=
| OPage (v : PageLayout.t)
| OKPICard (v : KPICardLayout.t)
| OCallout (v : CalloutLayout.t)
| OTable (v : TableLayout.t)
| OChart (v : ChartLayout.t)
| OGrid (v : GridLayout.t)
| OConfig (v : PDFLayoutConfig.t)
| OOptimizer (v : PDFLayoutOptimizer.t).

(** What a file holds: a JSON document, as [json.load] returns it, or
    something [json.load] rejects. *)
Inductive file_content :=
| JsonDoc (data : pyval)
| NotJson.

(** The objects, and the file system: the content of each existing file,
    and the paths at which creating the parent directories and opening for
    writing succeed. *)
Record world := {
  heap : gmap loc obj;
  files : gmap pystr file_content;
  writable : pystr -> bool
}.

Definition set_heap (h : gmap loc obj) (w : world) : world :=
  {| heap := h; files := files w; writable := writable w |}.


(** A call that may read and change the world. *)
Definition M (A : Type) : Type := world -> res A * world.

Definition ret {A} (a : A) : M A := fun w => (Ok a, w).

Definition bind {A B} (m : M A) (k : A -> M B) : M B :=
  fun w =>
    match m w with
    | (Ok a, w') => k a w'
    | (Raise e, w') => (Raise e, w')
    | (Undef, w') => (Undef, w')
    end.

Definition lift {A} (r : res A) : M A := fun w => (r, w).

Declare Scope M_scope.
Delimit Scope M_scope with M.
Notation "x <- m ;; k" := (bind m (fun x => k))
  (at level 100, m at next level, right associativity) : M_scope.

Definition alloc (o : obj) : M loc :=
  fun w =>
    let l := fresh (dom (heap w)) in
    (Ok l, set_heap (<[l := o]> (heap w)) w).

Definition load (l : loc) : M obj :=
  fun w =>
    match heap w !! l with
    | Some o => (Ok o, w)
    | None => (Undef, w)
    end.

Definition store (l : loc) (o : obj) : M unit :=
  fun w => (Ok tt, set_heap (<[l := o]> (heap w)) w).

Definition load_config (l : loc) : M PDFLayoutConfig.t :=
  (o <- load l ;;
   match o with OConfig v => ret v | _ => lift Undef end)%M.

Definition load_optimizer (l : loc) : M PDFLayoutOptimizer.t :=
  (o <- load l ;;
   match o with OOptimizer v => ret v | _ => lift Undef end)%M.

Definition load_page (l : loc) : M PageLayout.t :=
  (o <- load l ;; match o with OPage v => ret v | _ => lift Undef end)%M.

Definition load_kpi_card (l : loc) : M KPICardLayout.t :=
  (o <- load l ;; match o with OKPICard v => ret v | _ => lift Undef end)%M.

Definition load_callout (l : loc) : M CalloutLayout.t :=
  (o <- load l ;; match o with OCallout v => ret v | _ => lift Undef end)%M.

Definition load_table (l : loc) : M TableLayout.t :=
  (o <- load l ;; match o with OTable v => ret v | _ => lift Undef end)%M.

Definition load_chart (l : loc) : M ChartLayout.t :=
  (o <- load l ;; match o with OChart v => ret v | _ => lift Undef end)%M.

Definition load_grid (l : loc) : M GridLayout.t :=
  (o <- load l ;; match o with OGrid v => ret v | _ => lift Undef end)%M.

(** Reading every field of a configuration and of its sub-layouts. *)
Definition read_config (c : loc) : M ConfigValue.t :=
  (cfg <- load_config c ;;
   p <- load_page (PDFLayoutConfig.page cfg) ;;
   k <- load_kpi_card (PDFLayoutConfig.kpi_card cfg) ;;
   co <- load_callout (PDFLayoutConfig.callout cfg) ;;
   t <- load_table (PDFLayoutConfig.table cfg) ;;
   ch <- load_chart (PDFLayoutConfig.chart cfg) ;;
   g <- load_grid (PDFLayoutConfig.grid cfg) ;;
   ret {| ConfigValue.page := p; ConfigValue.kpi_card := k;
          ConfigValue.callout := co; ConfigValue.table := t;
          ConfigValue.chart := ch; ConfigValue.grid := g;
          ConfigValue.auto_adjust_font_size :=
            PDFLayoutConfig.auto_adjust_font_size cfg;
          ConfigValue.auto_adjust_grid_columns :=
            PDFLayoutConfig.auto_adjust_grid_columns cfg;
          ConfigValue.prevent_orphan_headers :=
            PDFLayoutConfig.prevent_orphan_headers cfg;
          ConfigValue.optimize_for_print :=
            PDFLayoutConfig.optimize_for_print cfg |})%M.

(** Attribute assignments [config.page.f = v], [config.kpi_card.f = v], ... *)
Definition modify_page (config : loc) (f : PageLayout.t -> PageLayout.t)
  : M unit :=
  (cfg <- load_config config ;;
   v <- load_page (PDFLayoutConfig.page cfg) ;;
   store (PDFLayoutConfig.page cfg) (OPage (f v)))%M.

Definition modify_kpi_card (config : loc)
  (f : KPICardLayout.t -> KPICardLayout.t) : M unit :=
  (cfg <- load_config config ;;
   v <- load_kpi_card (PDFLayoutConfig.kpi_card cfg) ;;
   store (PDFLayoutConfig.kpi_card cfg) (OKPICard (f v)))%M.

Definition modify_callout (config : loc)
  (f : CalloutLayout.t -> CalloutLayout.t) : M unit :=
  (cfg <- load_config config ;;
   v <- load_callout (PDFLayoutConfig.callout cfg) ;;
   store (PDFLayoutConfig.callout cfg) (OCallout (f v)))%M.

Definition modify_table (config : loc) (f : TableLayout.t -> TableLayout.t)
  : M unit :=
  (cfg <- load_config config ;;
   v <- load_table (PDFLayoutConfig.table cfg) ;;
   store (PDFLayoutConfig.table cfg) (OTable (f v)))%M.

Definition modify_grid (config : loc) (f : GridLayout.t -> GridLayout.t)
  : M unit :=
  (cfg <- load_config config ;;
   v <- load_grid (PDFLayoutConfig.grid cfg) ;;
   store (PDFLayoutConfig.grid cfg) (OGrid (f v)))%M.

(** [self.optimization_log.append(message)] *)
Definition log_append (self : loc) (message : pystr) : M unit :=
  (o <- load_optimizer self ;;
   store self
     (OOptimizer {|
        PDFLayoutOptimizer.config := PDFLayoutOptimizer.config o;
        PDFLayoutOptimizer.optimization_log :=
          PDFLayoutOptimizer.optimization_log o ++ [message] |}))%M.

(** [self.optimization_log.clear()] *)
Definition log_clear (self : loc) : M unit :=
  (o <- load_optimizer self ;;
   store self
     (OOptimizer {|
        PDFLayoutOptimizer.config := PDFLayoutOptimizer.config o;
        PDFLayoutOptimizer.optimization_log := [] |}))%M.

(** Constructing a [PDFLayoutConfig] from the content of its fields: the
    six sub-layouts are built first, in the order of the arguments. *)
Definition new_config (v : ConfigValue.t) : M loc :=
  (page <- alloc (OPage (ConfigValue.page v)) ;;
   kpi_card <- alloc (OKPICard (ConfigValue.kpi_card v)) ;;
   callout <- alloc (OCallout (ConfigValue.callout v)) ;;
   table <- alloc (OTable (ConfigValue.table v)) ;;
   chart <- alloc (OChart (ConfigValue.chart v)) ;;
   grid <- alloc (OGrid (ConfigValue.grid v)) ;;
   alloc (OConfig {|
     PDFLayoutConfig.page := page; PDFLayoutConfig.kpi_card := kpi_card;
     PDFLayoutConfig.callout := callout; PDFLayoutConfig.table := table;
     PDFLayoutConfig.chart := chart; PDFLayoutConfig.grid := grid;
     PDFLayoutConfig.auto_adjust_font_size :=
       ConfigValue.auto_adjust_font_size v;
     PDFLayoutConfig.auto_adjust_grid_columns :=
       ConfigValue.auto_adjust_grid_columns v;
     PDFLayoutConfig.prevent_orphan_headers :=
       ConfigValue.prevent_orphan_headers v;
     PDFLayoutConfig.optimize_for_print :=
       ConfigValue.optimize_for_print v |}))%M.



(** What the embedding takes from the Python runtime rather than from this
    repository: the Unicode character database beyond ASCII, and the
    [repr] of floats and of containers. *)
Class PyRuntime := {
  uni_isalpha : N -> bool;
  uni_isdigit : N -> bool;
  float_repr : float -> pystr;
  container_repr : pyval -> pystr
}.

(* ------------------------------------------------------------------ *)
(** ** Numbers *)

(** The conversion [int -> float] that [int * float] performs: correctly
    rounded, [OverflowError] when the integer is beyond the doubles. *)
Definition int_to_float (z : Z) : res float :=
  match binary_normalize prec emax z 0 false with
  | S754_infinity _ => Raise OverflowError
  | sf => Ok (SF2Prim sf)
  end.

(** [f > z] for a float and an int; CPython compares the exact values. *)
Definition float_gt_int (f : float) (z : Z) : bool :=
  match Prim2SF f with
  | S754_nan => false
  | S754_infinity s => negb s
  | S754_zero _ => z <? 0
  | S754_finite s m e =>
      let n := if s then Z.neg m else Z.pos m in
      if 0 <=? e then z <? n * 2 ^ e else z * 2 ^ (- e) <? n
  end.

Section Optimizer.
Context {rt : PyRuntime}.

Definition isalpha (c : N) : bool :=
  if (c <? 128)%N then ascii_isalpha c else uni_isalpha c.

Definition isdigit (c : N) : bool :=
  if (c <? 128)%N then ascii_isdigit c else uni_isdigit c.

(* ------------------------------------------------------------------ *)
(** ** Text metrics and the font-size solver *)

(** CHAR_WIDTH_FACTOR *)
Definition factor_chinese : float := 1%float.
Definition factor_english : float := 0.55%float.
Definition factor_number : float := 0.6%float.
Definition factor_symbol : float := 0.4%float.

(** One turn of the loop of [_estimate_text_width]. *)
Definition add_char_width (font_size : Z) (width : float) (char : N)
  : res float :=
  (if (0x4e00 <=? char)%N && (char <=? 0x9fff)%N then
     fs <- int_to_float font_size ;;
     Ok (PrimFloat.add width (PrimFloat.mul fs factor_chinese))
   else if isalpha char then
     fs <- int_to_float font_size ;;
     Ok (PrimFloat.add width (PrimFloat.mul fs factor_english))
   else if isdigit char then
     fs <- int_to_float font_size ;;
     Ok (PrimFloat.add width (PrimFloat.mul fs factor_number))
   else
     fs <- int_to_float font_size ;;
     Ok (PrimFloat.add width (PrimFloat.mul fs factor_symbol)))%res.

Fixpoint width_loop (font_size : Z) (width : float) (text : pystr)
  : res float :=
  match text with
  | [] => Ok width
  | char :: rest =>
      (w <- add_char_width font_size width char ;;
       width_loop font_size w rest)%res
  end.

Definition _estimate_text_width (text : pystr) (font_size : Z) : res float :=
  match text with
  | [] => Ok 0%float
  | _ => width_loop font_size 0%float text
  end.

Definition _check_text_overflow (text : pystr) (font_size max_width : Z)
  : res bool :=
  (estimated_width <- _estimate_text_width text font_size ;;
   Ok (float_gt_int estimated_width max_width))%res.

(** [range(start, stop, -1)] *)
Fixpoint range_down_from (start : Z) (n : nat) : list Z :=
  match n with
  | O => []
  | S n' => start :: range_down_from (start - 1) n'
  end.

Definition range_down (start stop : Z) : list Z :=
  range_down_from start (Z.to_nat (start - stop)).

Fixpoint font_size_scan (text : pystr) (max_width max_font_size : Z)
  (min_font_size : Z) (sizes : list Z) : res (Z * bool) :=
  match sizes with
  | [] => Ok (min_font_size, true)
  | font_size :: rest =>
      (overflow <- _check_text_overflow text font_size max_width ;;
       if negb overflow then
         let needs_adjustment := font_size <? max_font_size in
         Ok (font_size, needs_adjustment)
       else font_size_scan text max_width max_font_size min_font_size rest)%res
  end.

Definition _calculate_safe_font_size (text : pystr)
  (max_width min_font_size max_font_size : Z) : res (Z * bool) :=
  match text with
  | [] => Ok (max_font_size, false)
  | _ =>
      font_size_scan text max_width max_font_size min_font_size
        (range_down max_font_size (min_font_size - 1))
  end.

(* ------------------------------------------------------------------ *)
(** ** Document analyzer *)

(** [str(x)] *)
Definition py_str (x : pyval) : pystr :=
  match x with
  | PNone => lit "None"
  | PBool true => lit "True"
  | PBool false => lit "False"
  | PInt z => int_str z
  | PFloat f => float_repr f
  | PStr s => s
  | PList _ | PDict _ => container_repr x
  end.

(** The [stats] dictionary of [_analyze_document]; its keys are fixed. *)
Record Stats := {
  kpi_count : Z;
  table_count : Z;
  chart_count : Z;
  callout_count : Z;
  max_kpi_value_length : Z;
  max_table_columns : Z;
  max_table_rows : Z;
  total_content_length : Z;
  has_long_text : bool
}.

Definition initial_stats : Stats := {|
  kpi_count := 0; table_count := 0; chart_count := 0; callout_count := 0;
  max_kpi_value_length := 0; max_table_columns := 0; max_table_rows := 0;
  total_content_length := 0; has_long_text := false
|}.

Definition set_kpi_count (v : Z) (s : Stats) : Stats := {|
  kpi_count := v; table_count := table_count s; chart_count := chart_count s;
  callout_count := callout_count s;
  max_kpi_value_length := max_kpi_value_length s;
  max_table_columns := max_table_columns s;
  max_table_rows := max_table_rows s;
  total_content_length := total_content_length s;
  has_long_text := has_long_text s |}.

Definition set_table_count (v : Z) (s : Stats) : Stats := {|
  kpi_count := kpi_count s; table_count := v; chart_count := chart_count s;
  callout_count := callout_count s;
  max_kpi_value_length := max_kpi_value_length s;
  max_table_columns := max_table_columns s;
  max_table_rows := max_table_rows s;
  total_content_length := total_content_length s;
  has_long_text := has_long_text s |}.

Definition set_chart_count (v : Z) (s : Stats) : Stats := {|
  kpi_count := kpi_count s; table_count := table_count s; chart_count := v;
  callout_count := callout_count s;
  max_kpi_value_length := max_kpi_value_length s;
  max_table_columns := max_table_columns s;
  max_table_rows := max_table_rows s;
  total_content_length := total_content_length s;
  has_long_text := has_long_text s |}.

Definition set_callout_count (v : Z) (s : Stats) : Stats := {|
  kpi_count := kpi_count s; table_count := table_count s;
  chart_count := chart_count s; callout_count := v;
  max_kpi_value_length := max_kpi_value_length s;
  max_table_columns := max_table_columns s;
  max_table_rows := max_table_rows s;
  total_content_length := total_content_length s;
  has_long_text := has_long_text s |}.

Definition set_max_kpi_value_length (v : Z) (s : Stats) : Stats := {|
  kpi_count := kpi_count s; table_count := table_count s;
  chart_count := chart_count s; callout_count := callout_count s;
  max_kpi_value_length := v;
  max_table_columns := max_table_columns s;
  max_table_rows := max_table_rows s;
  total_content_length := total_content_length s;
  has_long_text := has_long_text s |}.

Definition set_max_table_columns (v : Z) (s : Stats) : Stats := {|
  kpi_count := kpi_count s; table_count := table_count s;
  chart_count := chart_count s; callout_count := callout_count s;
  max_kpi_value_length := max_kpi_value_length s;
  max_table_columns := v;
  max_table_rows := max_table_rows s;
  total_content_length := total_content_length s;
  has_long_text := has_long_text s |}.

Definition set_max_table_rows (v : Z) (s : Stats) : Stats := {|
  kpi_count := kpi_count s; table_count := table_count s;
  chart_count := chart_count s; callout_count := callout_count s;
  max_kpi_value_length := max_kpi_value_length s;
  max_table_columns := max_table_columns s;
  max_table_rows := v;
  total_content_length := total_content_length s;
  has_long_text := has_long_text s |}.

Definition set_total_content_length (v : Z) (s : Stats) : Stats := {|
  kpi_count := kpi_count s; table_count := table_count s;
  chart_count := chart_count s; callout_count := callout_count s;
  max_kpi_value_length := max_kpi_value_length s;
  max_table_columns := max_table_columns s;
  max_table_rows := max_table_rows s;
  total_content_length := v;
  has_long_text := has_long_text s |}.

Definition set_has_long_text (v : bool) (s : Stats) : Stats := {|
  kpi_count := kpi_count s; table_count := table_count s;
  chart_count := chart_count s; callout_count := callout_count s;
  max_kpi_value_length := max_kpi_value_length s;
  max_table_columns := max_table_columns s;
  max_table_rows := max_table_rows s;
  total_content_length := total_content_length s;
  has_long_text := v |}.

(** One turn of the loop of [_extract_text_from_paragraph]. *)
Definition extract_inline (inline : pyval) (text_parts : list pystr)
  : res (list pystr) :=
  (if is_dict inline then
     text <- py_get inline (lit "text") (PStr []) ;;
     if py_truthy text then Ok (text_parts ++ [py_str text])
     else Ok text_parts
   else if is_str inline then
     Ok (text_parts ++ [match inline with PStr s => s | _ => [] end])
   else Ok text_parts)%res.

Definition _extract_text_from_paragraph (paragraph : pyval) : res pystr :=
  (inlines <- py_get paragraph (lit "inlines") (PList []) ;;
   items <- py_iter inlines ;;
   text_parts <- res_fold extract_inline items [] ;;
   Ok (concat text_parts))%res.

(** One turn of the KPI loop of [_analyze_block]. *)
Definition analyze_kpi (kpi : pyval) (stats : Stats) : res Stats :=
  (v <- py_get kpi (lit "value") (PStr []) ;;
   let value := py_str v in
   Ok (set_max_kpi_value_length
         (Z.max (max_kpi_value_length stats) (Z.of_nat (length value)))
         stats))%res.

(** One turn of the loop over the blocks of a callout. *)
Definition analyze_callout_block (cb : pyval) (stats : Stats) : res Stats :=
  (if is_dict cb then
     t <- py_get cb (lit "type") PNone ;;
     if py_eq_str t (lit "paragraph") then
       text <- _extract_text_from_paragraph cb ;;
       if 200 <? Z.of_nat (length text) then Ok (set_has_long_text true stats)
       else Ok stats
     else Ok stats
   else Ok stats)%res.

(** The dispatch of [_analyze_block] on the node type, before the descent
    into nested blocks. *)
Definition analyze_block_node (block : pyval) (node_type : pyval)
  (stats : Stats) : res Stats :=
  (if py_eq_str node_type (lit "kpiGrid") then
     kpis <- py_get block (lit "items") (PList []) ;;
     n <- py_len kpis ;;
     let stats := set_kpi_count (kpi_count stats + n) stats in
     items <- py_iter kpis ;;
     res_fold analyze_kpi items stats
   else if py_eq_str node_type (lit "table") then
     let stats := set_table_count (table_count stats + 1) stats in
     headers <- py_get block (lit "headers") (PList []) ;;
     rows <- py_get block (lit "rows") (PList []) ;;
     first_is_dict <-
       (if py_truthy rows then
          row0 <- py_getitem0 rows ;; Ok (is_dict row0)
        else Ok false) ;;
     stats <-
       (if first_is_dict : bool then
          row0 <- py_getitem0 rows ;;
          cells <- py_get row0 (lit "cells") (PList []) ;;
          n <- py_len cells ;;
          Ok (set_max_table_columns (Z.max (max_table_columns stats) n) stats)
        else
          n <- py_len headers ;;
          Ok (set_max_table_columns (Z.max (max_table_columns stats) n) stats)) ;;
     n <- py_len rows ;;
     Ok (set_max_table_rows (Z.max (max_table_rows stats) n) stats)
   else if py_eq_str node_type (lit "chart")
           || py_eq_str node_type (lit "widget") then
     Ok (set_chart_count (chart_count stats + 1) stats)
   else if py_eq_str node_type (lit "callout") then
     let stats := set_callout_count (callout_count stats + 1) stats in
     callout_blocks <- py_get block (lit "blocks") (PList []) ;;
     items <- py_iter callout_blocks ;;
     res_fold analyze_callout_block items stats
   else if py_eq_str node_type (lit "paragraph") then
     text <- _extract_text_from_paragraph block ;;
     let n := Z.of_nat (length text) in
     let stats := set_total_content_length (total_content_length stats + n)
                    stats in
     if 500 <? n then Ok (set_has_long_text true stats) else Ok stats
   else Ok stats)%res.

(** [_analyze_block], with the recursion budget [fuel]. *)
Fixpoint analyze_block_fuel (fuel : nat) (block : pyval) (stats : Stats)
  : res Stats :=
  if negb (is_dict block) then Ok stats
  else
    match fuel with
    | O => Undef
    | S fuel' =>
        (node_type <- py_get block (lit "type") PNone ;;
         stats <- analyze_block_node block node_type stats ;;
         nested_blocks <- py_get block (lit "blocks") (PList []) ;;
         if py_truthy nested_blocks then
           items <- py_iter nested_blocks ;;
           res_fold (analyze_block_fuel fuel') items stats
         else Ok stats)%res
    end.

Definition _analyze_block (block : pyval) (stats : Stats) : res Stats :=
  analyze_block_fuel (height block) block stats.

(** [_analyze_chapter], with the recursion budget [fuel]. *)
Fixpoint analyze_chapter_fuel (fuel : nat) (chapter : pyval) (stats : Stats)
  : res Stats :=
  match fuel with
  | O => Undef
  | S fuel' =>
      (blocks <- py_get chapter (lit "blocks") (PList []) ;;
       items <- py_iter blocks ;;
       stats <- res_fold _analyze_block items stats ;;
       children <- py_get chapter (lit "children") (PList []) ;;
       items <- py_iter children ;;
       res_fold
         (fun child stats =>
            if is_dict child then analyze_chapter_fuel fuel' child stats
            else Ok stats)
         items stats)%res
  end.

Definition _analyze_chapter (chapter : pyval) (stats : Stats) : res Stats :=
  analyze_chapter_fuel (S (height chapter)) chapter stats.

Definition _analyze_document (document_ir : pyval) : res Stats :=
  (let stats := initial_stats in
   chapters <- py_get document_ir (lit "chapters") (PList []) ;;
   chapters <-
     (if negb (py_truthy chapters) then
        py_get document_ir (lit "sections") (PList [])
      else Ok chapters) ;;
   items <- py_iter chapters ;;
   res_fold _analyze_chapter items stats)%res.

(** [_analyze_section]: kept by the source for backward compatibility, it
    calls [_analyze_chapter]. *)
Definition _analyze_section (section : pyval) (stats : Stats) : res Stats :=
  _analyze_chapter section stats.

(* ------------------------------------------------------------------ *)
(** ** The optimizer object *)

(** [_create_default_config] *)
Definition _create_default_config : M loc := new_config ConfigValue.default.

(** [__init__]: [config or self._create_default_config()], an empty log. *)
Definition __init__ (config : option loc) : M loc :=
  (c <- match config with
        | Some c => ret c
        | None => _create_default_config
        end ;;
   alloc (OOptimizer {| PDFLayoutOptimizer.config := c;
                        PDFLayoutOptimizer.optimization_log := [] |}))%M.

(** [config.kpi_card], read through the configuration object. *)
Definition read_kpi_card (config : loc) : M KPICardLayout.t :=
  (cfg <- load_config config ;;
   load_kpi_card (PDFLayoutConfig.kpi_card cfg))%M.

(* ------------------------------------------------------------------ *)
(** ** Configuration adjustment *)

(** The messages, as the f-strings of the source build them. *)
Definition msg_overflow_issue (max_kpi_length current_font_size : Z) : pystr :=
  lit "KPI数值过长(" ++ int_str max_kpi_length ++ lit "字符)，"
  ++ lit "字号" ++ int_str current_font_size ++ lit "px可能导致溢出".

Definition msg_font_size_adjusted (length safe_font_size : Z) : pystr :=
  lit "KPI数值过长(" ++ int_str length ++ lit "字符)，"
  ++ lit "字号自动调整为" ++ int_str safe_font_size ++ lit "px以防止溢出".

Definition msg_font_size_precaution (length font_size : Z) : pystr :=
  lit "KPI数值较长(" ++ int_str length ++ lit "字符)，"
  ++ lit "预防性调整字号为" ++ int_str font_size ++ lit "px".

Definition msg_many_cards (count : Z) : pystr :=
  lit "KPI卡片较多(" ++ int_str count ++ lit "个)，"
  ++ lit "调整为3列布局并缩小内边距".

Definition msg_some_cards (count : Z) : pystr :=
  lit "KPI卡片适中(" ++ int_str count ++ lit "个)，使用2列布局".

Definition msg_few_cards (count : Z) : pystr :=
  lit "KPI卡片较少(" ++ int_str count ++ lit "个)，"
  ++ lit "使用1列布局并增加内边距".

Definition msg_very_wide_table (columns : Z) : pystr :=
  lit "表格列数很多(" ++ int_str columns ++ lit "列)，"
  ++ lit "大幅缩小字号和内边距".

Definition msg_wide_table (columns : Z) : pystr :=
  lit "表格列数较多(" ++ int_str columns ++ lit "列)，"
  ++ lit "缩小字号和内边距".

Definition msg_medium_table (columns : Z) : pystr :=
  lit "表格列数适中(" ++ int_str columns ++ lit "列)，"
  ++ lit "适度调整字号".

Definition msg_long_text : pystr :=
  lit "检测到长文本，增加行高至1.8和段落间距以提高可读性".

Definition msg_many_blocks (total_blocks : Z) : pystr :=
  lit "内容块较多(" ++ int_str total_blocks ++ lit "个)，"
  ++ lit "适度缩小整体字号以优化排版".

Definition _detect_kpi_overflow_issues (self : loc) (stats : Stats)
  : M (list pystr) :=
  (let kpi_card_width := (800 - 20) / 2 - 40 in
   let max_kpi_length := max_kpi_value_length stats in
   if 0 <? max_kpi_length then
     let sample_text := str_repeat 49 max_kpi_length ++ lit "亿元" in
     o <- load_optimizer self ;;
     k <- read_kpi_card (PDFLayoutOptimizer.config o) ;;
     let current_font_size := KPICardLayout.font_size_value k in
     overflow <- lift (_check_text_overflow sample_text current_font_size
                         kpi_card_width) ;;
     if overflow : bool then
       ret [msg_overflow_issue max_kpi_length current_font_size]
     else ret []
   else ret [])%M.

(** The copy: each sub-layout is rebuilt from the [asdict] of the
    baseline's, passed as keyword arguments. *)
Definition copy_layouts (base : ConfigValue.t) : res ConfigValue.t :=
  (page <- PageLayout.of_kwargs (PageLayout.asdict (ConfigValue.page base)) ;;
   kpi_card <- KPICardLayout.of_kwargs
                 (KPICardLayout.asdict (ConfigValue.kpi_card base)) ;;
   callout <- CalloutLayout.of_kwargs
                (CalloutLayout.asdict (ConfigValue.callout base)) ;;
   table <- TableLayout.of_kwargs
              (TableLayout.asdict (ConfigValue.table base)) ;;
   chart <- ChartLayout.of_kwargs
              (ChartLayout.asdict (ConfigValue.chart base)) ;;
   grid <- GridLayout.of_kwargs (GridLayout.asdict (ConfigValue.grid base)) ;;
   Ok {| ConfigValue.page := page; ConfigValue.kpi_card := kpi_card;
         ConfigValue.callout := callout; ConfigValue.table := table;
         ConfigValue.chart := chart; ConfigValue.grid := grid;
         ConfigValue.auto_adjust_font_size :=
           ConfigValue.auto_adjust_font_size base;
         ConfigValue.auto_adjust_grid_columns :=
           ConfigValue.auto_adjust_grid_columns base;
         ConfigValue.prevent_orphan_headers :=
           ConfigValue.prevent_orphan_headers base;
         ConfigValue.optimize_for_print :=
           ConfigValue.optimize_for_print base |})%res.

(** The rule on the KPI value length (source lines 463-489). *)
Definition adjust_kpi_font_size (self config : loc) (stats : Stats) : M unit :=
  (let kpi_card_width := (800 - 20) / 2 - 40 in
   if 0 <? max_kpi_value_length stats then
     let sample_text := str_repeat 57 (max_kpi_value_length stats) in
     r <- lift (_calculate_safe_font_size sample_text kpi_card_width 18 32) ;;
     let safe_font_size := fst r in
     let needs_adjustment := snd r in
     if needs_adjustment : bool then
       _ <- modify_kpi_card config
              (KPICardLayout.set_font_size_value safe_font_size) ;;
       log_append self
         (msg_font_size_adjusted (max_kpi_value_length stats) safe_font_size)
     else if 10 <? max_kpi_value_length stats then
       _ <- modify_kpi_card config
              (KPICardLayout.set_font_size_value (Z.min 28 safe_font_size)) ;;
       k <- read_kpi_card config ;;
       log_append self
         (msg_font_size_precaution (max_kpi_value_length stats)
            (KPICardLayout.font_size_value k))
     else ret tt
   else ret tt)%M.

(** The rule on the number of KPI cards (source lines 491-512). *)
Definition adjust_grid_layout (self config : loc) (stats : Stats) : M unit :=
  (if 6 <? kpi_count stats then
     _ <- modify_grid config (GridLayout.set_columns 3) ;;
     _ <- modify_kpi_card config (KPICardLayout.set_min_height 100) ;;
     _ <- modify_kpi_card config (KPICardLayout.set_padding 16) ;;
     log_append self (msg_many_cards (kpi_count stats))
   else if 4 <? kpi_count stats then
     _ <- modify_grid config (GridLayout.set_columns 2) ;;
     _ <- modify_kpi_card config (KPICardLayout.set_padding 18) ;;
     log_append self (msg_some_cards (kpi_count stats))
   else if kpi_count stats <=? 2 then
     _ <- modify_grid config (GridLayout.set_columns 1) ;;
     _ <- modify_kpi_card config (KPICardLayout.set_padding 24) ;;
     log_append self (msg_few_cards (kpi_count stats))
   else ret tt)%M.

(** The rule on the number of table columns (source lines 514-538). *)
Definition adjust_table_layout (self config : loc) (stats : Stats) : M unit :=
  (if 8 <? max_table_columns stats then
     _ <- modify_table config (TableLayout.set_font_size_header 10) ;;
     _ <- modify_table config (TableLayout.set_font_size_body 9) ;;
     _ <- modify_table config (TableLayout.set_cell_padding 6) ;;
     log_append self (msg_very_wide_table (max_table_columns stats))
   else if 6 <? max_table_columns stats then
     _ <- modify_table config (TableLayout.set_font_size_header 11) ;;
     _ <- modify_table config (TableLayout.set_font_size_body 10) ;;
     _ <- modify_table config (TableLayout.set_cell_padding 8) ;;
     log_append self (msg_wide_table (max_table_columns stats))
   else if 4 <? max_table_columns stats then
     _ <- modify_table config (TableLayout.set_font_size_header 12) ;;
     _ <- modify_table config (TableLayout.set_font_size_body 11) ;;
     _ <- modify_table config (TableLayout.set_cell_padding 10) ;;
     log_append self (msg_medium_table (max_table_columns stats))
   else ret tt)%M.

(** The rule on long text (source lines 540-547). *)
Definition adjust_long_text (self config : loc) (stats : Stats) : M unit :=
  (if has_long_text stats then
     _ <- modify_page config (PageLayout.set_line_height 1.8%float) ;;
     _ <- modify_callout config (CalloutLayout.set_line_height 1.8%float) ;;
     _ <- modify_page config (PageLayout.set_paragraph_spacing 18) ;;
     log_append self msg_long_text
   else ret tt)%M.

(** The rule on the number of content blocks (source lines 549-559). *)
Definition adjust_total_blocks (self config : loc) (stats : Stats) : M unit :=
  (let total_blocks := kpi_count stats + table_count stats
                       + chart_count stats + callout_count stats in
   if 20 <? total_blocks then
     _ <- modify_page config (PageLayout.set_font_size_base 13) ;;
     _ <- modify_page config (PageLayout.set_font_size_h2 22) ;;
     _ <- modify_page config (PageLayout.set_font_size_h3 18) ;;
     log_append self (msg_many_blocks total_blocks)
   else ret tt)%M.

Definition _adjust_config_based_on_stats (self : loc) (stats : Stats)
  : M loc :=
  (o <- load_optimizer self ;;
   base <- read_config (PDFLayoutOptimizer.config o) ;;
   copy <- lift (copy_layouts base) ;;
   config <- new_config copy ;;
   overflow_issues <- _detect_kpi_overflow_issues self stats ;;
   _ <- adjust_kpi_font_size self config stats ;;
   _ <- adjust_grid_layout self config stats ;;
   _ <- adjust_table_layout self config stats ;;
   _ <- adjust_long_text self config stats ;;
   _ <- adjust_total_blocks self config stats ;;
   ret config)%M.

(* ------------------------------------------------------------------ *)
(** ** The adjustment as a function of contents

    What [_adjust_config_based_on_stats] computes, on the content of the
    copied configuration and the log: each assignment to a field of the
    copy becomes an update of the content, each [append] an extension of
    the log.  [adjust_config_refines] relates the two. *)

Definition AState : Type := ConfigValue.t * list pystr.

Definition upd_page (f : PageLayout.t -> PageLayout.t) (a : AState) : AState :=
  (ConfigValue.set_page (f (ConfigValue.page (fst a))) (fst a), snd a).

Definition upd_kpi_card (f : KPICardLayout.t -> KPICardLayout.t) (a : AState)
  : AState :=
  (ConfigValue.set_kpi_card (f (ConfigValue.kpi_card (fst a))) (fst a), snd a).

Definition upd_callout (f : CalloutLayout.t -> CalloutLayout.t) (a : AState)
  : AState :=
  (ConfigValue.set_callout (f (ConfigValue.callout (fst a))) (fst a), snd a).

Definition upd_table (f : TableLayout.t -> TableLayout.t) (a : AState)
  : AState :=
  (ConfigValue.set_table (f (ConfigValue.table (fst a))) (fst a), snd a).

Definition upd_grid (f : GridLayout.t -> GridLayout.t) (a : AState) : AState :=
  (ConfigValue.set_grid (f (ConfigValue.grid (fst a))) (fst a), snd a).

Definition add_log (message : pystr) (a : AState) : AState :=
  (fst a, snd a ++ [message]).

Definition detect_kpi_overflow_issues_value (base : ConfigValue.t)
  (stats : Stats) : res (list pystr) :=
  (let kpi_card_width := (800 - 20) / 2 - 40 in
   let max_kpi_length := max_kpi_value_length stats in
   if 0 <? max_kpi_length then
     let sample_text := str_repeat 49 max_kpi_length ++ lit "亿元" in
     let current_font_size :=
       KPICardLayout.font_size_value (ConfigValue.kpi_card base) in
     overflow <- _check_text_overflow sample_text current_font_size
                   kpi_card_width ;;
     if overflow : bool then
       Ok [msg_overflow_issue max_kpi_length current_font_size]
     else Ok []
   else Ok [])%res.

Definition kpi_font_size_rule (stats : Stats) (a : AState) : AState :=
  let kpi_card_width := (800 - 20) / 2 - 40 in
  if 0 <? max_kpi_value_length stats then
    let sample_text := str_repeat 57 (max_kpi_value_length stats) in
    match _calculate_safe_font_size sample_text kpi_card_width 18 32 with
    | Ok (safe_font_size, needs_adjustment) =>
        if needs_adjustment : bool then
          add_log
            (msg_font_size_adjusted (max_kpi_value_length stats)
               safe_font_size)
            (upd_kpi_card (KPICardLayout.set_font_size_value safe_font_size)
               a)
        else if 10 <? max_kpi_value_length stats then
          let a' :=
            upd_kpi_card
              (KPICardLayout.set_font_size_value (Z.min 28 safe_font_size))
              a in
          add_log
            (msg_font_size_precaution (max_kpi_value_length stats)
               (KPICardLayout.font_size_value
                  (ConfigValue.kpi_card (fst a'))))
            a'
        else a
    | _ => a
    end
  else a.

Definition grid_layout_rule (stats : Stats) (a : AState) : AState :=
  if 6 <? kpi_count stats then
    add_log (msg_many_cards (kpi_count stats))
      (upd_kpi_card (KPICardLayout.set_padding 16)
         (upd_kpi_card (KPICardLayout.set_min_height 100)
            (upd_grid (GridLayout.set_columns 3) a)))
  else if 4 <? kpi_count stats then
    add_log (msg_some_cards (kpi_count stats))
      (upd_kpi_card (KPICardLayout.set_padding 18)
         (upd_grid (GridLayout.set_columns 2) a))
  else if kpi_count stats <=? 2 then
    add_log (msg_few_cards (kpi_count stats))
      (upd_kpi_card (KPICardLayout.set_padding 24)
         (upd_grid (GridLayout.set_columns 1) a))
  else a.

Definition table_layout_rule (stats : Stats) (a : AState) : AState :=
  if 8 <? max_table_columns stats then
    add_log (msg_very_wide_table (max_table_columns stats))
      (upd_table (TableLayout.set_cell_padding 6)
         (upd_table (TableLayout.set_font_size_body 9)
            (upd_table (TableLayout.set_font_size_header 10) a)))
  else if 6 <? max_table_columns stats then
    add_log (msg_wide_table (max_table_columns stats))
      (upd_table (TableLayout.set_cell_padding 8)
         (upd_table (TableLayout.set_font_size_body 10)
            (upd_table (TableLayout.set_font_size_header 11) a)))
  else if 4 <? max_table_columns stats then
    add_log (msg_medium_table (max_table_columns stats))
      (upd_table (TableLayout.set_cell_padding 10)
         (upd_table (TableLayout.set_font_size_body 11)
            (upd_table (TableLayout.set_font_size_header 12) a)))
  else a.

Definition long_text_rule (stats : Stats) (a : AState) : AState :=
  if has_long_text stats then
    add_log msg_long_text
      (upd_page (PageLayout.set_paragraph_spacing 18)
         (upd_callout (CalloutLayout.set_line_height 1.8%float)
            (upd_page (PageLayout.set_line_height 1.8%float) a)))
  else a.

Definition total_blocks_rule (stats : Stats) (a : AState) : AState :=
  let total_blocks := kpi_count stats + table_count stats
                      + chart_count stats + callout_count stats in
  if 20 <? total_blocks then
    add_log (msg_many_blocks total_blocks)
      (upd_page (PageLayout.set_font_size_h3 18)
         (upd_page (PageLayout.set_font_size_h2 22)
            (upd_page (PageLayout.set_font_size_base 13) a)))
  else a.

Definition adjust_rules (stats : Stats) (a : AState) : AState :=
  total_blocks_rule stats
    (long_text_rule stats
       (table_layout_rule stats
          (grid_layout_rule stats
             (kpi_font_size_rule stats a)))).

(** The outcome of the adjustment for a baseline of content [base] and a
    log [log]: the content of the new configuration and the new log. *)
Definition adjust_value (base : ConfigValue.t) (log : list pystr)
  (stats : Stats) : res AState :=
  (_ <- detect_kpi_overflow_issues_value base stats ;;
   Ok (adjust_rules stats (base, log)))%res.

(** [PDFLayoutConfig.to_dict] *)
Definition to_dict (config : loc) : M pyval :=
  (v <- read_config config ;; ret (ConfigValue.to_dict v))%M.

(** The [stats] dictionary as a value. *)
Definition stats_dict (stats : Stats) : pyval := PDict [
  (lit "kpi_count", PInt (kpi_count stats));
  (lit "table_count", PInt (table_count stats));
  (lit "chart_count", PInt (chart_count stats));
  (lit "callout_count", PInt (callout_count stats));
  (lit "max_kpi_value_length", PInt (max_kpi_value_length stats));
  (lit "max_table_columns", PInt (max_table_columns stats));
  (lit "max_table_rows", PInt (max_table_rows stats));
  (lit "total_content_length", PInt (total_content_length stats));
  (lit "has_long_text", PBool (has_long_text stats))].

(** The log entry of [_log_optimization]. *)
Definition log_entry_of (now : pystr) (stats : Stats)
  (optimizations : list pystr) (final_config : pyval) : pyval := PDict [
  (lit "timestamp", PStr now);
  (lit "document_stats", stats_dict stats);
  (lit "optimizations", PList (map PStr optimizations));
  (lit "final_config", final_config)].

(** [_log_optimization]; [now] is [datetime.now().isoformat()].  The entry
    holds a copy of the log, so clearing the log leaves the entry as is. *)
Definition _log_optimization (self : loc) (stats : Stats) (config : loc)
  (now : pystr) : M pyval :=
  (o <- load_optimizer self ;;
   final_config <- to_dict config ;;
   let log_entry :=
     log_entry_of now stats (PDFLayoutOptimizer.optimization_log o)
       final_config in
   _ <- log_clear self ;;
   ret log_entry)%M.

(** [optimize_for_document], together with the log entry that
    [_log_optimization] builds and the method drops. *)
Definition optimize_for_document_entry (self : loc) (document_ir : pyval)
  (now : pystr) : M (loc * pyval) :=
  (stats <- lift (_analyze_document document_ir) ;;
   optimized_config <- _adjust_config_based_on_stats self stats ;;
   log_entry <- _log_optimization self stats optimized_config now ;;
   ret (optimized_config, log_entry))%M.

Definition optimize_for_document (self : loc) (document_ir : pyval)
  (now : pystr) : M loc :=
  (r <- optimize_for_document_entry self document_ir now ;; ret (fst r))%M.

(* ------------------------------------------------------------------ *)
(** ** Configuration store *)

Definition as_bool (x : pyval) : res bool :=
  match x with PBool b => Ok b | _ => Undef end.

(** The arguments that [PDFLayoutConfig.from_dict] passes to the
    constructor, as the content of the configuration to build. *)
Definition config_value_of_dict (data : pyval) : res ConfigValue.t :=
  (page <- (x <- py_getitem data (lit "page") ;;
            PageLayout.of_kwargs x) ;;
   kpi_card <- (x <- py_getitem data (lit "kpi_card") ;;
                KPICardLayout.of_kwargs x) ;;
   callout <- (x <- py_getitem data (lit "callout") ;;
               CalloutLayout.of_kwargs x) ;;
   table <- (x <- py_getitem data (lit "table") ;;
             TableLayout.of_kwargs x) ;;
   chart <- (x <- py_getitem data (lit "chart") ;;
             ChartLayout.of_kwargs x) ;;
   grid <- (x <- py_getitem data (lit "grid") ;;
            GridLayout.of_kwargs x) ;;
   a <- (x <- py_get data (lit "auto_adjust_font_size") (PBool true) ;;
         as_bool x) ;;
   b <- (x <- py_get data (lit "auto_adjust_grid_columns") (PBool true) ;;
         as_bool x) ;;
   c <- (x <- py_get data (lit "prevent_orphan_headers") (PBool true) ;;
         as_bool x) ;;
   d <- (x <- py_get data (lit "optimize_for_print") (PBool true) ;;
         as_bool x) ;;
   Ok {| ConfigValue.page := page; ConfigValue.kpi_card := kpi_card;
         ConfigValue.callout := callout; ConfigValue.table := table;
         ConfigValue.chart := chart; ConfigValue.grid := grid;
         ConfigValue.auto_adjust_font_size := a;
         ConfigValue.auto_adjust_grid_columns := b;
         ConfigValue.prevent_orphan_headers := c;
         ConfigValue.optimize_for_print := d |})%res.

(** [PDFLayoutConfig.from_dict] *)
Definition from_dict (data : pyval) : M loc :=
  (v <- lift (config_value_of_dict data) ;; new_config v)%M.



(** [load_config]: the new optimizer. *)
Definition load_config_file (path : pystr) : M loc :=
  fun w =>
    match files w !! path with
    | None => __init__ None w
    | Some NotJson => (Raise JSONDecodeError, w)
    | Some (JsonDoc data) =>
        (d <- lift (py_getitem data (lit "config")) ;;
         config <- from_dict d ;;
         __init__ (Some config))%M w
    end.

(* ------------------------------------------------------------------ *)
(** ** Stylesheet emitter *)

(** The numeric fields of the six sub-layouts. *)
Inductive numeric_field :=
| Page_font_size_base
| Page_font_size_h1
| Page_font_size_h2
| Page_font_size_h3
| Page_font_size_h4
| Page_line_height
| Page_paragraph_spacing
| Page_section_spacing
| Page_page_padding
| Page_max_content_width
| KPICard_font_size_value
| KPICard_font_size_label
| KPICard_font_size_change
| KPICard_padding
| KPICard_min_height
| KPICard_value_max_length
| Callout_font_size_title
| Callout_font_size_content
| Callout_padding
| Callout_line_height
| Table_font_size_header
| Table_font_size_body
| Table_cell_padding
| Table_max_cell_width
| Chart_font_size_title
| Chart_font_size_label
| Chart_min_height
| Chart_max_height
| Chart_padding
| Grid_columns
| Grid_gap
| Grid_responsive_breakpoint.

(** A field as the f-string renders it: [str] of the [int], [repr] of the
    [float]. *)
Definition field_text (cfg : ConfigValue.t) (f : numeric_field) : pystr :=
  match f with
  | Page_font_size_base => int_str (PageLayout.font_size_base (ConfigValue.page cfg))
  | Page_font_size_h1 => int_str (PageLayout.font_size_h1 (ConfigValue.page cfg))
  | Page_font_size_h2 => int_str (PageLayout.font_size_h2 (ConfigValue.page cfg))
  | Page_font_size_h3 => int_str (PageLayout.font_size_h3 (ConfigValue.page cfg))
  | Page_font_size_h4 => int_str (PageLayout.font_size_h4 (ConfigValue.page cfg))
  | Page_line_height => float_repr (PageLayout.line_height (ConfigValue.page cfg))
  | Page_paragraph_spacing => int_str (PageLayout.paragraph_spacing (ConfigValue.page cfg))
  | Page_section_spacing => int_str (PageLayout.section_spacing (ConfigValue.page cfg))
  | Page_page_padding => int_str (PageLayout.page_padding (ConfigValue.page cfg))
  | Page_max_content_width => int_str (PageLayout.max_content_width (ConfigValue.page cfg))
  | KPICard_font_size_value => int_str (KPICardLayout.font_size_value (ConfigValue.kpi_card cfg))
  | KPICard_font_size_label => int_str (KPICardLayout.font_size_label (ConfigValue.kpi_card cfg))
  | KPICard_font_size_change => int_str (KPICardLayout.font_size_change (ConfigValue.kpi_card cfg))
  | KPICard_padding => int_str (KPICardLayout.padding (ConfigValue.kpi_card cfg))
  | KPICard_min_height => int_str (KPICardLayout.min_height (ConfigValue.kpi_card cfg))
  | KPICard_value_max_length => int_str (KPICardLayout.value_max_length (ConfigValue.kpi_card cfg))
  | Callout_font_size_title => int_str (CalloutLayout.font_size_title (ConfigValue.callout cfg))
  | Callout_font_size_content => int_str (CalloutLayout.font_size_content (ConfigValue.callout cfg))
  | Callout_padding => int_str (CalloutLayout.padding (ConfigValue.callout cfg))
  | Callout_line_height => float_repr (CalloutLayout.line_height (ConfigValue.callout cfg))
  | Table_font_size_header => int_str (TableLayout.font_size_header (ConfigValue.table cfg))
  | Table_font_size_body => int_str (TableLayout.font_size_body (ConfigValue.table cfg))
  | Table_cell_padding => int_str (TableLayout.cell_padding (ConfigValue.table cfg))
  | Table_max_cell_width => int_str (TableLayout.max_cell_width (ConfigValue.table cfg))
  | Chart_font_size_title => int_str (ChartLayout.font_size_title (ConfigValue.chart cfg))
  | Chart_font_size_label => int_str (ChartLayout.font_size_label (ConfigValue.chart cfg))
  | Chart_min_height => int_str (ChartLayout.min_height (ConfigValue.chart cfg))
  | Chart_max_height => int_str (ChartLayout.max_height (ConfigValue.chart cfg))
  | Chart_padding => int_str (ChartLayout.padding (ConfigValue.chart cfg))
  | Grid_columns => int_str (GridLayout.columns (ConfigValue.grid cfg))
  | Grid_gap => int_str (GridLayout.gap (ConfigValue.grid cfg))
  | Grid_responsive_breakpoint => int_str (GridLayout.responsive_breakpoint (ConfigValue.grid cfg))
  end.

(** A piece of the f-string of [generate_pdf_css]: literal text, or the
    replacement field of a configuration field. *)
Inductive segment :=
| Text (s : string)
| Hole (f : numeric_field).

Definition css_template : list segment := [
  Text "
/* PDF布局优化样式 - 由PDFLayoutOptimizer自动生成 */

/* 页面基础样式 */
body {
    font-size: ";
  Hole Page_font_size_base;
  Text "px;
    line-height: ";
  Hole Page_line_height;
  Text ";
}

main {
    padding: ";
  Hole Page_page_padding;
  Text "px !important;
    max-width: ";
  Hole Page_max_content_width;
  Text "px;
    margin: 0 auto;
}

/* 标题样式 */
h1 { font-size: ";
  Hole Page_font_size_h1;
  Text "px !important; }
h2 { font-size: ";
  Hole Page_font_size_h2;
  Text "px !important; }
h3 { font-size: ";
  Hole Page_font_size_h3;
  Text "px !important; }
h4 { font-size: ";
  Hole Page_font_size_h4;
  Text "px !important; }

/* 段落间距 */
p {
    margin-bottom: ";
  Hole Page_paragraph_spacing;
  Text "px;
}

.chapter {
    margin-bottom: ";
  Hole Page_section_spacing;
  Text "px;
}

/* KPI卡片优化 - 防止溢出 */
.kpi-grid {
    display: grid;
    grid-template-columns: repeat(";
  Hole Grid_columns;
  Text ", 1fr);
    gap: ";
  Hole Grid_gap;
  Text "px;
    margin: 20px 0;
}

.kpi-card {
    padding: ";
  Hole KPICard_padding;
  Text "px !important;
    min-height: ";
  Hole KPICard_min_height;
  Text "px;
    break-inside: avoid;
    page-break-inside: avoid;
    /* 防止溢出的关键设置 */
    overflow: hidden;
    box-sizing: border-box;
    max-width: 100%;
}

.kpi-card .value {
    font-size: ";
  Hole KPICard_font_size_value;
  Text "px !important;
    line-height: 1.2;
    /* 强制换行和溢出控制 */
    word-break: break-word;
    overflow-wrap: break-word;
    hyphens: auto;
    max-width: 100%;
    overflow: hidden;
    text-overflow: ellipsis;
}

.kpi-card .label {
    font-size: ";
  Hole KPICard_font_size_label;
  Text "px !important;
    /* 防止标签溢出 */
    word-break: break-word;
    overflow-wrap: break-word;
    max-width: 100%;
}

.kpi-card .change {
    font-size: ";
  Hole KPICard_font_size_change;
  Text "px !important;
    word-break: break-word;
}

/* 提示框优化 - 防止溢出 */
.callout {
    padding: ";
  Hole Callout_padding;
  Text "px !important;
    margin: 20px 0;
    line-height: ";
  Hole Callout_line_height;
  Text ";
    break-inside: avoid;
    page-break-inside: avoid;
    /* 防止溢出 */
    overflow: hidden;
    box-sizing: border-box;
    max-width: 100%;
}

.callout-title {
    font-size: ";
  Hole Callout_font_size_title;
  Text "px !important;
    margin-bottom: 10px;
    word-break: break-word;
}

.callout-content {
    font-size: ";
  Hole Callout_font_size_content;
  Text "px !important;
    word-break: break-word;
    overflow-wrap: break-word;
}

/* 表格优化 - 严格防止溢出 */
table {
    width: 100%;
    break-inside: avoid;
    page-break-inside: avoid;
    /* 表格布局固定 */
    table-layout: fixed;
    max-width: 100%;
    overflow: hidden;
}

th {
    font-size: ";
  Hole Table_font_size_header;
  Text "px !important;
    padding: ";
  Hole Table_cell_padding;
  Text "px !important;
    /* 表头文字控制 */
    word-break: break-word;
    overflow-wrap: break-word;
    hyphens: auto;
    max-width: 100%;
}

td {
    font-size: ";
  Hole Table_font_size_body;
  Text "px !important;
    padding: ";
  Hole Table_cell_padding;
  Text "px !important;
    max-width: ";
  Hole Table_max_cell_width;
  Text "px;
    /* 强制换行，防止溢出 */
    word-wrap: break-word;
    overflow-wrap: break-word;
    word-break: break-word;
    hyphens: auto;
    white-space: normal;
}

/* 图表优化 */
.chart-card {
    min-height: ";
  Hole Chart_min_height;
  Text "px;
    max-height: ";
  Hole Chart_max_height;
  Text "px;
    padding: ";
  Hole Chart_padding;
  Text "px;
    break-inside: avoid;
    page-break-inside: avoid;
    /* 防止图表溢出 */
    overflow: hidden;
    max-width: 100%;
    box-sizing: border-box;
}

.chart-title {
    font-size: ";
  Hole Chart_font_size_title;
  Text "px !important;
    word-break: break-word;
}

/* Hero区域的KPI卡片 */
.hero-kpi {
    padding: ";
  Hole KPICard_padding;
  Text "px !important;
    overflow: hidden;
    box-sizing: border-box;
}

.hero-kpi .label {
    font-size: ";
  Hole KPICard_font_size_label;
  Text "px !important;
    word-break: break-word;
    max-width: 100%;
}

.hero-kpi .value {
    font-size: ";
  Hole KPICard_font_size_value;
  Text "px !important;
    word-break: break-word;
    overflow-wrap: break-word;
    max-width: 100%;
}

/* 防止标题孤行 */
h1, h2, h3, h4, h5, h6 {
    break-after: avoid;
    page-break-after: avoid;
    word-break: break-word;
    overflow-wrap: break-word;
}

/* 确保内容块不被分页且不溢出 */
.content-block {
    break-inside: avoid;
    page-break-inside: avoid;
    overflow: hidden;
    max-width: 100%;
}

/* 全局溢出防护 */
* {
    box-sizing: border-box;
    max-width: 100%;
}

/* 特别控制数字和长单词 */
.kpi-value, .value, .delta {
    font-variant-numeric: tabular-nums;
    letter-spacing: -0.02em;  /* 稍微紧缩间距以节省空间 */
}

/* 色块（badge）样式控制 */
.badge, .callout {
    display: inline-block;
    max-width: 100%;
    overflow: hidden;
    text-overflow: ellipsis;
    white-space: normal;
}

/* 响应式调整 */
@media print {
    /* 打印时更严格的控制 */
    * {
        overflow: visible !important;
        max-width: 100% !important;
    }

    .kpi-card, .callout, .chart-card {
        overflow: hidden !important;
    }
}
"].

Definition render (cfg : ConfigValue.t) (seg : segment) : pystr :=
  match seg with
  | Text s => lit s
  | Hole f => field_text cfg f
  end.

(** The stylesheet for a configuration of content [cfg]. *)
Definition css_text (cfg : ConfigValue.t) : pystr :=
  concat (map (render cfg) css_template).

(** [generate_pdf_css] *)
Definition generate_pdf_css (self : loc) : M pystr :=
  (o <- load_optimizer self ;;
   cfg <- read_config (PDFLayoutOptimizer.config o) ;;
   ret (css_text cfg))%M.

Definition numeric_field_eqb (a b : numeric_field) : bool :=
  match a, b with
  | Page_font_size_base, Page_font_size_base => true
  | Page_font_size_h1, Page_font_size_h1 => true
  | Page_font_size_h2, Page_font_size_h2 => true
  | Page_font_size_h3, Page_font_size_h3 => true
  | Page_font_size_h4, Page_font_size_h4 => true
  | Page_line_height, Page_line_height => true
  | Page_paragraph_spacing, Page_paragraph_spacing => true
  | Page_section_spacing, Page_section_spacing => true
  | Page_page_padding, Page_page_padding => true
  | Page_max_content_width, Page_max_content_width => true
  | KPICard_font_size_value, KPICard_font_size_value => true
  | KPICard_font_size_label, KPICard_font_size_label => true
  | KPICard_font_size_change, KPICard_font_size_change => true
  | KPICard_padding, KPICard_padding => true
  | KPICard_min_height, KPICard_min_height => true
  | KPICard_value_max_length, KPICard_value_max_length => true
  | Callout_font_size_title, Callout_font_size_title => true
  | Callout_font_size_content, Callout_font_size_content => true
  | Callout_padding, Callout_padding => true
  | Callout_line_height, Callout_line_height => true
  | Table_font_size_header, Table_font_size_header => true
  | Table_font_size_body, Table_font_size_body => true
  | Table_cell_padding, Table_cell_padding => true
  | Table_max_cell_width, Table_max_cell_width => true
  | Chart_font_size_title, Chart_font_size_title => true
  | Chart_font_size_label, Chart_font_size_label => true
  | Chart_min_height, Chart_min_height => true
  | Chart_max_height, Chart_max_height => true
  | Chart_padding, Chart_padding => true
  | Grid_columns, Grid_columns => true
  | Grid_gap, Grid_gap => true
  | Grid_responsive_breakpoint, Grid_responsive_breakpoint => true
  | _, _ => false
  end.

(** The number of declarations of the stylesheet whose value is the field
    [f]: each replacement field is the value of one declaration. *)
Definition declarations_of (f : numeric_field) : nat :=
  length (List.filter (fun seg => match seg with
                             | Hole g => numeric_field_eqb f g
                             | Text _ => false
                             end) css_template).

(** The number of places at which [pattern] occurs in [text]. *)
Fixpoint starts_with (pattern text : pystr) : bool :=
  match pattern, text with
  | [], _ => true
  | p :: pattern', c :: text' => (p =? c)%N && starts_with pattern' text'
  | _ :: _, [] => false
  end.

Fixpoint occurrences (pattern text : pystr) : nat :=
  match text with
  | [] => O
  | _ :: rest =>
      (if starts_with pattern text then 1 else 0)%nat
      + occurrences pattern rest
  end.

(* ------------------------------------------------------------------ *)
(** ** Vocabulary of the statements *)

(** An integer that [int * float] accepts. *)
Definition convertible (z : Z) : Prop := exists f, int_to_float z = Ok f.

(** The configuration object at [c] is [cfg] and its fields hold [v]. *)
Definition config_at (h : gmap loc obj) (c : loc) (cfg : PDFLayoutConfig.t)
  (v : ConfigValue.t) : Prop :=
  h !! c = Some (OConfig cfg) /\
  h !! PDFLayoutConfig.page cfg = Some (OPage (ConfigValue.page v)) /\
  h !! PDFLayoutConfig.kpi_card cfg
    = Some (OKPICard (ConfigValue.kpi_card v)) /\
  h !! PDFLayoutConfig.callout cfg
    = Some (OCallout (ConfigValue.callout v)) /\
  h !! PDFLayoutConfig.table cfg = Some (OTable (ConfigValue.table v)) /\
  h !! PDFLayoutConfig.chart cfg = Some (OChart (ConfigValue.chart v)) /\
  h !! PDFLayoutConfig.grid cfg = Some (OGrid (ConfigValue.grid v)) /\
  PDFLayoutConfig.auto_adjust_font_size cfg
    = ConfigValue.auto_adjust_font_size v /\
  PDFLayoutConfig.auto_adjust_grid_columns cfg
    = ConfigValue.auto_adjust_grid_columns v /\
  PDFLayoutConfig.prevent_orphan_headers cfg
    = ConfigValue.prevent_orphan_headers v /\
  PDFLayoutConfig.optimize_for_print cfg = ConfigValue.optimize_for_print v.


(** The locations a configuration occupies: the object and its six
    sub-layouts. *)
Definition config_locs (c : loc) (cfg : PDFLayoutConfig.t) : list loc :=
  [c; PDFLayoutConfig.page cfg; PDFLayoutConfig.kpi_card cfg;
   PDFLayoutConfig.callout cfg; PDFLayoutConfig.table cfg;
   PDFLayoutConfig.chart cfg; PDFLayoutConfig.grid cfg].

(** A configuration made of seven objects that are pairwise distinct and
    that the store [h] does not have. *)
Definition fresh_config (h : gmap loc obj) (c : loc) (cfg : PDFLayoutConfig.t)
  : Prop :=
  NoDup (config_locs c cfg) /\ forall l, l ∈ config_locs c cfg -> l ∉ dom h.

(** The state between two statements of the adjustment that started in
    [w0]: the optimizer [self] holds the log, the copy [c] holds the
    content, and nothing else has changed since [w0]. *)
Record adj_inv (w0 : world) (self base c : loc) (cfg : PDFLayoutConfig.t)
  (w : world) (a : AState) : Prop := {
  inv_self :
    heap w !! self
    = Some (OOptimizer {| PDFLayoutOptimizer.config := base;
                          PDFLayoutOptimizer.optimization_log := snd a |});
  inv_config : config_at (heap w) c cfg (fst a);
  inv_frame : forall l, l ∈ dom (heap w0) -> l <> self ->
                heap w !! l = heap w0 !! l;
  inv_files : files w = files w0;
  inv_writable : writable w = writable w0
}.

(** The statements [m] act on the store as [f] acts on content and log. *)
Definition refines_at (w0 : world) (self base c : loc)
  (cfg : PDFLayoutConfig.t) (m : M unit) (f : AState -> AState) : Prop :=
  forall w a, adj_inv w0 self base c cfg w a ->
    exists w', m w = (Ok tt, w') /\ adj_inv w0 self base c cfg w' (f a).

End Optimizer.

(* ------------------------------------------------------------------ *)
(** ** Concrete runtimes, worlds and documents *)

(** A runtime for evaluating ASCII-only examples: it knows no alphabetic or
    digit character beyond ASCII and renders no float or container.  None of
    the statements below depends on the text these four functions return. *)
Definition ascii_runtime : PyRuntime := {|
  uni_isalpha := fun _ => false;
  uni_isdigit := fun _ => false;
  float_repr := fun _ => [];
  container_repr := fun _ => []
|}.

(** No object, no file, every path can be written. *)
Definition empty_world : world :=
  {| heap := ∅; files := ∅; writable := fun _ => true |}.

(** The world after [PDFLayoutOptimizer()]: the default configuration at
    locations 1 to 7 and the optimizer at location 8. *)
Definition default_world : world := snd (__init__ None empty_world).

Definition default_optimizer : loc := 8%positive.

Definition default_optimizer_object : PDFLayoutOptimizer.t :=
  {| PDFLayoutOptimizer.config := 7%positive;
     PDFLayoutOptimizer.optimization_log := [] |}.

Definition default_config_object : PDFLayoutConfig.t :=
  {| PDFLayoutConfig.page := 1%positive;
     PDFLayoutConfig.kpi_card := 2%positive;
     PDFLayoutConfig.callout := 3%positive;
     PDFLayoutConfig.table := 4%positive;
     PDFLayoutConfig.chart := 5%positive;
     PDFLayoutConfig.grid := 6%positive;
     PDFLayoutConfig.auto_adjust_font_size := true;
     PDFLayoutConfig.auto_adjust_grid_columns := true;
     PDFLayoutConfig.prevent_orphan_headers := true;
     PDFLayoutConfig.optimize_for_print := true |}.

(** A baseline that differs from the default one in [Grid.gap = 100] and
    [KPICard.padding = 50], and the world after
    [PDFLayoutOptimizer(config)] for it. *)
Definition wide_gap_base : ConfigValue.t :=
  ConfigValue.set_grid
    {| GridLayout.columns := 2; GridLayout.gap := 100;
       GridLayout.responsive_breakpoint := 768 |}
    (ConfigValue.set_kpi_card
       (KPICardLayout.set_padding 50 KPICardLayout.default)
       ConfigValue.default).

Definition wide_gap_world : world :=
  snd ((c <- new_config wide_gap_base ;; __init__ (Some c))%M empty_world).

(** The usable width of a KPI card as the specification words it:
    [(800 - gridGap)/2 - 2*padding], from the baseline's fields. *)
Definition spec_kpi_usable_width (base : ConfigValue.t) : Z :=
  (800 - GridLayout.gap (ConfigValue.grid base)) / 2
  - 2 * KPICardLayout.padding (ConfigValue.kpi_card base).

(** The content of the configuration that the adjustment returns. *)
Definition adjusted_content (w : world) (self : loc) (stats : Stats)
  : res ConfigValue.t :=
  fst ((c <- _adjust_config_based_on_stats (rt := ascii_runtime) self stats ;;
        read_config c)%M w).

(** Statistics with a longest KPI value of 20 characters and nothing else. *)
Definition stats_20_digits : Stats :=
  set_max_kpi_value_length 20 initial_stats.

(** Scenario A: one KPI item whose value has 12 digits; and a second
    document with the same statistics. *)
Definition kpi_document (value : string) : pyval :=
  PDict [(lit "chapters",
          PList [PDict [(lit "blocks",
            PList [PDict [(lit "type", PStr (lit "kpiGrid"));
                          (lit "items",
                           PList [PDict [(lit "value",
                                          PStr (lit value))]])]])]])].

Definition scenario_a_ir : pyval := kpi_document "123456789012".

Definition scenario_a_bis_ir : pyval := kpi_document "210987654321".

Definition scenario_a_stats : Stats :=
  set_max_kpi_value_length 12 (set_kpi_count 1 initial_stats).

(** Malformed documents: a chapter that is a bare string, a KPI item that
    is a number, a [rows] value that is a number. *)
Definition bare_string_chapter_ir : pyval :=
  PDict [(lit "chapters", PList [PStr (lit "intro")])].

Definition scalar_kpi_item_ir : pyval :=
  PDict [(lit "chapters",
          PList [PDict [(lit "blocks",
            PList [PDict [(lit "type", PStr (lit "kpiGrid"));
                          (lit "items", PList [PInt 5])]])]])].

Definition scalar_rows_ir : pyval :=
  PDict [(lit "chapters",
          PList [PDict [(lit "blocks",
            PList [PDict [(lit "type", PStr (lit "table"));
                          (lit "rows", PInt 5)]])]])].

(** A configuration whose fields of interest hold values that occur
    nowhere else in the stylesheet. *)
Definition marker_config : ConfigValue.t := {|
  ConfigValue.page := PageLayout.default;
  ConfigValue.kpi_card := {|
    KPICardLayout.font_size_value := 32;
    KPICardLayout.font_size_label := 14;
    KPICardLayout.font_size_change := 13;
    KPICardLayout.padding := 555555;
    KPICardLayout.min_height := 120;
    KPICardLayout.value_max_length := 888888 |};
  ConfigValue.callout := CalloutLayout.default;
  ConfigValue.table := TableLayout.set_cell_padding 444444 TableLayout.default;
  ConfigValue.chart := {|
    ChartLayout.font_size_title := 16;
    ChartLayout.font_size_label := 777777;
    ChartLayout.min_height := 300;
    ChartLayout.max_height := 600;
    ChartLayout.padding := 20 |};
  ConfigValue.grid := {|
    GridLayout.columns := 2; GridLayout.gap := 20;
    GridLayout.responsive_breakpoint := 666666 |};
  ConfigValue.auto_adjust_font_size := true;
  ConfigValue.auto_adjust_grid_columns := true;
  ConfigValue.prevent_orphan_headers := true;
  ConfigValue.optimize_for_print := true |}.

Definition marker_css : pystr := css_text (rt := ascii_runtime) marker_config.

(* ------------------------------------------------------------------ *)
(** ** Vocabulary of the further properties *)

(** *** Documents *)







(** A document made of the chapters [chapters], and a chapter made of the
    blocks [blocks] and the sub-chapters [children]. *)
Definition chapters_document (chapters : list pyval) : pyval :=
  PDict [(lit "chapters", PList chapters)].

Definition chapter_of (blocks children : list pyval) : pyval :=
  PDict [(lit "blocks", PList blocks); (lit "children", PList children)].



(** *** Statistics *)

(** The statistics of two parts of a document, put together: counts and
    lengths add up, a maximum is the larger of the two, the flag is set
    when it is set in either. *)
Definition merge_stats (a b : Stats) : Stats := {|
  kpi_count := kpi_count a + kpi_count b;
  table_count := table_count a + table_count b;
  chart_count := chart_count a + chart_count b;
  callout_count := callout_count a + callout_count b;
  max_kpi_value_length :=
    Z.max (max_kpi_value_length a) (max_kpi_value_length b);
  max_table_columns := Z.max (max_table_columns a) (max_table_columns b);
  max_table_rows := Z.max (max_table_rows a) (max_table_rows b);
  total_content_length := total_content_length a + total_content_length b;
  has_long_text := has_long_text a || has_long_text b
|}.

Definition maxima_nonneg (s : Stats) : Prop :=
  0 <= max_kpi_value_length s /\ 0 <= max_table_columns s /\
  0 <= max_table_rows s.

(** A step of the analysis that adds to the statistics what it finds,
    whatever they hold: from [s] it reaches [s] merged with what it
    reaches from the initial statistics, and it fails from [s] as it fails
    from them. *)
Definition tracks (m : Stats -> res Stats) : Prop :=
  forall s, maxima_nonneg s ->
    match m initial_stats with
    | Ok d => m s = Ok (merge_stats s d) /\ maxima_nonneg d
    | Raise e => m s = Raise e
    | Undef => m s = Undef
    end.

(** Statistics as an analysis leaves them: nothing is negative, a maximum
    is positive only if the matching count is, and the long-text flag is
    set only if there is a callout or more than 500 characters of
    paragraph text. *)
Definition stats_consistent (s : Stats) : Prop :=
  0 <= kpi_count s /\ 0 <= table_count s /\ 0 <= chart_count s /\
  0 <= callout_count s /\ 0 <= max_kpi_value_length s /\
  0 <= max_table_columns s /\ 0 <= max_table_rows s /\
  0 <= total_content_length s /\
  (kpi_count s = 0 -> max_kpi_value_length s = 0) /\
  (table_count s = 0 -> max_table_columns s = 0 /\ max_table_rows s = 0) /\
  (has_long_text s = true ->
   0 < callout_count s \/ 500 < total_content_length s).

(** *** Configurations *)

(** The fields to which [_adjust_config_based_on_stats] never assigns: the
    chart layout, the four flags, and sixteen fields of the other five
    sub-layouts. *)
Definition untouched_fields (v : ConfigValue.t) :=
  (ConfigValue.chart v,
   (ConfigValue.auto_adjust_font_size v,
    ConfigValue.auto_adjust_grid_columns v,
    ConfigValue.prevent_orphan_headers v,
    ConfigValue.optimize_for_print v),
   (PageLayout.font_size_h1 (ConfigValue.page v),
    PageLayout.font_size_h4 (ConfigValue.page v),
    PageLayout.section_spacing (ConfigValue.page v),
    PageLayout.page_padding (ConfigValue.page v),
    PageLayout.max_content_width (ConfigValue.page v)),
   (KPICardLayout.font_size_label (ConfigValue.kpi_card v),
    KPICardLayout.font_size_change (ConfigValue.kpi_card v),
    KPICardLayout.value_max_length (ConfigValue.kpi_card v)),
   (CalloutLayout.font_size_title (ConfigValue.callout v),
    CalloutLayout.font_size_content (ConfigValue.callout v),
    CalloutLayout.padding (ConfigValue.callout v),
    CalloutLayout.max_width (ConfigValue.callout v)),
   (TableLayout.max_cell_width (ConfigValue.table v),
    TableLayout.overflow_strategy (ConfigValue.table v)),
   (GridLayout.gap (ConfigValue.grid v),
    GridLayout.responsive_breakpoint (ConfigValue.grid v))).

(** [b] comes from [a] by at most [n] messages, and is [a] when there is
    none. *)
Definition extends (n : nat) (a b : AState) : Prop :=
  exists messages,
    snd b = snd a ++ messages /\ (length messages <= n)%nat /\
    (messages = [] -> b = a).


(** The six sections of a configuration, without the four flags. *)
Definition sections_dict (v : ConfigValue.t) : pyval := PDict [
  (lit "page", PageLayout.asdict (ConfigValue.page v));
  (lit "kpi_card", KPICardLayout.asdict (ConfigValue.kpi_card v));
  (lit "callout", CalloutLayout.asdict (ConfigValue.callout v));
  (lit "table", TableLayout.asdict (ConfigValue.table v));
  (lit "chart", ChartLayout.asdict (ConfigValue.chart v));
  (lit "grid", GridLayout.asdict (ConfigValue.grid v))].

Definition with_flags (a b c d : bool) (v : ConfigValue.t) : ConfigValue.t := {|
  ConfigValue.page := ConfigValue.page v;
  ConfigValue.kpi_card := ConfigValue.kpi_card v;
  ConfigValue.callout := ConfigValue.callout v;
  ConfigValue.table := ConfigValue.table v;
  ConfigValue.chart := ConfigValue.chart v;
  ConfigValue.grid := ConfigValue.grid v;
  ConfigValue.auto_adjust_font_size := a;
  ConfigValue.auto_adjust_grid_columns := b;
  ConfigValue.prevent_orphan_headers := c;
  ConfigValue.optimize_for_print := d |}.

(** *** Concrete inputs *)

(** A chapter with one KPI item, and a chapter with one table of five
    columns and two rows. *)
Definition kpi_chapter (value : string) : pyval :=
  PDict [(lit "blocks",
    PList [PDict [(lit "type", PStr (lit "kpiGrid"));
                  (lit "items",
                   PList [PDict [(lit "value", PStr (lit value))]])]])].

Definition table_chapter : pyval :=
  PDict [(lit "blocks",
    PList [PDict [(lit "type", PStr (lit "table"));
                  (lit "headers",
                   PList [PStr (lit "a"); PStr (lit "b"); PStr (lit "c");
                          PStr (lit "d"); PStr (lit "e")]);
                  (lit "rows",
                   PList [PList [PInt 1; PInt 2; PInt 3; PInt 4; PInt 5];
                          PList [PInt 6; PInt 7; PInt 8; PInt 9; PInt 10]])]])].

Definition table_chapter_stats : Stats :=
  set_max_table_rows 2 (set_max_table_columns 5
    (set_table_count 1 initial_stats)).


Definition wide_table_stats : Stats :=
  set_max_table_columns 9 (set_table_count 1 (set_kpi_count 3 initial_stats)).

Definition busy_stats : Stats :=
  set_has_long_text true (set_chart_count 21 (set_kpi_count 3 initial_stats)).

(** A configuration that differs from the default one in the fields the
    stylesheet does not read. *)
Definition unread_fields_config : ConfigValue.t := {|
  ConfigValue.page := PageLayout.default;
  ConfigValue.kpi_card := {|
    KPICardLayout.font_size_value := 32;
    KPICardLayout.font_size_label := 14;
    KPICardLayout.font_size_change := 13;
    KPICardLayout.padding := 20;
    KPICardLayout.min_height := 120;
    KPICardLayout.value_max_length := 99 |};
  ConfigValue.callout := {|
    CalloutLayout.font_size_title := 16;
    CalloutLayout.font_size_content := 14;
    CalloutLayout.padding := 20;
    CalloutLayout.line_height := 1.6%float;
    CalloutLayout.max_width := lit "50%" |};
  ConfigValue.table := {|
    TableLayout.font_size_header := 13;
    TableLayout.font_size_body := 12;
    TableLayout.cell_padding := 12;
    TableLayout.max_cell_width := 200;
    TableLayout.overflow_strategy := lit "ellipsis" |};
  ConfigValue.chart := {|
    ChartLayout.font_size_title := 16;
    ChartLayout.font_size_label := 99;
    ChartLayout.min_height := 300;
    ChartLayout.max_height := 600;
    ChartLayout.padding := 20 |};
  ConfigValue.grid := {|
    GridLayout.columns := 2; GridLayout.gap := 20;
    GridLayout.responsive_breakpoint := 99 |};
  ConfigValue.auto_adjust_font_size := false;
  ConfigValue.auto_adjust_grid_columns := false;
  ConfigValue.prevent_orphan_headers := false;
  ConfigValue.optimize_for_print := false |}.


(** A world with one file and no object. *)
Definition file_world (path : pystr) (content : file_content) : world :=
  {| heap := ∅; files := {[ path := content ]}; writable := fun _ => true |}.

(** Documents of configuration files: one without a [config] entry, one
    whose [page] section has an entry that names no field, one without
    flags. *)
Definition no_config_document : pyval :=
  PDict [(lit "optimization_log", PDict [])].

Definition unknown_field_document : pyval :=
  PDict [(lit "config",
          PDict [(lit "page", PDict [(lit "colour", PStr (lit "red"))])])].

Definition no_flags_document : pyval :=
  PDict [(lit "config", sections_dict unread_fields_config)].




(* ================================================================== *)
(** * Properties *)

Section Properties.
Context {rt : PyRuntime}.

(** ** The font-size solver *)

Lemma width_loop_returns font_size text :
  convertible font_size ->
  forall width, exists w, width_loop font_size width text = Ok w.
Proof.
  intros [fs Hfs]. induction text as [|char rest IH]; intros width; simpl.
  - eauto.
  - unfold add_char_width. rewrite Hfs.
    destruct ((0x4e00 <=? char)%N && (char <=? 0x9fff)%N);
      [|destruct (isalpha char); [|destruct (isdigit char)]];
      simpl; apply IH.
Qed.

Lemma check_text_overflow_returns text font_size max_width :
  convertible font_size ->
  exists b, _check_text_overflow text font_size max_width = Ok b.
Proof.
  intros Hc. unfold _check_text_overflow, _estimate_text_width.
  destruct text as [|char rest]; simpl; [eauto|].
  destruct (width_loop_returns font_size (char :: rest) Hc 0%float) as [w Hw].
  simpl in Hw. rewrite Hw. simpl. eauto.
Qed.

Lemma check_text_overflow_empty font_size max_width :
  _check_text_overflow [] font_size max_width = Ok (max_width <? 0).
Proof. reflexivity. Qed.

(** The descending scan over [start, start-1, ..., start-n+1]: it stops at
    the first size that does not overflow, or runs through. *)
Lemma font_size_scan_range text max_width max_font_size min_font_size n :
  forall start,
  (forall s, start - Z.of_nat n < s <= start ->
     exists b, _check_text_overflow text s max_width = Ok b) ->
  (exists size,
      start - Z.of_nat n < size <= start /\
      font_size_scan text max_width max_font_size min_font_size
        (range_down_from start n) = Ok (size, size <? max_font_size) /\
      _check_text_overflow text size max_width = Ok false /\
      forall s, size < s <= start ->
        _check_text_overflow text s max_width = Ok true)
  \/ (font_size_scan text max_width max_font_size min_font_size
        (range_down_from start n) = Ok (min_font_size, true) /\
      forall s, start - Z.of_nat n < s <= start ->
        _check_text_overflow text s max_width = Ok true).
Proof.
  induction n as [|n IH]; intros start Hret.
  - right. split; [reflexivity|]. intros s Hs. lia.
  - cbn [range_down_from font_size_scan].
    destruct (Hret start ltac:(lia)) as [b Hb]. rewrite Hb. simpl.
    destruct b; simpl.
    + destruct (IH (start - 1)) as [(size & Hin & Hscan & Hfit & Habove)|[Hscan Hall]].
      { intros s Hs. apply Hret. lia. }
      * left. exists size. repeat split; try lia; try assumption.
        intros s Hs. destruct (Z.eq_dec s start) as [->|Hne]; [assumption|].
        apply Habove. lia.
      * right. split; [assumption|]. intros s Hs.
        destruct (Z.eq_dec s start) as [->|Hne]; [assumption|].
        apply Hall. lia.
    + left. exists start. repeat split; try lia; try assumption.
Qed.

Lemma range_down_length start stop :
  stop <= start ->
  range_down start stop = range_down_from start (Z.to_nat (start - stop))
  /\ Z.of_nat (Z.to_nat (start - stop)) = start - stop.
Proof. intros H. split; [reflexivity | lia]. Qed.

(** When the first candidate cannot be measured the exception leaves the
    solver. *)
Lemma calculate_safe_font_size_raises text max_width min_font_size max_font_size e :
  text <> [] ->
  min_font_size <= max_font_size ->
  _check_text_overflow text max_font_size max_width = Raise e ->
  _calculate_safe_font_size text max_width min_font_size max_font_size = Raise e.
Proof.
  intros Htext Hle Hraise. unfold _calculate_safe_font_size, range_down.
  destruct text as [|c text']; [congruence|].
  destruct (Z.to_nat (max_font_size - (min_font_size - 1))) as [|n] eqn:Hn; [lia|].
  cbn [range_down_from font_size_scan]. rewrite Hraise. reflexivity.
Qed.

(** C5 (amended): when [minSize <= maxSize] and every candidate size can be
    converted to a float, the solver returns a size within the bounds; empty
    text gives [(maxSize, false)]; otherwise the size is the largest one in
    the range that does not overflow, with [adjusted = (size < maxSize)],
    and [(minSize, true)] when every candidate overflows. *)
Theorem calculate_safe_font_size_largest_fit
    text max_width min_font_size max_font_size :
  min_font_size <= max_font_size ->
  (forall s, min_font_size <= s <= max_font_size -> convertible s) ->
  exists size adjusted,
    _calculate_safe_font_size text max_width min_font_size max_font_size
      = Ok (size, adjusted) /\
    min_font_size <= size <= max_font_size /\
    (text = [] -> size = max_font_size /\ adjusted = false) /\
    (text <> [] ->
       ((exists s, min_font_size <= s <= max_font_size /\
                   _check_text_overflow text s max_width = Ok false) ->
        _check_text_overflow text size max_width = Ok false /\
        (forall s, size < s <= max_font_size ->
           _check_text_overflow text s max_width = Ok true) /\
        adjusted = (size <? max_font_size)) /\
       ((forall s, min_font_size <= s <= max_font_size ->
           _check_text_overflow text s max_width = Ok true) ->
        size = min_font_size /\ adjusted = true)).
Proof.
  intros Hle Hconv.
  destruct text as [|c text'].
  { exists max_font_size, false. simpl. repeat split; try lia; congruence. }
  set (text := c :: text').
  assert (Hsolve : _calculate_safe_font_size text max_width min_font_size
            max_font_size
          = font_size_scan text max_width max_font_size min_font_size
              (range_down max_font_size (min_font_size - 1))) by reflexivity.
  destruct (range_down_length max_font_size (min_font_size - 1) ltac:(lia))
    as [Hrange Hlen].
  rewrite Hrange in Hsolve.
  destruct (font_size_scan_range text max_width max_font_size min_font_size
              (Z.to_nat (max_font_size - (min_font_size - 1))) max_font_size)
    as [(size & Hin & Hscan & Hfit & Habove)|[Hscan Hall]].
  { intros s Hs. apply check_text_overflow_returns, Hconv. lia. }
  - exists size, (size <? max_font_size). rewrite Hsolve, Hscan.
    split; [reflexivity|]. split; [lia|]. split; [discriminate|].
    intros _. split.
    + intros _. auto.
    + intros Hnone. rewrite Hnone in Hfit by lia. discriminate.
  - exists min_font_size, true. rewrite Hsolve, Hscan.
    split; [reflexivity|]. split; [lia|]. split; [discriminate|].
    intros _. split.
    + intros (s & Hs & Hfit). rewrite Hall in Hfit by lia. discriminate.
    + auto.
Qed.

(** C6 (amended): with equal bounds the solver agrees with the overflow
    check, [solveFontSize(T, W, S, S) = (S, isOverflowing(T, S, W))], for
    every non-empty text, and for the empty text when [W >= 0]; when the
    check raises, the solver raises the same exception. *)
Theorem calculate_safe_font_size_equal_bounds text max_width size :
  text <> [] \/ 0 <= max_width ->
  _calculate_safe_font_size text max_width size size
  = (overflow <- _check_text_overflow text size max_width ;;
     Ok (size, overflow))%res.
Proof.
  intros Hcase. destruct text as [|c text'].
  - destruct Hcase as [Hne|Hw]; [congruence|].
    rewrite check_text_overflow_empty. simpl.
    replace (max_width <? 0) with false by lia. reflexivity.
  - unfold _calculate_safe_font_size, range_down.
    replace (Z.to_nat (size - (size - 1))) with 1%nat by lia.
    cbn [range_down_from font_size_scan].
    destruct (_check_text_overflow (c :: text') size max_width) as [b|e|];
      simpl; [|reflexivity|reflexivity].
    destruct b; simpl; [reflexivity|].
    rewrite Z.ltb_irrefl. reflexivity.
Qed.

Lemma convertible_18_32 s : 18 <= s <= 32 -> convertible s.
Proof.
  intros Hs.
  assert (Hcases : s = 18 \/ s = 19 \/ s = 20 \/ s = 21 \/ s = 22 \/ s = 23
            \/ s = 24 \/ s = 25 \/ s = 26 \/ s = 27 \/ s = 28 \/ s = 29
            \/ s = 30 \/ s = 31 \/ s = 32) by lia.
  repeat (destruct Hcases as [->|Hcases]; [eexists; reflexivity|]).
  subst s. eexists; reflexivity.
Qed.

(** ** The store and the adjustment *)

Lemma bind_ok {A B} (m : M A) (k : A -> M B) w a w' :
  m w = (Ok a, w') -> bind m k w = k a w'.
Proof. unfold bind. intros ->. reflexivity. Qed.

Lemma bind_raise {A B} (m : M A) (k : A -> M B) w e w' :
  m w = (Raise e, w') -> bind m k w = (Raise e, w').
Proof. unfold bind. intros ->. reflexivity. Qed.

Lemma bind_undef {A B} (m : M A) (k : A -> M B) w w' :
  m w = (Undef, w') -> bind m k w = (Undef, w').
Proof. unfold bind. intros ->. reflexivity. Qed.

Lemma read_config_at w c cfg v :
  config_at (heap w) c cfg v -> read_config c w = (Ok v, w).
Proof.
  intros (Hc & Hp & Hk & Hco & Ht & Hch & Hg & Ha & Hb & Hd & He).
  unfold read_config, load_config, load_page, load_kpi_card, load_callout,
    load_table, load_chart, load_grid, bind, load, ret.
  rewrite Hc; simpl. rewrite Hp; simpl. rewrite Hk; simpl. rewrite Hco; simpl.
  rewrite Ht; simpl. rewrite Hch; simpl. rewrite Hg; simpl.
  rewrite Ha, Hb, Hd, He. destruct v; reflexivity.
Qed.

Lemma alloc_spec o w :
  exists l, alloc o w = (Ok l, set_heap (<[l := o]> (heap w)) w) /\ l ∉ dom (heap w).
Proof.
  eexists. split; [reflexivity|]. apply is_fresh.
Qed.

Lemma new_config_spec v w :
  exists c cfg w',
    new_config v w = (Ok c, w') /\
    fresh_config (heap w) c cfg /\
    config_at (heap w') c cfg v /\
    (forall l, l ∈ dom (heap w) -> heap w' !! l = heap w !! l) /\
    files w' = files w /\ writable w' = writable w.
Proof.
  unfold new_config.
  destruct (alloc_spec (OPage (ConfigValue.page v)) w) as (l1 & E1 & F1).
  rewrite (bind_ok _ _ _ _ _ E1). clear E1.
  set (w1 := set_heap _ w).
  destruct (alloc_spec (OKPICard (ConfigValue.kpi_card v)) w1) as (l2 & E2 & F2).
  rewrite (bind_ok _ _ _ _ _ E2). clear E2.
  set (w2 := set_heap _ w1).
  destruct (alloc_spec (OCallout (ConfigValue.callout v)) w2) as (l3 & E3 & F3).
  rewrite (bind_ok _ _ _ _ _ E3). clear E3.
  set (w3 := set_heap _ w2).
  destruct (alloc_spec (OTable (ConfigValue.table v)) w3) as (l4 & E4 & F4).
  rewrite (bind_ok _ _ _ _ _ E4). clear E4.
  set (w4 := set_heap _ w3).
  destruct (alloc_spec (OChart (ConfigValue.chart v)) w4) as (l5 & E5 & F5).
  rewrite (bind_ok _ _ _ _ _ E5). clear E5.
  set (w5 := set_heap _ w4).
  destruct (alloc_spec (OGrid (ConfigValue.grid v)) w5) as (l6 & E6 & F6).
  rewrite (bind_ok _ _ _ _ _ E6). clear E6.
  set (w6 := set_heap _ w5).
  match goal with |- context [alloc (OConfig ?o) w6] =>
    destruct (alloc_spec (OConfig o) w6) as (l7 & E7 & F7);
    rewrite E7; clear E7; exists l7, o
  end.
  subst w1 w2 w3 w4 w5 w6. simpl in *.
  rewrite !dom_insert_L in *.
  rewrite !not_elem_of_union, !not_elem_of_singleton in *.
  destruct_and!.
  eexists. split; [reflexivity|]. simpl.
  split; [|split; [|split; [|split; reflexivity]]].
  - split.
    + unfold config_locs; simpl.
      repeat (apply NoDup_cons; split;
              [rewrite ?not_elem_of_cons; repeat split;
               first [congruence | apply not_elem_of_nil]|]).
      apply NoDup_nil_2.
    + unfold config_locs; simpl. intros l Hl.
      repeat (apply elem_of_cons in Hl as [->|Hl]; [assumption|]).
      inversion Hl.
  - unfold config_at; simpl.
    repeat split;
      repeat (rewrite lookup_insert_ne by congruence);
      rewrite lookup_insert_eq; reflexivity.
  - intros l Hl.
    repeat rewrite lookup_insert_ne by (intros ?; subst; contradiction).
    reflexivity.
Qed.


(** The solver returns a size within its bounds whenever every candidate
    can be measured. *)
Lemma calculate_safe_font_size_returns text max_width min_font_size
    max_font_size :
  min_font_size <= max_font_size ->
  (forall s, min_font_size <= s <= max_font_size -> convertible s) ->
  exists size adjusted,
    _calculate_safe_font_size text max_width min_font_size max_font_size
      = Ok (size, adjusted) /\
    min_font_size <= size <= max_font_size.
Proof.
  intros Hle Hconv. destruct text as [|ch rest].
  { exists max_font_size, false. split; [reflexivity|lia]. }
  unfold _calculate_safe_font_size, range_down.
  destruct (font_size_scan_range (ch :: rest) max_width max_font_size
              min_font_size
              (Z.to_nat (max_font_size - (min_font_size - 1))) max_font_size)
    as [(size & Hin & Hscan & _)|[Hscan _]].
  { intros s Hs. apply check_text_overflow_returns, Hconv. lia. }
  - exists size, (size <? max_font_size). split; [exact Hscan|lia].
  - exists min_font_size, true. split; [exact Hscan|lia].
Qed.

Lemma solver_18_32_returns text max_width :
  exists size adjusted,
    _calculate_safe_font_size text max_width 18 32 = Ok (size, adjusted)
    /\ 18 <= size <= 32.
Proof.
  apply calculate_safe_font_size_returns; [lia|apply convertible_18_32].
Qed.

Section Adjustment.
Variables (w0 : world) (self base c : loc) (cfg : PDFLayoutConfig.t).
Hypothesis Hself : self ∈ dom (heap w0).
Hypothesis Hfresh : fresh_config (heap w0) c cfg.

Local Abbreviation adj_inv := (adj_inv w0 self base c cfg).
Local Abbreviation refines := (refines_at w0 self base c cfg).


Lemma refines_ret : refines (ret tt) (fun a => a).
Proof. intros w a H. exists w. split; [reflexivity|assumption]. Qed.

Lemma refines_seq m f m' g h :
  refines m f -> refines m' g -> (forall a, h a = g (f a)) ->
  refines (bind m (fun _ => m')) h.
Proof.
  intros Hm Hm' Hh w a Hinv.
  destruct (Hm w a Hinv) as (w1 & E1 & Hinv1).
  destruct (Hm' w1 (f a) Hinv1) as (w2 & E2 & Hinv2).
  exists w2. rewrite (bind_ok _ _ _ _ _ E1), Hh. split; assumption.
Qed.

Lemma fresh_config_distinct :
  NoDup (self :: config_locs c cfg).
Proof.
  destruct Hfresh as [Hnd Hout]. apply NoDup_cons. split; [|exact Hnd].
  intros Hin. apply (Hout self Hin Hself).
Qed.

Ltac distinct_facts :=
  let H := fresh "Hd" in
  pose proof fresh_config_distinct as H; unfold config_locs in H;
  rewrite !NoDup_cons, !not_elem_of_cons in H; destruct_and!.

Ltac outside l Hl :=
  let Hout := fresh "Hout" in
  destruct Hfresh as [_ Hout]; unfold config_locs in Hout;
  let E := fresh "E" in
  intros E; apply (Hout l); [|exact Hl];
  rewrite <- E, !elem_of_cons; tauto.

Lemma log_append_refines message :
  refines (log_append self message) (add_log message).
Proof.
  intros w [v log] [Hs Hc Hf Hfi Hwr]. simpl in *.
  unfold log_append, load_optimizer, bind, load, store, ret. rewrite Hs. simpl.
  eexists. split; [reflexivity|].
  destruct Hc as (Hc & Hp & Hk & Hco & Ht & Hch & Hg & Hflags).
  distinct_facts.
  constructor; simpl; try assumption.
  - rewrite lookup_insert_eq. reflexivity.
  - unfold config_at. repeat split; try tauto;
      rewrite lookup_insert_ne by congruence; assumption.
  - intros l Hl Hne. rewrite lookup_insert_ne by congruence. auto.
Qed.

Ltac modify_refines :=
  let w := fresh "w" in let v := fresh "v" in let log := fresh "log" in
  intros w [v log] [Hs Hc Hf Hfi Hwr]; simpl in *;
  destruct Hc as (Hc & Hp & Hk & Hco & Ht & Hch & Hg & Hflags);
  unfold modify_page, modify_kpi_card, modify_callout, modify_table,
    modify_grid, load_config, load_page, load_kpi_card, load_callout,
    load_table, load_grid, bind, load, store, ret;
  rewrite Hc; simpl; rewrite ?Hp, ?Hk, ?Hco, ?Ht, ?Hg; simpl;
  eexists; split; [reflexivity|];
  distinct_facts;
  constructor; simpl; try assumption;
  [ rewrite lookup_insert_ne by congruence; assumption
  | unfold config_at; simpl; repeat split; try tauto;
      first [ rewrite lookup_insert_eq; reflexivity
            | rewrite lookup_insert_ne by congruence; assumption ]
  | let l := fresh "l" in let Hl := fresh "Hl" in
    intros l Hl ?; rewrite lookup_insert_ne by (outside l Hl); auto ].

Lemma modify_kpi_card_refines f :
  refines (modify_kpi_card c f) (upd_kpi_card f).
Proof. modify_refines. Qed.

Lemma modify_page_refines f : refines (modify_page c f) (upd_page f).
Proof. modify_refines. Qed.

Lemma modify_callout_refines f : refines (modify_callout c f) (upd_callout f).
Proof. modify_refines. Qed.

Lemma modify_table_refines f : refines (modify_table c f) (upd_table f).
Proof. modify_refines. Qed.

Lemma modify_grid_refines f : refines (modify_grid c f) (upd_grid f).
Proof. modify_refines. Qed.

Lemma read_kpi_card_inv w a :
  adj_inv w a ->
  read_kpi_card c w = (Ok (ConfigValue.kpi_card (fst a)), w).
Proof.
  intros [Hs Hc Hf Hfi Hwr].
  destruct Hc as (Hc & Hp & Hk & _).
  unfold read_kpi_card, load_config, load_kpi_card, bind, load, ret.
  rewrite Hc. simpl. rewrite Hk. reflexivity.
Qed.

Ltac refine_steps :=
  first
    [ apply refines_ret
    | apply log_append_refines
    | apply modify_page_refines
    | apply modify_kpi_card_refines
    | apply modify_callout_refines
    | apply modify_table_refines
    | apply modify_grid_refines
    | eapply refines_seq; [refine_steps | refine_steps | intros; reflexivity] ].

Lemma adjust_grid_layout_refines stats :
  refines (adjust_grid_layout self c stats) (grid_layout_rule stats).
Proof.
  unfold adjust_grid_layout, grid_layout_rule.
  destruct (6 <? kpi_count stats); [refine_steps|].
  destruct (4 <? kpi_count stats); [refine_steps|].
  destruct (kpi_count stats <=? 2); refine_steps.
Qed.

Lemma adjust_table_layout_refines stats :
  refines (adjust_table_layout self c stats) (table_layout_rule stats).
Proof.
  unfold adjust_table_layout, table_layout_rule.
  destruct (8 <? max_table_columns stats); [refine_steps|].
  destruct (6 <? max_table_columns stats); [refine_steps|].
  destruct (4 <? max_table_columns stats); refine_steps.
Qed.

Lemma adjust_long_text_refines stats :
  refines (adjust_long_text self c stats) (long_text_rule stats).
Proof.
  unfold adjust_long_text, long_text_rule.
  destruct (has_long_text stats); refine_steps.
Qed.

Lemma adjust_total_blocks_refines stats :
  refines (adjust_total_blocks self c stats) (total_blocks_rule stats).
Proof.
  unfold adjust_total_blocks, total_blocks_rule. cbv zeta.
  destruct (20 <? _); refine_steps.
Qed.

Lemma adjust_kpi_font_size_refines stats :
  refines (adjust_kpi_font_size self c stats) (kpi_font_size_rule stats).
Proof.
  unfold adjust_kpi_font_size, kpi_font_size_rule. cbv zeta.
  destruct (0 <? max_kpi_value_length stats); [|refine_steps].
  destruct (solver_18_32_returns
              (str_repeat 57 (max_kpi_value_length stats))
              ((800 - 20) / 2 - 40))
    as (size & adjusted & Hsolve & _).
  intros w a Hinv. rewrite Hsolve.
  unfold lift at 1. unfold bind at 1. cbn [fst snd].
  destruct adjusted.
  - revert w a Hinv. fold (refines
      (bind (modify_kpi_card c (KPICardLayout.set_font_size_value size))
         (fun _ => log_append self
            (msg_font_size_adjusted (max_kpi_value_length stats) size)))
      (fun a => add_log
         (msg_font_size_adjusted (max_kpi_value_length stats) size)
         (upd_kpi_card (KPICardLayout.set_font_size_value size) a))).
    refine_steps.
  - destruct (10 <? max_kpi_value_length stats).
    + destruct (modify_kpi_card_refines
                  (KPICardLayout.set_font_size_value (Z.min 28 size)) w a Hinv)
        as (w1 & E1 & Hinv1).
      rewrite (bind_ok _ _ _ _ _ E1).
      rewrite (bind_ok _ _ _ _ _ (read_kpi_card_inv w1 _ Hinv1)).
      apply log_append_refines. exact Hinv1.
    + apply refines_ret. exact Hinv.
Qed.

End Adjustment.

(** *** Keyword arguments from [asdict] rebuild the same layout *)

Lemma page_of_kwargs_asdict p :
  PageLayout.of_kwargs (PageLayout.asdict p) = Ok p.
Proof. destruct p. reflexivity. Qed.

Lemma kpi_card_of_kwargs_asdict k :
  KPICardLayout.of_kwargs (KPICardLayout.asdict k) = Ok k.
Proof. destruct k. reflexivity. Qed.

Lemma callout_of_kwargs_asdict c :
  CalloutLayout.of_kwargs (CalloutLayout.asdict c) = Ok c.
Proof. destruct c. reflexivity. Qed.

Lemma table_of_kwargs_asdict t :
  TableLayout.of_kwargs (TableLayout.asdict t) = Ok t.
Proof. destruct t. reflexivity. Qed.

Lemma chart_of_kwargs_asdict c :
  ChartLayout.of_kwargs (ChartLayout.asdict c) = Ok c.
Proof. destruct c. reflexivity. Qed.

Lemma grid_of_kwargs_asdict g :
  GridLayout.of_kwargs (GridLayout.asdict g) = Ok g.
Proof. destruct g. reflexivity. Qed.

Lemma copy_layouts_same base : copy_layouts base = Ok base.
Proof.
  unfold copy_layouts.
  rewrite page_of_kwargs_asdict, kpi_card_of_kwargs_asdict,
    callout_of_kwargs_asdict, table_of_kwargs_asdict,
    chart_of_kwargs_asdict, grid_of_kwargs_asdict.
  destruct base. reflexivity.
Qed.

Lemma detect_kpi_overflow_issues_spec w self o bcfg bv stats :
  heap w !! self = Some (OOptimizer o) ->
  config_at (heap w) (PDFLayoutOptimizer.config o) bcfg bv ->
  _detect_kpi_overflow_issues self stats w
  = (detect_kpi_overflow_issues_value bv stats, w).
Proof.
  intros Hs (Hc & _ & Hk & _).
  unfold _detect_kpi_overflow_issues, detect_kpi_overflow_issues_value.
  cbv zeta. destruct (0 <? max_kpi_value_length stats); [|reflexivity].
  unfold load_optimizer, read_kpi_card, load_config, load_kpi_card, bind,
    load, ret, lift.
  rewrite Hs. simpl. rewrite Hc. simpl. rewrite Hk. simpl.
  destruct (_check_text_overflow _ _ _) as [[|]|e|]; reflexivity.
Qed.

(** The adjustment computes [adjust_value] on a fresh copy and changes no
    object that existed before, except the log of the optimizer. *)
Theorem adjust_config_refines w self o bcfg bv stats :
  heap w !! self = Some (OOptimizer o) ->
  config_at (heap w) (PDFLayoutOptimizer.config o) bcfg bv ->
  exists r w',
    _adjust_config_based_on_stats self stats w = (r, w') /\
    (forall l, l ∈ dom (heap w) -> l <> self -> heap w' !! l = heap w !! l) /\
    files w' = files w /\ writable w' = writable w /\
    match adjust_value bv (PDFLayoutOptimizer.optimization_log o) stats with
    | Ok a =>
        exists c cfg,
          r = Ok c /\ fresh_config (heap w) c cfg /\
          config_at (heap w') c cfg (fst a) /\
          heap w' !! self
          = Some (OOptimizer {|
                PDFLayoutOptimizer.config := PDFLayoutOptimizer.config o;
                PDFLayoutOptimizer.optimization_log := snd a |})
    | Raise e => r = Raise e /\ heap w' !! self = Some (OOptimizer o)
    | Undef => r = Undef
    end.
Proof.
  intros Hs Hbase.
  assert (Hself : self ∈ dom (heap w)) by (apply elem_of_dom; eauto).
  unfold _adjust_config_based_on_stats.
  assert (E0 : load_optimizer self w = (Ok o, w)).
  { unfold load_optimizer, bind, load, ret. rewrite Hs. reflexivity. }
  rewrite (bind_ok _ _ _ _ _ E0).
  rewrite (bind_ok _ _ _ _ _ (read_config_at _ _ _ _ Hbase)).
  rewrite copy_layouts_same. unfold lift at 1. unfold bind at 1.
  destruct (new_config_spec bv w) as (c & cfg & w1 & E1 & Hfresh & Hcfg & Hfr1 & Hfi1 & Hwr1).
  rewrite (bind_ok _ _ _ _ _ E1).
  assert (Hs1 : heap w1 !! self = Some (OOptimizer o)) by (rewrite Hfr1; auto).
  assert (Hbase1 : config_at (heap w1) (PDFLayoutOptimizer.config o) bcfg bv).
  { destruct Hbase as (H1 & H2 & H3 & H4 & H5 & H6 & H7 & Hflags).
    unfold config_at.
    repeat split; try tauto;
      (rewrite Hfr1; [assumption | apply elem_of_dom; eauto]). }
  pose proof (detect_kpi_overflow_issues_spec w1 self o bcfg bv stats Hs1 Hbase1)
    as Edet.
  unfold adjust_value.
  destruct (detect_kpi_overflow_issues_value bv stats) as [issues|e|].
  - rewrite (bind_ok _ _ _ _ _ Edet). simpl.
    assert (Hinv : adj_inv w self (PDFLayoutOptimizer.config o) c cfg w1
                     (bv, PDFLayoutOptimizer.optimization_log o)).
    { constructor; simpl; auto. rewrite Hs1. destruct o; reflexivity. }
    destruct (adjust_kpi_font_size_refines w self _ c cfg Hself Hfresh stats
                _ _ Hinv) as (w2 & E2 & Hinv2).
    rewrite (bind_ok _ _ _ _ _ E2).
    destruct (adjust_grid_layout_refines w self _ c cfg Hself Hfresh stats
                _ _ Hinv2) as (w3 & E3 & Hinv3).
    rewrite (bind_ok _ _ _ _ _ E3).
    destruct (adjust_table_layout_refines w self _ c cfg Hself Hfresh stats
                _ _ Hinv3) as (w4 & E4 & Hinv4).
    rewrite (bind_ok _ _ _ _ _ E4).
    destruct (adjust_long_text_refines w self _ c cfg Hself Hfresh stats
                _ _ Hinv4) as (w5 & E5 & Hinv5).
    rewrite (bind_ok _ _ _ _ _ E5).
    destruct (adjust_total_blocks_refines w self _ c cfg Hself Hfresh stats
                _ _ Hinv5) as (w6 & E6 & Hinv6).
    rewrite (bind_ok _ _ _ _ _ E6).
    destruct Hinv6 as [Hs6 Hc6 Hf6 Hfi6 Hwr6].
    exists (Ok c), w6. split; [reflexivity|].
    split; [exact Hf6|]. split; [congruence|]. split; [congruence|].
    exists c, cfg. split; [reflexivity|]. split; [exact Hfresh|].
    split; [exact Hc6|exact Hs6].
  - rewrite (bind_raise _ _ _ _ _ Edet).
    exists (Raise e), w1. split; [reflexivity|].
    split; [intros l Hl _; apply Hfr1, Hl|]. simpl. auto.
  - rewrite (bind_undef _ _ _ _ Edet).
    exists Undef, w1. split; [reflexivity|].
    split; [intros l Hl _; apply Hfr1, Hl|]. simpl. auto.
Qed.

(** ** The rules on contents *)

Ltac case_conditions :=
  repeat match goal with
    | |- context [if ?b then _ else _] =>
        let E := fresh "E" in destruct b eqn:E
    end.

Lemma check_text_overflow_outcome text font_size max_width :
  ((text = [] \/ convertible font_size) /\
   exists b, _check_text_overflow text font_size max_width = Ok b) \/
  (text <> [] /\ ~ convertible font_size /\
   _check_text_overflow text font_size max_width = Raise OverflowError).
Proof.
  destruct text as [|ch rest].
  { left. split; [left; reflexivity|]. eexists. reflexivity. }
  destruct (int_to_float font_size) as [f|e|] eqn:Hconv.
  - left. assert (Hc : convertible font_size) by (exists f; exact Hconv).
    split; [right; exact Hc|]. apply check_text_overflow_returns, Hc.
  - right. split; [discriminate|].
    assert (e = OverflowError) as ->.
    { unfold int_to_float in Hconv.
      destruct (binary_normalize _ _ _ _ _); congruence. }
    split.
    + intros [f Hf]. congruence.
    + unfold _check_text_overflow, _estimate_text_width.
      cbn [width_loop]. unfold add_char_width. rewrite Hconv.
      case_conditions; reflexivity.
  - unfold int_to_float in Hconv.
    destruct (binary_normalize _ _ _ _ _); discriminate.
Qed.

(** When the adjustment returns and when it raises. *)
Lemma adjust_value_outcome base log stats :
  match adjust_value base log stats with
  | Ok a => a = adjust_rules stats (base, log) /\
      (max_kpi_value_length stats <= 0 \/
       convertible (KPICardLayout.font_size_value (ConfigValue.kpi_card base)))
  | Raise e => e = OverflowError /\ 0 < max_kpi_value_length stats /\
      ~ convertible (KPICardLayout.font_size_value (ConfigValue.kpi_card base))
  | Undef => False
  end.
Proof.
  unfold adjust_value, detect_kpi_overflow_issues_value. cbv zeta.
  destruct (0 <? max_kpi_value_length stats) eqn:Hlen.
  - apply Z.ltb_lt in Hlen.
    destruct (check_text_overflow_outcome
                (str_repeat 49 (max_kpi_value_length stats) ++ lit "亿元")
                (KPICardLayout.font_size_value (ConfigValue.kpi_card base))
                ((800 - 20) / 2 - 40)) as [[Hcase [b Hb]]|(Hne & Hnc & Hr)].
    + rewrite Hb. simpl.
      assert (Hconv : convertible (KPICardLayout.font_size_value
                                     (ConfigValue.kpi_card base))).
      { destruct Hcase as [Hnil|Hconv]; [|exact Hconv].
        apply app_eq_nil in Hnil as [_ Hnil]. discriminate Hnil. }
      destruct b; simpl; auto.
    + rewrite Hr. simpl. auto.
  - simpl. apply Z.ltb_ge in Hlen. split; [reflexivity|]. left. lia.
Qed.

Lemma adjust_value_returns base log stats :
  max_kpi_value_length stats <= 0 \/
  convertible (KPICardLayout.font_size_value (ConfigValue.kpi_card base)) ->
  adjust_value base log stats = Ok (adjust_rules stats (base, log)).
Proof.
  intros Hc. pose proof (adjust_value_outcome base log stats) as H.
  destruct (adjust_value base log stats) as [a|e|].
  - destruct H as [-> _]. reflexivity.
  - destruct H as (_ & Hlen & Hn). destruct Hc; [lia|contradiction].
  - contradiction.
Qed.

(** What the rules leave in the grid and in the padding of the cards. *)
Lemma adjust_rules_grid stats a :
  let v := fst a in
  let v' := fst (adjust_rules stats a) in
  (kpi_count stats <= 2 ->
     GridLayout.columns (ConfigValue.grid v') = 1 /\
     KPICardLayout.padding (ConfigValue.kpi_card v') = 24) /\
  (2 < kpi_count stats <= 4 ->
     GridLayout.columns (ConfigValue.grid v')
       = GridLayout.columns (ConfigValue.grid v) /\
     KPICardLayout.padding (ConfigValue.kpi_card v')
       = KPICardLayout.padding (ConfigValue.kpi_card v)) /\
  (4 < kpi_count stats <= 6 ->
     GridLayout.columns (ConfigValue.grid v') = 2 /\
     KPICardLayout.padding (ConfigValue.kpi_card v') = 18) /\
  (6 < kpi_count stats ->
     GridLayout.columns (ConfigValue.grid v') = 3 /\
     KPICardLayout.padding (ConfigValue.kpi_card v') = 16).
Proof.
  cbv zeta.
  unfold adjust_rules, total_blocks_rule, long_text_rule, table_layout_rule,
    grid_layout_rule, kpi_font_size_rule. cbv zeta.
  destruct (solver_18_32_returns
              (str_repeat 57 (max_kpi_value_length stats))
              ((800 - 20) / 2 - 40)) as (size & adjusted & -> & _).
  case_conditions; simpl;
    repeat match goal with
      | H : (_ <? _) = true |- _ => apply Z.ltb_lt in H
      | H : (_ <? _) = false |- _ => apply Z.ltb_ge in H
      | H : (_ <=? _) = true |- _ => apply Z.leb_le in H
      | H : (_ <=? _) = false |- _ => apply Z.leb_gt in H
      end;
    repeat split; intros; try reflexivity; lia.
Qed.

(** What the rules leave in the font size of the KPI value. *)
Lemma adjust_rules_font_size_value stats a :
  KPICardLayout.font_size_value
    (ConfigValue.kpi_card (fst (adjust_rules stats a)))
  = if 0 <? max_kpi_value_length stats then
      match _calculate_safe_font_size
              (str_repeat 57 (max_kpi_value_length stats)) 350 18 32 with
      | Ok (safe_font_size, needs_adjustment) =>
          if needs_adjustment : bool then safe_font_size
          else if 10 <? max_kpi_value_length stats
               then Z.min 28 safe_font_size
               else KPICardLayout.font_size_value
                      (ConfigValue.kpi_card (fst a))
      | _ => KPICardLayout.font_size_value (ConfigValue.kpi_card (fst a))
      end
    else KPICardLayout.font_size_value (ConfigValue.kpi_card (fst a)).
Proof.
  unfold adjust_rules, total_blocks_rule, long_text_rule, table_layout_rule,
    grid_layout_rule, kpi_font_size_rule. cbv zeta.
  change ((800 - 20) / 2 - 40) with 350.
  destruct (solver_18_32_returns
              (str_repeat 57 (max_kpi_value_length stats)) 350)
    as (size & adjusted & -> & _).
  case_conditions; reflexivity.
Qed.

(** ** A whole optimization pass *)

Lemma log_optimization_spec w self base log c cfg v stats now :
  heap w !! self
  = Some (OOptimizer {| PDFLayoutOptimizer.config := base;
                        PDFLayoutOptimizer.optimization_log := log |}) ->
  config_at (heap w) c cfg v ->
  _log_optimization self stats c now w
  = (Ok (log_entry_of now stats log (ConfigValue.to_dict v)),
     set_heap
       (<[self := OOptimizer {| PDFLayoutOptimizer.config := base;
                                PDFLayoutOptimizer.optimization_log := [] |}]>
          (heap w)) w).
Proof.
  intros Hs Hc. unfold _log_optimization, to_dict.
  assert (E0 : load_optimizer self w
               = (Ok {| PDFLayoutOptimizer.config := base;
                        PDFLayoutOptimizer.optimization_log := log |}, w)).
  { unfold load_optimizer, bind, load, ret. rewrite Hs. reflexivity. }
  unfold log_clear, bind, ret. rewrite E0. cbv beta iota.
  rewrite (read_config_at _ _ _ _ Hc). cbv beta iota.
  rewrite E0. reflexivity.
Qed.

(** One pass: the analysis, the adjustment on a fresh copy, and the log
    entry; the log of the optimizer is empty again afterwards. *)
Lemma optimize_for_document_entry_spec w self o bcfg bv document_ir stats now :
  heap w !! self = Some (OOptimizer o) ->
  config_at (heap w) (PDFLayoutOptimizer.config o) bcfg bv ->
  _analyze_document document_ir = Ok stats ->
  exists r w',
    optimize_for_document_entry self document_ir now w = (r, w') /\
    (forall l, l ∈ dom (heap w) -> l <> self -> heap w' !! l = heap w !! l) /\
    files w' = files w /\ writable w' = writable w /\
    match adjust_value bv (PDFLayoutOptimizer.optimization_log o) stats with
    | Ok a =>
        exists c cfg,
          r = Ok (c, log_entry_of now stats (snd a)
                       (ConfigValue.to_dict (fst a))) /\
          fresh_config (heap w) c cfg /\
          config_at (heap w') c cfg (fst a) /\
          heap w' !! self
          = Some (OOptimizer {|
                PDFLayoutOptimizer.config := PDFLayoutOptimizer.config o;
                PDFLayoutOptimizer.optimization_log := [] |})
    | Raise e => r = Raise e /\ heap w' !! self = Some (OOptimizer o)
    | Undef => r = Undef
    end.
Proof.
  intros Hs Hbase Hstats. unfold optimize_for_document_entry.
  rewrite Hstats. unfold lift at 1. unfold bind at 1.
  destruct (adjust_config_refines w self o bcfg bv stats Hs Hbase)
    as (r & w1 & E1 & Hfr & Hfi & Hwr & Hout).
  destruct (adjust_value bv (PDFLayoutOptimizer.optimization_log o) stats)
    as [a|e|].
  - destruct Hout as (c & cfg & -> & Hfresh & Hcfg & Hs1).
    rewrite (bind_ok _ _ _ _ _ E1).
    rewrite (bind_ok _ _ _ _ _
               (log_optimization_spec _ _ _ _ _ _ _ stats now Hs1 Hcfg)).
    eexists _, _. split; [reflexivity|]. simpl.
    assert (Hself : self ∈ dom (heap w)) by (apply elem_of_dom; eauto).
    assert (Hne : forall l, l ∈ config_locs c cfg -> self <> l).
    { intros l Hl ->. destruct Hfresh as [_ Hout]. exact (Hout l Hl Hself). }
    split; [intros l Hl Hlne; rewrite lookup_insert_ne by congruence; auto|].
    split; [assumption|]. split; [assumption|].
    exists c, cfg. split; [reflexivity|]. split; [assumption|].
    split; [|apply lookup_insert_eq].
    destruct Hcfg as (H1 & H2 & H3 & H4 & H5 & H6 & H7 & Hflags).
    unfold config_at, config_locs in *.
    repeat split; try tauto;
      (rewrite lookup_insert_ne;
       [assumption | apply Hne; rewrite !elem_of_cons; tauto]).
  - destruct Hout as [-> Hs1]. rewrite (bind_raise _ _ _ _ _ E1).
    eexists _, _. split; [reflexivity|]. auto.
  - subst r. rewrite (bind_undef _ _ _ _ E1).
    eexists _, _. split; [reflexivity|]. auto.
Qed.

(** ** The claims on the adjustment *)

Lemma config_at_in_dom h c cfg v l :
  config_at h c cfg v -> l ∈ config_locs c cfg -> l ∈ dom h.
Proof.
  intros (H1 & H2 & H3 & H4 & H5 & H6 & H7 & _) Hl.
  unfold config_locs in Hl.
  repeat (apply elem_of_cons in Hl as [->|Hl]; [apply elem_of_dom; eauto|]).
  inversion Hl.
Qed.

Lemma config_at_not_optimizer h c cfg v l o :
  config_at h c cfg v -> l ∈ config_locs c cfg ->
  h !! l = Some (OOptimizer o) -> False.
Proof.
  intros (H1 & H2 & H3 & H4 & H5 & H6 & H7 & _) Hl Ho.
  unfold config_locs in Hl.
  repeat (apply elem_of_cons in Hl as [->|Hl]; [congruence|]).
  inversion Hl.
Qed.

Lemma config_at_frame h h' c cfg v :
  config_at h c cfg v ->
  (forall l, l ∈ config_locs c cfg -> h' !! l = h !! l) ->
  config_at h' c cfg v.
Proof.
  intros (H1 & H2 & H3 & H4 & H5 & H6 & H7 & Hflags) Hfr.
  unfold config_at, config_locs in *.
  repeat split; try tauto;
    (rewrite Hfr; [assumption | rewrite !elem_of_cons; tauto]).
Qed.


(** C3 (amended): the rule that sets [Grid.columns = 1] and
    [KPICard.padding = 24] applies exactly when [kpiCount <= 2], zero
    included; for [2 < kpiCount <= 4] both fields keep their baseline
    values, and the two higher ranges set 2 and 18, 3 and 16. *)
Theorem adjust_config_grid_rule w self o bcfg bv stats :
  heap w !! self = Some (OOptimizer o) ->
  config_at (heap w) (PDFLayoutOptimizer.config o) bcfg bv ->
  max_kpi_value_length stats <= 0 \/
  convertible (KPICardLayout.font_size_value (ConfigValue.kpi_card bv)) ->
  exists c cfg v' w',
    _adjust_config_based_on_stats self stats w = (Ok c, w') /\
    config_at (heap w') c cfg v' /\
    (kpi_count stats <= 2 ->
       GridLayout.columns (ConfigValue.grid v') = 1 /\
       KPICardLayout.padding (ConfigValue.kpi_card v') = 24) /\
    (2 < kpi_count stats <= 4 ->
       GridLayout.columns (ConfigValue.grid v')
         = GridLayout.columns (ConfigValue.grid bv) /\
       KPICardLayout.padding (ConfigValue.kpi_card v')
         = KPICardLayout.padding (ConfigValue.kpi_card bv)) /\
    (4 < kpi_count stats <= 6 ->
       GridLayout.columns (ConfigValue.grid v') = 2 /\
       KPICardLayout.padding (ConfigValue.kpi_card v') = 18) /\
    (6 < kpi_count stats ->
       GridLayout.columns (ConfigValue.grid v') = 3 /\
       KPICardLayout.padding (ConfigValue.kpi_card v') = 16).
Proof.
  intros Hs Hbase Hconv.
  destruct (adjust_config_refines w self o bcfg bv stats Hs Hbase)
    as (r & w' & E & _ & _ & _ & Hout).
  rewrite (adjust_value_returns _ _ _ Hconv) in Hout.
  destruct Hout as (c & cfg & -> & _ & Hcfg & _).
  eexists c, cfg, _, w'. split; [exact E|]. split; [exact Hcfg|].
  apply (adjust_rules_grid stats
           (bv, PDFLayoutOptimizer.optimization_log o)).
Qed.

(** C4 (amended): when [maxKpiValueLength > 0] the solver runs on a string
    of that many nines against the constant width 350, with bounds 18 and
    32, whatever [Grid.gap] and [KPICard.padding] the baseline has; the
    value font size of the result is the solved size when the solver had
    to shrink, [min(28, size)] when it did not and the length exceeds 10,
    and the baseline's otherwise. *)
Theorem adjust_config_font_size_width w self o bcfg bv stats :
  heap w !! self = Some (OOptimizer o) ->
  config_at (heap w) (PDFLayoutOptimizer.config o) bcfg bv ->
  0 < max_kpi_value_length stats ->
  convertible (KPICardLayout.font_size_value (ConfigValue.kpi_card bv)) ->
  exists c cfg v' w' safe_font_size needs_adjustment,
    _adjust_config_based_on_stats self stats w = (Ok c, w') /\
    config_at (heap w') c cfg v' /\
    _calculate_safe_font_size
      (str_repeat 57 (max_kpi_value_length stats)) 350 18 32
    = Ok (safe_font_size, needs_adjustment) /\
    KPICardLayout.font_size_value (ConfigValue.kpi_card v')
    = if needs_adjustment : bool then safe_font_size
      else if 10 <? max_kpi_value_length stats then Z.min 28 safe_font_size
      else KPICardLayout.font_size_value (ConfigValue.kpi_card bv).
Proof.
  intros Hs Hbase Hlen Hconv.
  destruct (adjust_config_refines w self o bcfg bv stats Hs Hbase)
    as (r & w' & E & _ & _ & _ & Hout).
  rewrite (adjust_value_returns _ _ _ (or_intror Hconv)) in Hout.
  destruct Hout as (c & cfg & -> & _ & Hcfg & _).
  destruct (solver_18_32_returns
              (str_repeat 57 (max_kpi_value_length stats)) 350)
    as (size & adjusted & Hsolve & _).
  eexists c, cfg, _, w', size, adjusted.
  split; [exact E|]. split; [exact Hcfg|]. split; [exact Hsolve|].
  rewrite adjust_rules_font_size_value, Hsolve.
  replace (0 <? max_kpi_value_length stats) with true
    by (symmetry; apply Z.ltb_lt; exact Hlen).
  reflexivity.
Qed.



(** C10: a call of [optimize_for_document] on an optimizer whose log is
    empty leaves the log empty, however the call ends; and two calls in a
    row on documents with the same statistics record the same ordered list
    of adjustment descriptions, the one the rules produce from an empty
    log, each in its own entry. *)
Theorem optimization_log_is_per_run w self o bcfg bv ir1 ir2 stats now1 now2 :
  heap w !! self = Some (OOptimizer o) ->
  PDFLayoutOptimizer.optimization_log o = [] ->
  config_at (heap w) (PDFLayoutOptimizer.config o) bcfg bv ->
  _analyze_document ir1 = Ok stats ->
  _analyze_document ir2 = Ok stats ->
  (forall document_ir now r w',
     optimize_for_document self document_ir now w = (r, w') ->
     heap w' !! self = Some (OOptimizer o)) /\
  exists r1 w1 r2 w2,
    optimize_for_document_entry self ir1 now1 w = (r1, w1) /\
    optimize_for_document_entry self ir2 now2 w1 = (r2, w2) /\
    heap w1 !! self = Some (OOptimizer o) /\
    heap w2 !! self = Some (OOptimizer o) /\
    match adjust_value bv [] stats with
    | Ok a =>
        exists c1 e1 c2 e2,
          r1 = Ok (c1, e1) /\ r2 = Ok (c2, e2) /\
          py_getitem e1 (lit "optimizations") = Ok (PList (map PStr (snd a))) /\
          py_getitem e2 (lit "optimizations") = Ok (PList (map PStr (snd a)))
    | Raise e => r1 = Raise e /\ r2 = Raise e
    | Undef => False
    end.
Proof.
  intros Hs Hlog Hbase Hst1 Hst2.
  assert (Ho : o = {| PDFLayoutOptimizer.config := PDFLayoutOptimizer.config o;
                      PDFLayoutOptimizer.optimization_log := [] |}).
  { destruct o; simpl in *; subst; reflexivity. }
  assert (Hany : forall w0 document_ir now,
            heap w0 !! self = Some (OOptimizer o) ->
            config_at (heap w0) (PDFLayoutOptimizer.config o) bcfg bv ->
            forall r w',
              optimize_for_document_entry self document_ir now w0 = (r, w') ->
              heap w' !! self = Some (OOptimizer o)).
  { intros w0 document_ir now Hs0 Hbase0 r w' E.
    destruct (_analyze_document document_ir) as [st|e|] eqn:Hst.
    - destruct (optimize_for_document_entry_spec w0 self o bcfg bv
                  document_ir st now Hs0 Hbase0 Hst)
        as (r0 & w0' & E0 & _ & _ & _ & Hout).
      rewrite E in E0. injection E0 as <- <-.
      pose proof (adjust_value_outcome bv
                    (PDFLayoutOptimizer.optimization_log o) st) as Hval.
      destruct (adjust_value bv (PDFLayoutOptimizer.optimization_log o) st)
        as [a|e|].
      + destruct Hout as (c & cfg & _ & _ & _ & Hs'). rewrite Hs'. congruence.
      + apply Hout.
      + contradiction.
    - revert E. unfold optimize_for_document_entry. rewrite Hst.
      unfold lift, bind. intros [= <- <-]. exact Hs0.
    - revert E. unfold optimize_for_document_entry. rewrite Hst.
      unfold lift, bind. intros [= <- <-]. exact Hs0. }
  split.
  { intros document_ir now r w' E. unfold optimize_for_document in E.
    destruct (optimize_for_document_entry self document_ir now w)
      as [r0 w0'] eqn:E0.
    pose proof (Hany w document_ir now Hs Hbase r0 w0' E0) as Hs'.
    unfold bind in E. rewrite E0 in E.
    destruct r0 as [x|e|]; injection E as <- <-; exact Hs'. }
  destruct (optimize_for_document_entry_spec w self o bcfg bv ir1 stats now1
              Hs Hbase Hst1)
    as (r1 & w1 & E1 & Hfr1 & _ & _ & Hout1).
  pose proof (Hany w ir1 now1 Hs Hbase r1 w1 E1) as Hs1.
  assert (Hbase1 : config_at (heap w1) (PDFLayoutOptimizer.config o) bcfg bv).
  { apply (config_at_frame (heap w)); [exact Hbase|].
    intros l Hl. apply Hfr1.
    - eapply config_at_in_dom; eauto.
    - intros ->. eapply config_at_not_optimizer; eauto. }
  destruct (optimize_for_document_entry_spec w1 self o bcfg bv ir2 stats now2
              Hs1 Hbase1 Hst2)
    as (r2 & w2 & E2 & _ & _ & _ & Hout2).
  pose proof (Hany w1 ir2 now2 Hs1 Hbase1 r2 w2 E2) as Hs2.
  exists r1, w1, r2, w2.
  split; [exact E1|]. split; [exact E2|].
  split; [exact Hs1|]. split; [exact Hs2|].
  rewrite Hlog in Hout1, Hout2.
  pose proof (adjust_value_outcome bv [] stats) as Hval.
  destruct (adjust_value bv [] stats) as [a|e|].
  - destruct Hout1 as (c1 & cfg1 & -> & _).
    destruct Hout2 as (c2 & cfg2 & -> & _).
    eexists c1, _, c2, _. split; [reflexivity|]. split; [reflexivity|].
    split; reflexivity.
  - destruct Hout1 as [-> _]. destruct Hout2 as [-> _]. split; reflexivity.
  - contradiction.
Qed.


(** ** The configuration store *)







(** ** The analyzer returns or raises *)













Lemma height_list_elem x l : In x l -> (height x < height (PList l))%nat.
Proof.
  simpl. induction l as [|y l IH]; intros Hin; [contradiction|].
  simpl. destruct Hin as [->|Hin]; [lia|]. specialize (IH Hin). lia.
Qed.

Lemma height_dict_value d key v :
  dict_lookup d key = Some v -> (height v < height (PDict d))%nat.
Proof.
  simpl. induction d as [|[k w] d IH]; intros Hl; [discriminate|].
  simpl in *. destruct (pystr_eqb k key).
  - injection Hl as ->. lia.
  - specialize (IH Hl). lia.
Qed.

(** The items of a list found under a key of a dict are two levels below
    the dict. *)
Lemma height_get_iter x key items item :
  py_get x key (PList []) = Ok (PList items) -> In item items ->
  (S (height item) < height x)%nat.
Proof.
  destruct x as [| | | | | |d]; try discriminate. simpl.
  destruct (dict_lookup d key) as [v|] eqn:Hl; intros [= E] Hin; subst.
  - pose proof (height_dict_value d key _ Hl).
    pose proof (height_list_elem item items Hin). simpl in *. lia.
  - contradiction.
Qed.

Lemma py_iter_items nested items item :
  py_iter nested = Ok items -> In item items ->
  is_dict item = true -> nested = PList items.
Proof.
  destruct nested as [| | | |s|l|d]; try discriminate; intros [= <-] Hin Hd.
  - apply in_map_iff in Hin as (c & <- & _). discriminate.
  - reflexivity.
  - apply in_map_iff in Hin as (kv & <- & _). discriminate.
Qed.





(** ** The analyzer on malformed documents *)

(** C1: the analyzer raises on malformed input.  A chapter that is a bare
    string has no [get] ([AttributeError]), and so has a KPI item that is a
    number; a [rows] value that is a number cannot be indexed
    ([TypeError]).  No statistics are returned in any of the three cases. *)
Theorem analyze_document_raises_on_malformed :
  _analyze_document bare_string_chapter_ir = Raise AttributeError /\
  _analyze_document scalar_kpi_item_ir = Raise AttributeError /\
  _analyze_document scalar_rows_ir = Raise TypeError.
Proof. repeat split; vm_compute; reflexivity. Qed.

(** ** The stylesheet *)

(** C2 (amended): of the 32 numeric fields, 25 are the value of exactly one
    declaration of the stylesheet; [KPICard.padding],
    [KPICard.font_size_value], [KPICard.font_size_label] and
    [Table.cell_padding] are the value of two; and
    [KPICard.value_max_length], [Chart.font_size_label] and
    [Grid.responsive_breakpoint] of none. *)
Theorem css_declarations_per_field f :
  declarations_of f
  = match f with
    | KPICard_padding | KPICard_font_size_value | KPICard_font_size_label
    | Table_cell_padding => 2%nat
    | KPICard_value_max_length | Chart_font_size_label
    | Grid_responsive_breakpoint => 0%nat
    | _ => 1%nat
    end.
Proof. destruct f; vm_compute; reflexivity. Qed.

End Properties.

(* ================================================================== *)
(** * Evaluation on concrete inputs *)

Lemma calculate_safe_font_size_largest_fit_witness :
  18 <= 32 /\
  exists size adjusted,
    _calculate_safe_font_size (rt := ascii_runtime)
      (lit "123456789012") 350 18 32 = Ok (size, adjusted) /\
    18 <= size <= 32.
Proof.
  split; [lia|].
  destruct (calculate_safe_font_size_largest_fit (rt := ascii_runtime)
              (lit "123456789012") 350 18 32 ltac:(lia) convertible_18_32)
    as (size & adjusted & Hret & Hbounds & _).
  exists size, adjusted. split; assumption.
Defined.

(** C5, as stated, fails for a size beyond the doubles: measuring the first
    candidate raises [OverflowError]. *)
Lemma calculate_safe_font_size_overflow_error :
  18 <= 2 ^ 1024 /\
  _calculate_safe_font_size (rt := ascii_runtime) (lit "a") 350 18 (2 ^ 1024)
  = Raise OverflowError.
Proof.
  split; [vm_compute; discriminate|].
  apply calculate_safe_font_size_raises.
  - discriminate.
  - vm_compute; discriminate.
  - vm_compute. reflexivity.
Qed.

Lemma calculate_safe_font_size_equal_bounds_witness :
  (lit "9" <> [] \/ 0 <= 350) /\
  _calculate_safe_font_size (rt := ascii_runtime) (lit "9") 350 18 18
  = Ok (18, false).
Proof.
  assert (Hcase : lit "9" <> [] \/ 0 <= 350) by (right; lia).
  split; [exact Hcase|].
  rewrite (calculate_safe_font_size_equal_bounds (rt := ascii_runtime)
             (lit "9") 350 18 Hcase).
  reflexivity.
Defined.

(** C6, as stated, fails for the empty text under a negative width budget:
    the solver answers [(S, false)] while the overflow check is true. *)
Lemma calculate_safe_font_size_equal_bounds_empty_text :
  _calculate_safe_font_size (rt := ascii_runtime) [] (-1) 18 18 = Ok (18, false)
  /\ _check_text_overflow (rt := ascii_runtime) [] 18 (-1) = Ok true.
Proof. split; reflexivity. Qed.

(** ** The default optimizer *)

Lemma default_world_optimizer :
  heap default_world !! default_optimizer
  = Some (OOptimizer default_optimizer_object).
Proof. vm_compute. reflexivity. Qed.

Lemma default_world_config :
  config_at (heap default_world)
    (PDFLayoutOptimizer.config default_optimizer_object)
    default_config_object ConfigValue.default.
Proof. repeat split; vm_compute; reflexivity. Qed.

Lemma convertible_32 :
  convertible
    (KPICardLayout.font_size_value (ConfigValue.kpi_card ConfigValue.default)).
Proof. eexists. vm_compute. reflexivity. Qed.

Lemma scenario_a_analysis :
  _analyze_document (rt := ascii_runtime) scenario_a_ir = Ok scenario_a_stats.
Proof. vm_compute. reflexivity. Qed.

Lemma scenario_a_bis_analysis :
  _analyze_document (rt := ascii_runtime) scenario_a_bis_ir
  = Ok scenario_a_stats.
Proof. vm_compute. reflexivity. Qed.

(** ** The grid rule *)

Lemma adjust_config_grid_rule_witness :
  heap default_world !! default_optimizer
  = Some (OOptimizer default_optimizer_object) /\
  config_at (heap default_world)
    (PDFLayoutOptimizer.config default_optimizer_object)
    default_config_object ConfigValue.default /\
  (max_kpi_value_length initial_stats <= 0 \/
   convertible
     (KPICardLayout.font_size_value
        (ConfigValue.kpi_card ConfigValue.default))) /\
  exists c cfg v' w',
    _adjust_config_based_on_stats (rt := ascii_runtime) default_optimizer
      initial_stats default_world = (Ok c, w') /\
    config_at (heap w') c cfg v' /\
    GridLayout.columns (ConfigValue.grid v') = 1 /\
    KPICardLayout.padding (ConfigValue.kpi_card v') = 24.
Proof.
  assert (Hlen : max_kpi_value_length initial_stats <= 0 \/
                 convertible
                   (KPICardLayout.font_size_value
                      (ConfigValue.kpi_card ConfigValue.default)))
    by (left; simpl; lia).
  split; [exact default_world_optimizer|].
  split; [exact default_world_config|].
  split; [exact Hlen|].
  destruct (adjust_config_grid_rule (rt := ascii_runtime) default_world
              default_optimizer default_optimizer_object
              default_config_object ConfigValue.default initial_stats
              default_world_optimizer default_world_config Hlen)
    as (c & cfg & v' & w' & E & Hcfg & Hfew & _).
  exists c, cfg, v', w'. split; [exact E|]. split; [exact Hcfg|].
  apply Hfew. simpl. lia.
Defined.

(** C3, as stated, fails for a document without KPI items: the empty
    document has [kpiCount = 0], and the adjustment of the default
    configuration sets [Grid.columns] to 1 and [KPICard.padding] to 24,
    where the baseline has 2 and 20. *)
Lemma grid_rule_applies_without_kpi :
  _analyze_document (rt := ascii_runtime) (PDict []) = Ok initial_stats /\
  kpi_count initial_stats = 0 /\
  GridLayout.columns (ConfigValue.grid ConfigValue.default) = 2 /\
  KPICardLayout.padding (ConfigValue.kpi_card ConfigValue.default) = 20 /\
  exists v',
    adjusted_content default_world default_optimizer initial_stats = Ok v' /\
    GridLayout.columns (ConfigValue.grid v') = 1 /\
    KPICardLayout.padding (ConfigValue.kpi_card v') = 24.
Proof.
  repeat split; try (vm_compute; reflexivity).
  eexists. split; [vm_compute; reflexivity|]. split; reflexivity.
Qed.

(** ** The width used by the font-size rule *)

Lemma adjust_config_font_size_width_witness :
  heap default_world !! default_optimizer
  = Some (OOptimizer default_optimizer_object) /\
  config_at (heap default_world)
    (PDFLayoutOptimizer.config default_optimizer_object)
    default_config_object ConfigValue.default /\
  0 < max_kpi_value_length stats_20_digits /\
  convertible
    (KPICardLayout.font_size_value
       (ConfigValue.kpi_card ConfigValue.default)) /\
  exists c cfg v' w',
    _adjust_config_based_on_stats (rt := ascii_runtime) default_optimizer
      stats_20_digits default_world = (Ok c, w') /\
    config_at (heap w') c cfg v' /\
    KPICardLayout.font_size_value (ConfigValue.kpi_card v') = 29.
Proof.
  assert (Hlen : 0 < max_kpi_value_length stats_20_digits) by (simpl; lia).
  split; [exact default_world_optimizer|].
  split; [exact default_world_config|].
  split; [exact Hlen|]. split; [exact convertible_32|].
  destruct (adjust_config_font_size_width (rt := ascii_runtime) default_world
              default_optimizer default_optimizer_object
              default_config_object ConfigValue.default stats_20_digits
              default_world_optimizer default_world_config Hlen
              convertible_32)
    as (c & cfg & v' & w' & size & adjusted & E & Hcfg & Hsolve & Hfont).
  exists c, cfg, v', w'. split; [exact E|]. split; [exact Hcfg|].
  assert (Hrun : _calculate_safe_font_size (rt := ascii_runtime)
                   (str_repeat 57 (max_kpi_value_length stats_20_digits))
                   350 18 32 = Ok (29, true)) by (vm_compute; reflexivity).
  rewrite Hrun in Hsolve. injection Hsolve as <- <-. exact Hfont.
Defined.

(** C4, as stated, fails for a baseline other than the default one: with
    [Grid.gap = 100] and [KPICard.padding = 50] the width of the
    specification is 250, against which the solver answers 20 for twenty
    digits; the adjustment sets the font size to 29, the answer against
    350. *)
Lemma font_size_width_ignores_baseline :
  heap wide_gap_world !! default_optimizer
  = Some (OOptimizer default_optimizer_object) /\
  config_at (heap wide_gap_world) 7%positive default_config_object
    wide_gap_base /\
  spec_kpi_usable_width wide_gap_base = 250 /\
  _calculate_safe_font_size (rt := ascii_runtime)
    (str_repeat 57 (max_kpi_value_length stats_20_digits))
    (spec_kpi_usable_width wide_gap_base) 18 32 = Ok (20, true) /\
  exists v',
    adjusted_content wide_gap_world default_optimizer stats_20_digits = Ok v' /\
    KPICardLayout.font_size_value (ConfigValue.kpi_card v') = 29.
Proof.
  split; [vm_compute; reflexivity|].
  split; [repeat split; vm_compute; reflexivity|].
  split; [vm_compute; reflexivity|].
  split; [vm_compute; reflexivity|].
  eexists. split; [vm_compute; reflexivity|]. reflexivity.
Qed.

(** ** A twelve-digit KPI value *)


(** ** Saving and loading *)



(** ** The baseline after an adjustment *)


(** ** The log over two passes *)

Lemma optimization_log_is_per_run_witness :
  heap default_world !! default_optimizer
  = Some (OOptimizer default_optimizer_object) /\
  PDFLayoutOptimizer.optimization_log default_optimizer_object = [] /\
  config_at (heap default_world)
    (PDFLayoutOptimizer.config default_optimizer_object)
    default_config_object ConfigValue.default /\
  _analyze_document (rt := ascii_runtime) scenario_a_ir = Ok scenario_a_stats /\
  _analyze_document (rt := ascii_runtime) scenario_a_bis_ir
  = Ok scenario_a_stats /\
  exists r1 w1 r2 w2,
    optimize_for_document_entry (rt := ascii_runtime) default_optimizer
      scenario_a_ir (lit "2026-01-01T00:00:00") default_world = (r1, w1) /\
    optimize_for_document_entry (rt := ascii_runtime) default_optimizer
      scenario_a_bis_ir (lit "2026-01-02T00:00:00") w1 = (r2, w2) /\
    heap w1 !! default_optimizer = Some (OOptimizer default_optimizer_object) /\
    heap w2 !! default_optimizer = Some (OOptimizer default_optimizer_object).
Proof.
  split; [exact default_world_optimizer|].
  split; [reflexivity|].
  split; [exact default_world_config|].
  split; [exact scenario_a_analysis|].
  split; [exact scenario_a_bis_analysis|].
  destruct (optimization_log_is_per_run (rt := ascii_runtime) default_world
              default_optimizer default_optimizer_object
              default_config_object ConfigValue.default scenario_a_ir
              scenario_a_bis_ir scenario_a_stats
              (lit "2026-01-01T00:00:00") (lit "2026-01-02T00:00:00")
              default_world_optimizer eq_refl default_world_config
              scenario_a_analysis scenario_a_bis_analysis)
    as (_ & r1 & w1 & r2 & w2 & E1 & E2 & Hs1 & Hs2 & _).
  exists r1, w1, r2, w2. repeat split; assumption.
Defined.

(** ** Fields in the stylesheet *)

(** C2, as stated, fails: in the stylesheet of a configuration whose
    [KPICard.padding] is 555555 and whose [Table.cell_padding] is 444444,
    each of them occurs twice, while the values of
    [Chart.font_size_label], [Grid.responsive_breakpoint] and
    [KPICard.value_max_length] occur nowhere. *)
Lemma css_fields_twice_and_never :
  occurrences (int_str (KPICardLayout.padding
                          (ConfigValue.kpi_card marker_config))) marker_css = 2%nat /\
  occurrences (int_str (TableLayout.cell_padding
                          (ConfigValue.table marker_config))) marker_css = 2%nat /\
  occurrences (int_str (ChartLayout.font_size_label
                          (ConfigValue.chart marker_config))) marker_css = 0%nat /\
  occurrences (int_str (GridLayout.responsive_breakpoint
                          (ConfigValue.grid marker_config))) marker_css = 0%nat /\
  occurrences (int_str (KPICardLayout.value_max_length
                          (ConfigValue.kpi_card marker_config))) marker_css = 0%nat /\
  declarations_of KPICard_padding = 2%nat /\
  declarations_of Chart_font_size_label = 0%nat.
Proof. repeat split; vm_compute; reflexivity. Qed.

(* ================================================================== *)
(** * Further properties

    What the same functions do beside the claims above: the analyzer on
    well-formed documents and on the parts of a document, the solver on
    other bounds, the adjustment field by field, whole passes, and the
    edges of the configuration store and of the stylesheet. *)

Section FurtherProperties.
Context {rt : PyRuntime}.

Ltac case_conditions :=
  repeat match goal with
    | |- context [if ?b then _ else _] =>
        let E := fresh "E" in destruct b eqn:E
    end.

(** ** Loops of the analyzer *)

Lemma res_fold_ext {A S} (f g : A -> S -> res S) l :
  (forall x s, In x l -> f x s = g x s) ->
  forall s, res_fold f l s = res_fold g l s.
Proof.
  induction l as [|x l IH]; intros H s; simpl; [reflexivity|].
  rewrite (H x s (or_introl eq_refl)).
  destruct (g x s); simpl; [|reflexivity|reflexivity].
  apply IH. intros y t Hy. apply H. right. exact Hy.
Qed.

Lemma res_fold_filter {A S} (p : A -> bool) (f : A -> S -> res S) l :
  (forall x s, p x = false -> f x s = Ok s) ->
  forall s, res_fold f (List.filter p l) s = res_fold f l s.
Proof.
  intros H. induction l as [|x l IH]; intros s; simpl; [reflexivity|].
  destruct (p x) eqn:Hp; simpl.
  - destruct (f x s); simpl; auto.
  - rewrite (H x s Hp). simpl. apply IH.
Qed.

Lemma res_fold_app {A S} (body : A -> S -> res S) l1 l2 s :
  res_fold body (l1 ++ l2) s
  = res_bind (res_fold body l1 s) (res_fold body l2).
Proof.
  revert s. induction l1 as [|x l1 IH]; intros s; simpl; [reflexivity|].
  destruct (body x s); simpl; auto.
Qed.

(** ** The recursion of the analyzer *)

Lemma analyze_block_fuel_non_dict fuel block s :
  is_dict block = false -> analyze_block_fuel fuel block s = Ok s.
Proof. intros H. destruct fuel; simpl; rewrite H; reflexivity. Qed.

(** The recursion budget does not matter once it covers the nesting. *)
Lemma analyze_block_fuel_enough fuel1 :
  forall fuel2 block s,
    (height block <= fuel1)%nat -> (height block <= fuel2)%nat ->
    analyze_block_fuel fuel1 block s = analyze_block_fuel fuel2 block s.
Proof.
  induction fuel1 as [|fuel1 IH]; intros fuel2 block s H1 H2.
  - destruct block; try (rewrite !analyze_block_fuel_non_dict; reflexivity).
    simpl in H1. lia.
  - destruct (is_dict block) eqn:Hd;
      [|rewrite !analyze_block_fuel_non_dict by exact Hd; reflexivity].
    destruct fuel2 as [|fuel2];
      [destruct block; try discriminate; simpl in H2; lia|].
    cbn [analyze_block_fuel]. rewrite Hd. cbn [negb].
    destruct (py_get block (lit "type") PNone) as [nt| |]; simpl; auto.
    destruct (analyze_block_node block nt s) as [s1| |]; simpl; auto.
    destruct (py_get block (lit "blocks") (PList [])) as [nested| |] eqn:Hget;
      simpl; auto.
    destruct (py_truthy nested); auto.
    destruct (py_iter nested) as [items| |] eqn:Hiter; simpl; auto.
    apply res_fold_ext. intros item t Hin.
    destruct (is_dict item) eqn:Hitem;
      [|rewrite !analyze_block_fuel_non_dict by exact Hitem; reflexivity].
    pose proof (py_iter_items _ _ _ Hiter Hin Hitem) as ->.
    pose proof (height_get_iter _ _ _ _ Hget Hin).
    apply IH; lia.
Qed.

(** [_analyze_block] as the source defines it, by recursion on the nested
    blocks. *)
Lemma analyze_block_equation block stats :
  _analyze_block block stats
  = if negb (is_dict block) then Ok stats
    else
      (node_type <- py_get block (lit "type") PNone ;;
       stats <- analyze_block_node block node_type stats ;;
       nested_blocks <- py_get block (lit "blocks") (PList []) ;;
       if py_truthy nested_blocks then
         items <- py_iter nested_blocks ;;
         res_fold _analyze_block items stats
       else Ok stats)%res.
Proof.
  unfold _analyze_block.
  destruct (is_dict block) eqn:Hd;
    [|rewrite analyze_block_fuel_non_dict by exact Hd; reflexivity].
  destruct (height block) as [|fuel] eqn:Hh;
    [destruct block; discriminate|].
  cbn [analyze_block_fuel]. rewrite Hd. cbn [negb].
  destruct (py_get block (lit "type") PNone) as [nt| |]; simpl; auto.
  destruct (analyze_block_node block nt stats) as [s1| |]; simpl; auto.
  destruct (py_get block (lit "blocks") (PList [])) as [nested| |] eqn:Hget;
    simpl; auto.
  destruct (py_truthy nested); auto.
  destruct (py_iter nested) as [items| |] eqn:Hiter; simpl; auto.
  apply res_fold_ext. intros item t Hin.
  destruct (is_dict item) eqn:Hitem;
    [|rewrite !analyze_block_fuel_non_dict by exact Hitem; reflexivity].
  pose proof (py_iter_items _ _ _ Hiter Hin Hitem) as ->.
  pose proof (height_get_iter _ _ _ _ Hget Hin).
  apply analyze_block_fuel_enough; lia.
Qed.

Lemma analyze_chapter_fuel_enough fuel1 :
  forall fuel2 chapter s,
    (height chapter < fuel1)%nat -> (height chapter < fuel2)%nat ->
    analyze_chapter_fuel fuel1 chapter s
    = analyze_chapter_fuel fuel2 chapter s.
Proof.
  induction fuel1 as [|fuel1 IH]; intros fuel2 chapter s H1 H2; [lia|].
  destruct fuel2 as [|fuel2]; [lia|].
  cbn [analyze_chapter_fuel].
  destruct (py_get chapter (lit "blocks") (PList [])) as [blocks| |];
    simpl; auto.
  destruct (py_iter blocks) as [items| |]; simpl; auto.
  destruct (res_fold _analyze_block items s) as [s1| |]; simpl; auto.
  destruct (py_get chapter (lit "children") (PList [])) as [children| |]
    eqn:Hget; simpl; auto.
  destruct (py_iter children) as [citems| |] eqn:Hiter; simpl; auto.
  apply res_fold_ext. intros child t Hin.
  destruct (is_dict child) eqn:Hchild; [|reflexivity].
  pose proof (py_iter_items _ _ _ Hiter Hin Hchild) as ->.
  pose proof (height_get_iter _ _ _ _ Hget Hin).
  apply IH; lia.
Qed.

(** [_analyze_chapter] as the source defines it, by recursion on the
    children. *)
Lemma analyze_chapter_equation chapter stats :
  _analyze_chapter chapter stats
  = (blocks <- py_get chapter (lit "blocks") (PList []) ;;
     items <- py_iter blocks ;;
     stats <- res_fold _analyze_block items stats ;;
     children <- py_get chapter (lit "children") (PList []) ;;
     items <- py_iter children ;;
     res_fold
       (fun child stats =>
          if is_dict child then _analyze_chapter child stats else Ok stats)
       items stats)%res.
Proof.
  unfold _analyze_chapter at 1. cbn [analyze_chapter_fuel].
  destruct (py_get chapter (lit "blocks") (PList [])) as [blocks| |];
    simpl; auto.
  destruct (py_iter blocks) as [items| |]; simpl; auto.
  destruct (res_fold _analyze_block items stats) as [s1| |]; simpl; auto.
  destruct (py_get chapter (lit "children") (PList [])) as [children| |]
    eqn:Hget; simpl; auto.
  destruct (py_iter children) as [citems| |] eqn:Hiter; simpl; auto.
  apply res_fold_ext. intros child t Hin.
  destruct (is_dict child) eqn:Hchild; [|reflexivity].
  pose proof (py_iter_items _ _ _ Hiter Hin Hchild) as ->.
  pose proof (height_get_iter _ _ _ _ Hget Hin).
  unfold _analyze_chapter. apply analyze_chapter_fuel_enough; lia.
Qed.

(** ** The text of a paragraph *)





(** ** Well-formed documents *)

















(** ** What the statistics satisfy *)

Lemma res_fold_preserves {A S} (P : S -> Prop) (body : A -> S -> res S) l :
  (forall x s s', In x l -> P s -> body x s = Ok s' -> P s') ->
  forall s s', P s -> res_fold body l s = Ok s' -> P s'.
Proof.
  induction l as [|x l IH]; intros Hb s s' Hs E; simpl in E.
  - injection E as <-. exact Hs.
  - destruct (body x s) as [s1|e|] eqn:E1; simpl in E; try discriminate.
    apply (IH (fun y t t' Hy => Hb y t t' (or_intror Hy)) s1 s');
      [|exact E].
    apply (Hb x s s1); auto. left. reflexivity.
Qed.

Lemma py_len_iter x n items :
  py_len x = Ok n -> py_iter x = Ok items -> n = Z.of_nat (length items).
Proof.
  destruct x; simpl; try discriminate; intros [= <-] [= <-];
    rewrite ?length_map; reflexivity.
Qed.

Lemma py_iter_total_len x n :
  py_len x = Ok n -> exists items : list pyval, n = Z.of_nat (length items).
Proof.
  destruct x; simpl; try discriminate; intros [= <-].
  - exists (map (fun c => PStr [c]) s). rewrite length_map. reflexivity.
  - exists l. reflexivity.
  - exists (map (fun kv => PStr (fst kv)) d). rewrite length_map. reflexivity.
Qed.

Ltac res_inv :=
  repeat match goal with
    | H : res_bind ?m _ = Ok _ |- _ =>
        destruct m eqn:?; simpl in H; try discriminate H
    | H : (if ?b then _ else _) = Ok _ |- _ => destruct b eqn:?
    | H : Ok _ = Ok _ |- _ => injection H as <-
    | H : Raise _ = Ok _ |- _ => discriminate H
    | H : Undef = Ok _ |- _ => discriminate H
    end.

Ltac len_nonneg :=
  repeat match goal with
    | H : py_len _ = Ok ?n |- _ =>
        let items := fresh "items" in
        destruct (py_iter_total_len _ _ H) as [items ->]; clear H
    end.

Ltac consistency :=
  unfold stats_consistent in *; simpl in *;
  repeat match goal with
    | H : (_ <? _) = true |- _ => apply Z.ltb_lt in H
    | H : (_ <? _) = false |- _ => apply Z.ltb_ge in H
    end;
  intuition (try discriminate; try lia).

Lemma consistent_analyze_kpi kpi s s' :
  stats_consistent s /\ 0 < kpi_count s ->
  analyze_kpi kpi s = Ok s' ->
  stats_consistent s' /\ 0 < kpi_count s'.
Proof.
  intros [Hs Hk] E. unfold analyze_kpi in E. cbv zeta in E. res_inv.
  destruct s. consistency.
Qed.

Lemma consistent_analyze_callout_block cb s s' :
  stats_consistent s /\ 0 < callout_count s ->
  analyze_callout_block cb s = Ok s' ->
  stats_consistent s' /\ 0 < callout_count s'.
Proof.
  intros [Hs Hk] E. unfold analyze_callout_block in E. res_inv;
    destruct s; consistency.
Qed.

Lemma consistent_analyze_block_node block node_type s s' :
  stats_consistent s -> analyze_block_node block node_type s = Ok s' ->
  stats_consistent s'.
Proof.
  intros Hs E. unfold analyze_block_node in E. cbv zeta in E.
  destruct (py_eq_str node_type (lit "kpiGrid")).
  { destruct (py_get block (lit "items") (PList [])) as [kpis| |];
      simpl in E; try discriminate E.
    destruct (py_len kpis) as [n| |] eqn:En; simpl in E; try discriminate E.
    destruct (py_iter kpis) as [items| |] eqn:Ei; simpl in E;
      try discriminate E.
    pose proof (py_len_iter _ _ _ En Ei) as Hn.
    destruct items as [|item items].
    - simpl in E. injection E as <-. simpl in Hn. subst n.
      destruct s. consistency.
    - refine (proj1 (res_fold_preserves
                (fun t => stats_consistent t /\ 0 < kpi_count t)
                analyze_kpi (item :: items) _ _ s' _ E)).
      + intros x t t' _. apply consistent_analyze_kpi.
      + simpl length in Hn. destruct s. consistency. }
  destruct (py_eq_str node_type (lit "table")).
  { res_inv; len_nonneg; destruct s; consistency. }
  destruct (py_eq_str node_type (lit "chart")
            || py_eq_str node_type (lit "widget")).
  { injection E as <-. destruct s. consistency. }
  destruct (py_eq_str node_type (lit "callout")).
  { destruct (py_get block (lit "blocks") (PList [])) as [cbs| |];
      simpl in E; try discriminate E.
    destruct (py_iter cbs) as [items| |]; simpl in E; try discriminate E.
    refine (proj1 (res_fold_preserves
              (fun t => stats_consistent t /\ 0 < callout_count t)
              analyze_callout_block items _ _ s' _ E)).
    - intros x t t' _. apply consistent_analyze_callout_block.
    - destruct s. consistency. }
  destruct (py_eq_str node_type (lit "paragraph")).
  { res_inv; destruct s; consistency. }
  injection E as <-. exact Hs.
Qed.

Lemma consistent_analyze_block_fuel fuel :
  forall block s s',
    stats_consistent s -> analyze_block_fuel fuel block s = Ok s' ->
    stats_consistent s'.
Proof.
  induction fuel as [|fuel IH]; intros block s s' Hs E.
  - simpl in E. destruct (negb (is_dict block)); [|discriminate].
    injection E as <-. exact Hs.
  - cbn [analyze_block_fuel] in E.
    destruct (negb (is_dict block)); [injection E as <-; exact Hs|].
    destruct (py_get block (lit "type") PNone) as [nt| |];
      simpl in E; try discriminate E.
    destruct (analyze_block_node block nt s) as [s1| |] eqn:E1;
      simpl in E; try discriminate E.
    apply consistent_analyze_block_node in E1; [|exact Hs].
    destruct (py_get block (lit "blocks") (PList [])) as [nested| |];
      simpl in E; try discriminate E.
    destruct (py_truthy nested); [|injection E as <-; exact E1].
    destruct (py_iter nested) as [items| |]; simpl in E; try discriminate E.
    apply (res_fold_preserves stats_consistent
             (analyze_block_fuel fuel) items
             (fun x t t' _ => IH x t t') s1 s' E1 E).
Qed.

Lemma consistent_analyze_chapter_fuel fuel :
  forall chapter s s',
    stats_consistent s -> analyze_chapter_fuel fuel chapter s = Ok s' ->
    stats_consistent s'.
Proof.
  induction fuel as [|fuel IH]; intros chapter s s' Hs E; [discriminate|].
  cbn [analyze_chapter_fuel] in E.
  destruct (py_get chapter (lit "blocks") (PList [])) as [blocks| |];
    simpl in E; try discriminate E.
  destruct (py_iter blocks) as [items| |]; simpl in E; try discriminate E.
  destruct (res_fold _analyze_block items s) as [s1| |] eqn:E1;
    simpl in E; try discriminate E.
  assert (Hs1 : stats_consistent s1).
  { apply (res_fold_preserves stats_consistent _analyze_block items
             (fun x t t' _ => consistent_analyze_block_fuel _ x t t')
             s s1 Hs E1). }
  destruct (py_get chapter (lit "children") (PList [])) as [children| |];
    simpl in E; try discriminate E.
  destruct (py_iter children) as [citems| |]; simpl in E; try discriminate E.
  refine (res_fold_preserves stats_consistent _ citems _ s1 s' Hs1 E).
  intros child t t' _ Ht Et. destruct (is_dict child).
  - exact (IH child t t' Ht Et).
  - injection Et as <-. exact Ht.
Qed.

Lemma stats_consistent_initial : stats_consistent initial_stats.
Proof. unfold stats_consistent; simpl. intuition (try discriminate; lia). Qed.

(** The statistics a document gets are those of a loop over its chapters. *)
Lemma analyze_document_fold document_ir stats :
  _analyze_document document_ir = Ok stats ->
  exists chapters,
    res_fold _analyze_chapter chapters initial_stats = Ok stats.
Proof.
  intros E. unfold _analyze_document in E. cbv zeta in E.
  destruct (py_get document_ir (lit "chapters") (PList [])) as [chapters| |];
    simpl in E; try discriminate E.
  destruct (if negb (py_truthy chapters)
            then py_get document_ir (lit "sections") (PList [])
            else Ok chapters) as [chapters'| |];
    simpl in E; try discriminate E.
  destruct (py_iter chapters') as [items| |]; simpl in E; try discriminate E.
  exists items. exact E.
Qed.

Lemma consistent_analyze_chapter chapter s s' :
  stats_consistent s -> _analyze_chapter chapter s = Ok s' ->
  stats_consistent s'.
Proof. apply consistent_analyze_chapter_fuel. Qed.

(** Every statistic the analyzer returns is non-negative; a maximum is
    positive only when the matching count is, and the long-text flag is set
    only when there is a callout or more than 500 characters of paragraph
    text. *)
Theorem analyze_document_consistent document_ir stats :
  _analyze_document document_ir = Ok stats -> stats_consistent stats.
Proof.
  intros E. destruct (analyze_document_fold document_ir stats E)
    as [chapters Hfold].
  refine (res_fold_preserves stats_consistent _analyze_chapter chapters _ _ _
            stats_consistent_initial Hfold).
  intros chapter s s' _. apply consistent_analyze_chapter.
Qed.

(** ** The statistics of the parts of a document *)

Lemma stats_ext (a b : Stats) :
  kpi_count a = kpi_count b -> table_count a = table_count b ->
  chart_count a = chart_count b -> callout_count a = callout_count b ->
  max_kpi_value_length a = max_kpi_value_length b ->
  max_table_columns a = max_table_columns b ->
  max_table_rows a = max_table_rows b ->
  total_content_length a = total_content_length b ->
  has_long_text a = has_long_text b -> a = b.
Proof. destruct a, b; simpl; intros; subst; reflexivity. Qed.

Lemma merge_stats_assoc a b c :
  merge_stats (merge_stats a b) c = merge_stats a (merge_stats b c).
Proof.
  unfold merge_stats; simpl. f_equal; try lia. symmetry; apply orb_assoc.
Qed.

Lemma merge_stats_initial_r s :
  maxima_nonneg s -> merge_stats s initial_stats = s.
Proof.
  intros (H1 & H2 & H3). destruct s; unfold merge_stats; simpl in *.
  f_equal; try lia. apply orb_false_r.
Qed.

Lemma merge_stats_initial_l s :
  maxima_nonneg s -> merge_stats initial_stats s = s.
Proof.
  intros (H1 & H2 & H3). destruct s; unfold merge_stats; simpl in *.
  f_equal; lia.
Qed.

Lemma maxima_nonneg_initial : maxima_nonneg initial_stats.
Proof. unfold maxima_nonneg; simpl; lia. Qed.

Lemma maxima_nonneg_merge a b :
  maxima_nonneg a -> maxima_nonneg b -> maxima_nonneg (merge_stats a b).
Proof. unfold maxima_nonneg; simpl; lia. Qed.

Lemma tracks_ret : tracks (fun s => Ok s).
Proof.
  intros s Hs. simpl. split; [|apply maxima_nonneg_initial].
  rewrite merge_stats_initial_r; auto.
Qed.

Lemma tracks_raise e : tracks (fun _ => Raise e).
Proof. intros s Hs. reflexivity. Qed.

Lemma tracks_seq m1 m2 :
  tracks m1 -> tracks m2 -> tracks (fun s => res_bind (m1 s) m2).
Proof.
  intros H1 H2 s Hs. specialize (H1 s Hs).
  destruct (m1 initial_stats) as [d1|e|]; simpl.
  - destruct H1 as [-> Hd1]. simpl.
    pose proof (H2 d1 Hd1) as H2d.
    pose proof (H2 (merge_stats s d1) (maxima_nonneg_merge _ _ Hs Hd1)) as H2s.
    destruct (m2 initial_stats) as [d2|e|].
    + destruct H2d as [-> _]. destruct H2s as [-> Hd2].
      split; [rewrite merge_stats_assoc; reflexivity|].
      apply maxima_nonneg_merge; assumption.
    + rewrite H2d. exact H2s.
    + rewrite H2d. exact H2s.
  - rewrite H1. reflexivity.
  - rewrite H1. reflexivity.
Qed.

Lemma tracks_let {A} (r : res A) (k : A -> Stats -> res Stats) :
  (forall a, r = Ok a -> tracks (k a)) ->
  tracks (fun s => res_bind r (fun a => k a s)).
Proof.
  intros Hk. destruct r as [a|e|]; simpl.
  - apply Hk. reflexivity.
  - apply tracks_raise.
  - intros s Hs. reflexivity.
Qed.

Lemma tracks_if (b : bool) m1 m2 :
  tracks m1 -> tracks m2 -> tracks (fun s => if b then m1 s else m2 s).
Proof. destruct b; auto. Qed.

Lemma tracks_fold {A} (body : A -> Stats -> res Stats) l :
  (forall x, In x l -> tracks (body x)) -> tracks (res_fold body l).
Proof.
  induction l as [|x l IH]; intros Hb.
  - apply tracks_ret.
  - simpl. apply (tracks_seq (body x) (res_fold body l)).
    + apply Hb. left. reflexivity.
    + apply IH. intros y Hy. apply Hb. right. exact Hy.
Qed.

Ltac tracks_update :=
  let s := fresh "s" in let Hs := fresh "Hs" in
  intros s Hs; simpl;
  destruct Hs as (? & ? & ?);
  split; [f_equal; destruct s; apply stats_ext; simpl in *;
          first [lia | symmetry; apply orb_false_r]
         | unfold maxima_nonneg; simpl; lia].

Lemma tracks_kpi_count n :
  tracks (fun s => Ok (set_kpi_count (kpi_count s + n) s)).
Proof. tracks_update. Qed.

Lemma tracks_table_count :
  tracks (fun s => Ok (set_table_count (table_count s + 1) s)).
Proof. tracks_update. Qed.

Lemma tracks_chart_count :
  tracks (fun s => Ok (set_chart_count (chart_count s + 1) s)).
Proof. tracks_update. Qed.

Lemma tracks_callout_count :
  tracks (fun s => Ok (set_callout_count (callout_count s + 1) s)).
Proof. tracks_update. Qed.

Lemma tracks_total_content_length n :
  tracks (fun s =>
            Ok (set_total_content_length (total_content_length s + n) s)).
Proof. tracks_update. Qed.

Lemma tracks_max_kpi_value_length n :
  tracks (fun s =>
            Ok (set_max_kpi_value_length
                  (Z.max (max_kpi_value_length s) n) s)).
Proof. tracks_update. Qed.

Lemma tracks_max_table_columns n :
  tracks (fun s =>
            Ok (set_max_table_columns (Z.max (max_table_columns s) n) s)).
Proof. tracks_update. Qed.

Lemma tracks_max_table_rows n :
  tracks (fun s => Ok (set_max_table_rows (Z.max (max_table_rows s) n) s)).
Proof. tracks_update. Qed.

Lemma tracks_has_long_text :
  tracks (fun s => Ok (set_has_long_text true s)).
Proof.
  intros s (H1 & H2 & H3). simpl.
  split; [|unfold maxima_nonneg; simpl; lia].
  f_equal; destruct s; apply stats_ext; simpl in *;
    first [lia | symmetry; apply orb_true_r].
Qed.

Lemma tracks_analyze_kpi kpi : tracks (analyze_kpi kpi).
Proof.
  unfold analyze_kpi. apply tracks_let. intros v _. cbv zeta.
  apply tracks_max_kpi_value_length.
Qed.

Lemma tracks_analyze_callout_block cb : tracks (analyze_callout_block cb).
Proof.
  unfold analyze_callout_block.
  apply tracks_if; [|apply tracks_ret].
  apply tracks_let. intros t _.
  apply tracks_if; [|apply tracks_ret].
  apply tracks_let. intros text _.
  apply tracks_if; [apply tracks_has_long_text|apply tracks_ret].
Qed.

Lemma tracks_analyze_block_node block node_type :
  tracks (analyze_block_node block node_type).
Proof.
  unfold analyze_block_node. cbv zeta.
  apply tracks_if.
  { apply tracks_let. intros kpis _. apply tracks_let. intros n _.
    apply tracks_let. intros items _.
    apply (tracks_seq (fun s => Ok (set_kpi_count (kpi_count s + n) s))
             (res_fold analyze_kpi items)).
    - apply tracks_kpi_count.
    - apply tracks_fold. intros; apply tracks_analyze_kpi. }
  apply tracks_if.
  { apply tracks_let. intros headers _. apply tracks_let. intros rows _.
    apply tracks_let. intros first_is_dict _.
    apply (tracks_seq
             (fun s => Ok (set_table_count (table_count s + 1) s))
             (fun s =>
                res_bind
                  (if first_is_dict
                   then res_bind (py_getitem0 rows) (fun row0 =>
                        res_bind (py_get row0 (lit "cells") (PList []))
                          (fun cells =>
                        res_bind (py_len cells) (fun n =>
                        Ok (set_max_table_columns
                              (Z.max (max_table_columns s) n) s))))
                   else res_bind (py_len headers) (fun n =>
                        Ok (set_max_table_columns
                              (Z.max (max_table_columns s) n) s)))
                  (fun s => res_bind (py_len rows) (fun n =>
                     Ok (set_max_table_rows
                           (Z.max (max_table_rows s) n) s))))).
    - apply tracks_table_count.
    - apply (tracks_seq
               (fun s =>
                  if first_is_dict
                   then res_bind (py_getitem0 rows) (fun row0 =>
                        res_bind (py_get row0 (lit "cells") (PList []))
                          (fun cells =>
                        res_bind (py_len cells) (fun n =>
                        Ok (set_max_table_columns
                              (Z.max (max_table_columns s) n) s))))
                   else res_bind (py_len headers) (fun n =>
                        Ok (set_max_table_columns
                              (Z.max (max_table_columns s) n) s)))).
      + apply tracks_if.
        * apply tracks_let. intros row0 _. apply tracks_let. intros cells _.
          apply tracks_let. intros n _. apply tracks_max_table_columns.
        * apply tracks_let. intros n _. apply tracks_max_table_columns.
      + apply tracks_let. intros n _. apply tracks_max_table_rows. }
  apply tracks_if; [apply tracks_chart_count|].
  apply tracks_if.
  { apply tracks_let. intros callout_blocks _. apply tracks_let. intros items _.
    apply (tracks_seq
             (fun s => Ok (set_callout_count (callout_count s + 1) s))
             (res_fold analyze_callout_block items)).
    - apply tracks_callout_count.
    - apply tracks_fold. intros; apply tracks_analyze_callout_block. }
  apply tracks_if; [|apply tracks_ret].
  apply tracks_let. intros text _.
  apply (tracks_seq
           (fun s => Ok (set_total_content_length
                           (total_content_length s
                            + Z.of_nat (length text)) s))
           (fun s => if 500 <? Z.of_nat (length text)
                     then Ok (set_has_long_text true s) else Ok s)).
  - apply tracks_total_content_length.
  - apply tracks_if; [apply tracks_has_long_text|apply tracks_ret].
Qed.

Lemma tracks_undef : tracks (fun _ => Undef).
Proof. intros s Hs. reflexivity. Qed.

Lemma tracks_analyze_block_fuel fuel :
  forall block, tracks (analyze_block_fuel fuel block).
Proof.
  induction fuel as [|fuel IH]; intros block.
  - simpl. apply tracks_if; [apply tracks_ret|apply tracks_undef].
  - cbn [analyze_block_fuel].
    apply tracks_if; [apply tracks_ret|].
    apply tracks_let. intros node_type _.
    apply (tracks_seq (analyze_block_node block node_type)
             (fun s =>
                res_bind (py_get block (lit "blocks") (PList []))
                  (fun nested_blocks =>
                     if py_truthy nested_blocks
                     then res_bind (py_iter nested_blocks) (fun items =>
                            res_fold (analyze_block_fuel fuel) items s)
                     else Ok s))).
    + apply tracks_analyze_block_node.
    + apply tracks_let. intros nested _.
      apply tracks_if; [|apply tracks_ret].
      apply tracks_let. intros items _.
      apply tracks_fold. intros; apply IH.
Qed.

Lemma tracks_analyze_block block : tracks (_analyze_block block).
Proof. apply tracks_analyze_block_fuel. Qed.

Lemma tracks_analyze_chapter_fuel fuel :
  forall chapter, tracks (analyze_chapter_fuel fuel chapter).
Proof.
  induction fuel as [|fuel IH]; intros chapter.
  - apply tracks_undef.
  - cbn [analyze_chapter_fuel].
    apply tracks_let. intros blocks _. apply tracks_let. intros items _.
    apply (tracks_seq (res_fold _analyze_block items)
             (fun s =>
                res_bind (py_get chapter (lit "children") (PList []))
                  (fun children =>
                     res_bind (py_iter children) (fun items =>
                       res_fold
                         (fun child stats =>
                            if is_dict child
                            then analyze_chapter_fuel fuel child stats
                            else Ok stats) items s)))).
    + apply tracks_fold. intros; apply tracks_analyze_block.
    + apply tracks_let. intros children _. apply tracks_let. intros citems _.
      apply tracks_fold. intros child _.
      apply tracks_if; [apply IH|apply tracks_ret].
Qed.

Lemma tracks_analyze_chapter chapter : tracks (_analyze_chapter chapter).
Proof. apply tracks_analyze_chapter_fuel. Qed.

Lemma analyze_chapters_document chapters :
  _analyze_document (chapters_document chapters)
  = res_fold _analyze_chapter chapters initial_stats.
Proof.
  unfold _analyze_document, chapters_document. cbv zeta.
  cbn [py_get]. change (dict_lookup _ (lit "chapters")) with (Some (PList chapters)).
  destruct chapters as [|c l]; reflexivity.
Qed.

(** The statistics of a document are those of its parts, merged: the
    analysis of two lists of chapters one after the other gives the merge
    of what it gives on each. *)
Theorem analyze_document_concat chapters1 chapters2 stats1 stats2 :
  _analyze_document (chapters_document chapters1) = Ok stats1 ->
  _analyze_document (chapters_document chapters2) = Ok stats2 ->
  _analyze_document (chapters_document (chapters1 ++ chapters2))
  = Ok (merge_stats stats1 stats2).
Proof.
  rewrite !analyze_chapters_document, res_fold_app. intros E1 E2.
  pose proof (tracks_fold _analyze_chapter chapters1
                (fun x _ => tracks_analyze_chapter x) initial_stats
                maxima_nonneg_initial) as H1.
  rewrite E1 in H1. destruct H1 as [_ Hs1]. rewrite E1. simpl.
  pose proof (tracks_fold _analyze_chapter chapters2
                (fun x _ => tracks_analyze_chapter x) stats1 Hs1) as H2.
  rewrite E2 in H2. apply H2.
Qed.

(** Entries that are not dicts, among the blocks and among the children of
    a chapter, contribute nothing: the analysis is that of the chapter
    without them. *)
Theorem analyze_chapter_skips_non_dict blocks children stats :
  _analyze_chapter (chapter_of blocks children) stats
  = _analyze_chapter
      (chapter_of (List.filter is_dict blocks) (List.filter is_dict children))
      stats.
Proof.
  rewrite !analyze_chapter_equation. unfold chapter_of. cbn [py_get].
  change (dict_lookup _ (lit "blocks")) with (Some (PList blocks)) at 1.
  change (dict_lookup [(lit "blocks", PList blocks);
                       (lit "children", PList children)] (lit "children"))
    with (Some (PList children)).
  change (dict_lookup _ (lit "blocks"))
    with (Some (PList (List.filter is_dict blocks))).
  change (dict_lookup _ (lit "children"))
    with (Some (PList (List.filter is_dict children))).
  cbn [res_bind py_iter].
  rewrite (res_fold_filter is_dict _analyze_block blocks).
  2:{ intros x s Hx. rewrite analyze_block_equation, Hx. reflexivity. }
  destruct (res_fold _analyze_block blocks stats) as [s1| |]; simpl; auto.
  symmetry. apply res_fold_filter. intros x s ->. reflexivity.
Qed.

(** A document whose [chapters] entry is missing or empty is analyzed
    through its [sections] entry. *)
Theorem analyze_document_sections_fallback sections :
  _analyze_document (PDict [(lit "sections", PList sections)])
  = _analyze_document (PDict [(lit "chapters", PList sections)]) /\
  _analyze_document
    (PDict [(lit "chapters", PList []); (lit "sections", PList sections)])
  = _analyze_document (PDict [(lit "chapters", PList sections)]).
Proof.
  unfold _analyze_document. cbv zeta. cbn [py_get].
  change (dict_lookup [(lit "sections", PList sections)] (lit "chapters"))
    with (@None pyval).
  change (dict_lookup [(lit "sections", PList sections)] (lit "sections"))
    with (Some (PList sections)).
  change (dict_lookup [(lit "chapters", PList sections)] (lit "chapters"))
    with (Some (PList sections)).
  change (dict_lookup [(lit "chapters", PList sections)] (lit "sections"))
    with (@None pyval).
  change (dict_lookup [(lit "chapters", PList []);
                       (lit "sections", PList sections)] (lit "chapters"))
    with (Some (PList [])).
  change (dict_lookup [(lit "chapters", PList []);
                       (lit "sections", PList sections)] (lit "sections"))
    with (Some (PList sections)).
  destruct sections; split; reflexivity.
Qed.

(** ** The solver on other bounds *)

Lemma calculate_safe_font_size_scan text max_width min_font_size
    max_font_size :
  text <> [] -> min_font_size <= max_font_size ->
  (forall s, min_font_size <= s <= max_font_size -> convertible s) ->
  (exists size,
      min_font_size <= size <= max_font_size /\
      _calculate_safe_font_size text max_width min_font_size max_font_size
      = Ok (size, size <? max_font_size) /\
      _check_text_overflow text size max_width = Ok false /\
      forall s, size < s <= max_font_size ->
        _check_text_overflow text s max_width = Ok true)
  \/ (_calculate_safe_font_size text max_width min_font_size max_font_size
      = Ok (min_font_size, true) /\
      forall s, min_font_size <= s <= max_font_size ->
        _check_text_overflow text s max_width = Ok true).
Proof.
  intros Htext Hle Hconv. destruct text as [|ch rest]; [congruence|].
  unfold _calculate_safe_font_size, range_down.
  destruct (font_size_scan_range (ch :: rest) max_width max_font_size
              min_font_size
              (Z.to_nat (max_font_size - (min_font_size - 1))) max_font_size)
    as [(size & Hin & Hscan & Hfit & Habove)|[Hscan Hall]].
  { intros s Hs. apply check_text_overflow_returns, Hconv. lia. }
  - left. exists size. split; [lia|]. auto.
  - right. split; [exact Hscan|]. intros s Hs. apply Hall. lia.
Qed.

(** Solving again with the answer as the upper bound gives the same size;
    the flag is then set exactly when even that size overflows, which
    happens only if it was set before. *)
Theorem calculate_safe_font_size_again text max_width min_font_size
    max_font_size size adjusted :
  min_font_size <= max_font_size ->
  (forall s, min_font_size <= s <= max_font_size -> convertible s) ->
  _calculate_safe_font_size text max_width min_font_size max_font_size
  = Ok (size, adjusted) ->
  exists again,
    _calculate_safe_font_size text max_width min_font_size size
    = Ok (size, again) /\
    (text <> [] -> _check_text_overflow text size max_width = Ok again) /\
    (again = true -> adjusted = true).
Proof.
  intros Hle Hconv Hsolve. destruct text as [|ch rest].
  { simpl in Hsolve. injection Hsolve as <- <-. exists false.
    split; [reflexivity|]. split; [congruence|discriminate]. }
  set (text := ch :: rest) in *.
  assert (Htext : text <> []) by discriminate.
  destruct (calculate_safe_font_size_scan text max_width min_font_size
              max_font_size Htext Hle Hconv)
    as [(size' & Hin & Hscan & Hfit & _)|[Hscan Hall]];
    rewrite Hscan in Hsolve; injection Hsolve as <- <-.
  - exists false. split; [|split; [auto|discriminate]].
    destruct (calculate_safe_font_size_scan text max_width min_font_size
                size' Htext ltac:(lia) ltac:(intros; apply Hconv; lia))
      as [(s2 & Hin2 & Hscan2 & Hfit2 & Habove2)|[Hscan2 Hall2]].
    + destruct (Z.eq_dec s2 size') as [->|Hne].
      * rewrite Hscan2, Z.ltb_irrefl. reflexivity.
      * rewrite Habove2 in Hfit by lia. discriminate.
    + rewrite Hall2 in Hfit by lia. discriminate.
  - exists true. split; [|split; [intros _; apply Hall; lia|reflexivity]].
    destruct (calculate_safe_font_size_scan text max_width min_font_size
                min_font_size Htext ltac:(lia)
                ltac:(intros; apply Hconv; lia))
      as [(s2 & Hin2 & Hscan2 & Hfit2 & _)|[Hscan2 _]].
    + rewrite Hall in Hfit2 by lia. discriminate.
    + exact Hscan2.
Qed.


(** With the bounds in the wrong order the range of candidates is empty:
    for a text that is not empty the solver measures nothing and returns
    the lower bound, a size above the upper one, flagged. *)
Theorem calculate_safe_font_size_empty_range text max_width min_font_size
    max_font_size :
  text <> [] -> max_font_size < min_font_size ->
  _calculate_safe_font_size text max_width min_font_size max_font_size
  = Ok (min_font_size, true).
Proof.
  intros Htext Hlt. destruct text as [|ch rest]; [congruence|].
  unfold _calculate_safe_font_size, range_down.
  replace (Z.to_nat (max_font_size - (min_font_size - 1))) with O by lia.
  reflexivity.
Qed.

(** ** The adjustment, field by field *)

(** The adjustment on a store, when it returns. *)
Lemma adjust_config_returns w self o bcfg bv stats :
  heap w !! self = Some (OOptimizer o) ->
  config_at (heap w) (PDFLayoutOptimizer.config o) bcfg bv ->
  max_kpi_value_length stats <= 0 \/
  convertible (KPICardLayout.font_size_value (ConfigValue.kpi_card bv)) ->
  exists c cfg w',
    _adjust_config_based_on_stats self stats w = (Ok c, w') /\
    fresh_config (heap w) c cfg /\
    config_at (heap w') c cfg
      (fst (adjust_rules stats (bv, PDFLayoutOptimizer.optimization_log o)))
    /\ heap w' !! self
       = Some (OOptimizer {|
           PDFLayoutOptimizer.config := PDFLayoutOptimizer.config o;
           PDFLayoutOptimizer.optimization_log :=
             snd (adjust_rules stats
                    (bv, PDFLayoutOptimizer.optimization_log o)) |}).
Proof.
  intros Hs Hbase Hconv.
  destruct (adjust_config_refines w self o bcfg bv stats Hs Hbase)
    as (r & w' & E & _ & _ & _ & Hout).
  rewrite (adjust_value_returns _ _ _ Hconv) in Hout.
  destruct Hout as (c & cfg & -> & Hfresh & Hcfg & Hs').
  exists c, cfg, w'. auto.
Qed.



Lemma kpi_font_size_rule_untouched stats a :
  untouched_fields (fst (kpi_font_size_rule stats a)) = untouched_fields (fst a).
Proof.
  unfold kpi_font_size_rule. cbv zeta.
  destruct (_calculate_safe_font_size _ _ _ _) as [[size adjusted]| |];
    case_conditions; reflexivity.
Qed.

Lemma grid_layout_rule_untouched stats a :
  untouched_fields (fst (grid_layout_rule stats a)) = untouched_fields (fst a).
Proof. unfold grid_layout_rule. case_conditions; reflexivity. Qed.

Lemma table_layout_rule_untouched stats a :
  untouched_fields (fst (table_layout_rule stats a)) = untouched_fields (fst a).
Proof. unfold table_layout_rule. case_conditions; reflexivity. Qed.

Lemma long_text_rule_untouched stats a :
  untouched_fields (fst (long_text_rule stats a)) = untouched_fields (fst a).
Proof. unfold long_text_rule. case_conditions; reflexivity. Qed.

Lemma total_blocks_rule_untouched stats a :
  untouched_fields (fst (total_blocks_rule stats a)) = untouched_fields (fst a).
Proof. unfold total_blocks_rule. cbv zeta. case_conditions; reflexivity. Qed.

Lemma adjust_rules_untouched stats a :
  untouched_fields (fst (adjust_rules stats a)) = untouched_fields (fst a).
Proof.
  unfold adjust_rules.
  rewrite total_blocks_rule_untouched, long_text_rule_untouched,
    table_layout_rule_untouched, grid_layout_rule_untouched,
    kpi_font_size_rule_untouched.
  reflexivity.
Qed.

(** The adjustment assigns to thirteen fields at most: the chart layout,
    the four flags and sixteen more fields of the result are the
    baseline's. *)
Theorem adjust_config_untouched_fields w self o bcfg bv stats :
  heap w !! self = Some (OOptimizer o) ->
  config_at (heap w) (PDFLayoutOptimizer.config o) bcfg bv ->
  max_kpi_value_length stats <= 0 \/
  convertible (KPICardLayout.font_size_value (ConfigValue.kpi_card bv)) ->
  exists c cfg v' w',
    _adjust_config_based_on_stats self stats w = (Ok c, w') /\
    config_at (heap w') c cfg v' /\
    untouched_fields v' = untouched_fields bv.
Proof.
  intros Hs Hbase Hconv.
  destruct (adjust_config_returns w self o bcfg bv stats Hs Hbase Hconv)
    as (c & cfg & w' & E & _ & Hcfg & _).
  eexists c, cfg, _, w'. split; [exact E|]. split; [exact Hcfg|].
  apply (adjust_rules_untouched stats
           (bv, PDFLayoutOptimizer.optimization_log o)).
Qed.

(** ** The font size of the KPI value *)


(** ** The table and the page rules *)

Lemma adjust_rules_table stats a :
  let t := ConfigValue.table (fst a) in
  let t' := ConfigValue.table (fst (adjust_rules stats a)) in
  (TableLayout.font_size_header t', TableLayout.font_size_body t',
   TableLayout.cell_padding t')
  = if 8 <? max_table_columns stats then (10, 9, 6)
    else if 6 <? max_table_columns stats then (11, 10, 8)
    else if 4 <? max_table_columns stats then (12, 11, 10)
    else (TableLayout.font_size_header t, TableLayout.font_size_body t,
          TableLayout.cell_padding t).
Proof.
  cbv zeta. unfold adjust_rules.
  assert (Hk : forall b, ConfigValue.table (fst (kpi_font_size_rule stats b))
                         = ConfigValue.table (fst b)).
  { intros b. unfold kpi_font_size_rule. cbv zeta.
    destruct (_calculate_safe_font_size _ _ _ _) as [[size adjusted]| |];
      case_conditions; reflexivity. }
  assert (Hg : forall b, ConfigValue.table (fst (grid_layout_rule stats b))
                         = ConfigValue.table (fst b)).
  { intros b. unfold grid_layout_rule. case_conditions; reflexivity. }
  assert (Hl : forall b, ConfigValue.table (fst (long_text_rule stats b))
                         = ConfigValue.table (fst b)).
  { intros b. unfold long_text_rule. case_conditions; reflexivity. }
  assert (Hb : forall b, ConfigValue.table (fst (total_blocks_rule stats b))
                         = ConfigValue.table (fst b)).
  { intros b. unfold total_blocks_rule. cbv zeta.
    case_conditions; reflexivity. }
  rewrite Hb, Hl, <- (Hk a), <- (Hg (kpi_font_size_rule stats a)).
  unfold table_layout_rule. case_conditions; reflexivity.
Qed.

(** The table rule: more than 8 columns give header 10, body 9 and cell
    padding 6; 7 or 8 columns give 11, 10 and 8; 5 or 6 columns give 12, 11
    and 10; up to 4 columns leave the three fields as the baseline has
    them. *)
Theorem adjust_config_table_rule w self o bcfg bv stats :
  heap w !! self = Some (OOptimizer o) ->
  config_at (heap w) (PDFLayoutOptimizer.config o) bcfg bv ->
  max_kpi_value_length stats <= 0 \/
  convertible (KPICardLayout.font_size_value (ConfigValue.kpi_card bv)) ->
  exists c cfg v' w',
    _adjust_config_based_on_stats self stats w = (Ok c, w') /\
    config_at (heap w') c cfg v' /\
    (TableLayout.font_size_header (ConfigValue.table v'),
     TableLayout.font_size_body (ConfigValue.table v'),
     TableLayout.cell_padding (ConfigValue.table v'))
    = if 8 <? max_table_columns stats then (10, 9, 6)
      else if 6 <? max_table_columns stats then (11, 10, 8)
      else if 4 <? max_table_columns stats then (12, 11, 10)
      else (TableLayout.font_size_header (ConfigValue.table bv),
            TableLayout.font_size_body (ConfigValue.table bv),
            TableLayout.cell_padding (ConfigValue.table bv)).
Proof.
  intros Hs Hbase Hconv.
  destruct (adjust_config_returns w self o bcfg bv stats Hs Hbase Hconv)
    as (c & cfg & w' & E & _ & Hcfg & _).
  eexists c, cfg, _, w'. split; [exact E|]. split; [exact Hcfg|].
  apply (adjust_rules_table stats
           (bv, PDFLayoutOptimizer.optimization_log o)).
Qed.

Lemma adjust_rules_page stats a :
  let v := fst a in
  let v' := fst (adjust_rules stats a) in
  let total_blocks := kpi_count stats + table_count stats
                      + chart_count stats + callout_count stats in
  (PageLayout.line_height (ConfigValue.page v'),
   CalloutLayout.line_height (ConfigValue.callout v'),
   PageLayout.paragraph_spacing (ConfigValue.page v'))
  = (if has_long_text stats then (1.8%float, 1.8%float, 18)
     else (PageLayout.line_height (ConfigValue.page v),
           CalloutLayout.line_height (ConfigValue.callout v),
           PageLayout.paragraph_spacing (ConfigValue.page v))) /\
  (PageLayout.font_size_base (ConfigValue.page v'),
   PageLayout.font_size_h2 (ConfigValue.page v'),
   PageLayout.font_size_h3 (ConfigValue.page v'))
  = (if 20 <? total_blocks then (13, 22, 18)
     else (PageLayout.font_size_base (ConfigValue.page v),
           PageLayout.font_size_h2 (ConfigValue.page v),
           PageLayout.font_size_h3 (ConfigValue.page v))).
Proof.
  cbv zeta. unfold adjust_rules.
  assert (H : forall b,
            ConfigValue.page (fst (table_layout_rule stats
              (grid_layout_rule stats (kpi_font_size_rule stats b))))
            = ConfigValue.page (fst b) /\
            ConfigValue.callout (fst (table_layout_rule stats
              (grid_layout_rule stats (kpi_font_size_rule stats b))))
            = ConfigValue.callout (fst b)).
  { intros b. unfold table_layout_rule, grid_layout_rule, kpi_font_size_rule.
    cbv zeta.
    destruct (_calculate_safe_font_size _ _ _ _) as [[size adjusted]| |];
      case_conditions; split; reflexivity. }
  destruct (H a) as [Hp Hc]. revert Hp Hc.
  generalize (table_layout_rule stats
                (grid_layout_rule stats (kpi_font_size_rule stats a))).
  intros b Hp Hc. rewrite <- Hp, <- Hc.
  unfold total_blocks_rule, long_text_rule. cbv zeta.
  case_conditions; split; reflexivity.
Qed.

(** The two page rules: long text sets both line heights to 1.8 and the
    paragraph spacing to 18; more than 20 KPI items, tables, charts and
    callouts together set the base, h2 and h3 font sizes to 13, 22 and 18;
    otherwise the fields are the baseline's. *)
Theorem adjust_config_page_rules w self o bcfg bv stats :
  heap w !! self = Some (OOptimizer o) ->
  config_at (heap w) (PDFLayoutOptimizer.config o) bcfg bv ->
  max_kpi_value_length stats <= 0 \/
  convertible (KPICardLayout.font_size_value (ConfigValue.kpi_card bv)) ->
  exists c cfg v' w',
    _adjust_config_based_on_stats self stats w = (Ok c, w') /\
    config_at (heap w') c cfg v' /\
    (PageLayout.line_height (ConfigValue.page v'),
     CalloutLayout.line_height (ConfigValue.callout v'),
     PageLayout.paragraph_spacing (ConfigValue.page v'))
    = (if has_long_text stats then (1.8%float, 1.8%float, 18)
       else (PageLayout.line_height (ConfigValue.page bv),
             CalloutLayout.line_height (ConfigValue.callout bv),
             PageLayout.paragraph_spacing (ConfigValue.page bv))) /\
    (PageLayout.font_size_base (ConfigValue.page v'),
     PageLayout.font_size_h2 (ConfigValue.page v'),
     PageLayout.font_size_h3 (ConfigValue.page v'))
    = (if 20 <? kpi_count stats + table_count stats
                + chart_count stats + callout_count stats
       then (13, 22, 18)
       else (PageLayout.font_size_base (ConfigValue.page bv),
             PageLayout.font_size_h2 (ConfigValue.page bv),
             PageLayout.font_size_h3 (ConfigValue.page bv))).
Proof.
  intros Hs Hbase Hconv.
  destruct (adjust_config_returns w self o bcfg bv stats Hs Hbase Hconv)
    as (c & cfg & w' & E & _ & Hcfg & _).
  eexists c, cfg, _, w'. split; [exact E|]. split; [exact Hcfg|].
  apply (adjust_rules_page stats
           (bv, PDFLayoutOptimizer.optimization_log o)).
Qed.

(** ** Messages and changes *)

Lemma extends_same a : extends 0 a a.
Proof. exists []. rewrite app_nil_r. auto. Qed.

Lemma extends_message n a b message :
  snd b = snd a ++ [message] -> extends (S n) a b.
Proof.
  intros H. exists [message]. split; [exact H|]. split; [simpl; lia|].
  discriminate.
Qed.

Lemma extends_weaken n m a b : (n <= m)%nat -> extends n a b -> extends m a b.
Proof. intros Hle (ms & H1 & H2 & H3). exists ms. repeat split; auto; lia. Qed.

Lemma extends_trans n m a b c :
  extends n a b -> extends m b c -> extends (n + m) a c.
Proof.
  intros (ms1 & H1 & L1 & I1) (ms2 & H2 & L2 & I2).
  exists (ms1 ++ ms2). split; [rewrite H2, H1, app_assoc; reflexivity|].
  split; [rewrite length_app; lia|].
  intros H. apply app_eq_nil in H as [-> ->].
  rewrite I2, I1; reflexivity.
Qed.

Ltac one_message :=
  first [ apply (extends_weaken 0 1); [lia|apply extends_same]
        | eapply extends_message; reflexivity ].

Lemma kpi_font_size_rule_extends stats a :
  extends 1 a (kpi_font_size_rule stats a).
Proof.
  unfold kpi_font_size_rule. cbv zeta.
  destruct (_calculate_safe_font_size _ _ _ _) as [[size adjusted]| |];
    case_conditions; one_message.
Qed.

Lemma grid_layout_rule_extends stats a : extends 1 a (grid_layout_rule stats a).
Proof. unfold grid_layout_rule. case_conditions; one_message. Qed.

Lemma table_layout_rule_extends stats a :
  extends 1 a (table_layout_rule stats a).
Proof. unfold table_layout_rule. case_conditions; one_message. Qed.

Lemma long_text_rule_extends stats a : extends 1 a (long_text_rule stats a).
Proof. unfold long_text_rule. case_conditions; one_message. Qed.

Lemma total_blocks_rule_extends stats a :
  extends 1 a (total_blocks_rule stats a).
Proof. unfold total_blocks_rule. cbv zeta. case_conditions; one_message. Qed.

Lemma adjust_rules_extends stats a : extends 5 a (adjust_rules stats a).
Proof.
  unfold adjust_rules.
  eapply (extends_trans 4 1); [|apply total_blocks_rule_extends].
  eapply (extends_trans 3 1); [|apply long_text_rule_extends].
  eapply (extends_trans 2 1); [|apply table_layout_rule_extends].
  eapply (extends_trans 1 1); [|apply grid_layout_rule_extends].
  apply kpi_font_size_rule_extends.
Qed.

(** The adjustment appends at most five messages to the log of the
    optimizer, one for each rule that applies, and keeps what the log held;
    when it appends none, the result has the content of the baseline. *)
Theorem adjust_config_messages w self o bcfg bv stats :
  heap w !! self = Some (OOptimizer o) ->
  config_at (heap w) (PDFLayoutOptimizer.config o) bcfg bv ->
  max_kpi_value_length stats <= 0 \/
  convertible (KPICardLayout.font_size_value (ConfigValue.kpi_card bv)) ->
  exists c cfg v' w' messages,
    _adjust_config_based_on_stats self stats w = (Ok c, w') /\
    config_at (heap w') c cfg v' /\
    heap w' !! self
    = Some (OOptimizer {|
          PDFLayoutOptimizer.config := PDFLayoutOptimizer.config o;
          PDFLayoutOptimizer.optimization_log :=
            PDFLayoutOptimizer.optimization_log o ++ messages |}) /\
    (length messages <= 5)%nat /\
    (messages = [] -> v' = bv).
Proof.
  intros Hs Hbase Hconv.
  destruct (adjust_config_returns w self o bcfg bv stats Hs Hbase Hconv)
    as (c & cfg & w' & E & _ & Hcfg & Hs').
  destruct (adjust_rules_extends stats
              (bv, PDFLayoutOptimizer.optimization_log o))
    as (messages & Hlog & Hlen & Hnone).
  simpl in Hlog. rewrite Hlog in Hs'.
  eexists c, cfg, _, w', messages.
  split; [exact E|]. split; [exact Hcfg|]. split; [exact Hs'|].
  split; [exact Hlen|]. intros Hm. rewrite (Hnone Hm). reflexivity.
Qed.

(** ** Documents that need no adjustment *)




(** ** The optimizer after a pass *)

Lemma generate_pdf_css_at w self o cfg v :
  heap w !! self = Some (OOptimizer o) ->
  config_at (heap w) (PDFLayoutOptimizer.config o) cfg v ->
  generate_pdf_css self w = (Ok (css_text v), w).
Proof.
  intros Hs Hc. unfold generate_pdf_css.
  assert (E0 : load_optimizer self w = (Ok o, w)).
  { unfold load_optimizer, bind, load, ret. rewrite Hs. reflexivity. }
  rewrite (bind_ok _ _ _ _ _ E0).
  rewrite (bind_ok _ _ _ _ _ (read_config_at _ _ _ _ Hc)). reflexivity.
Qed.

(** Whatever a pass does, the optimizer refers to the baseline afterwards
    and the baseline holds what it held. *)
Lemma optimize_for_document_entry_baseline w self o bcfg bv document_ir now
    r w' :
  heap w !! self = Some (OOptimizer o) ->
  config_at (heap w) (PDFLayoutOptimizer.config o) bcfg bv ->
  optimize_for_document_entry self document_ir now w = (r, w') ->
  (exists o', heap w' !! self = Some (OOptimizer o') /\
              PDFLayoutOptimizer.config o' = PDFLayoutOptimizer.config o) /\
  config_at (heap w') (PDFLayoutOptimizer.config o) bcfg bv.
Proof.
  intros Hs Hbase E.
  destruct (_analyze_document document_ir) as [stats|e|] eqn:Hst.
  - destruct (optimize_for_document_entry_spec w self o bcfg bv document_ir
                stats now Hs Hbase Hst)
      as (r0 & w0 & E0 & Hfr & _ & _ & Hout).
    rewrite E in E0. injection E0 as <- <-.
    split.
    + pose proof (adjust_value_outcome bv
                    (PDFLayoutOptimizer.optimization_log o) stats) as Hv.
      destruct (adjust_value bv (PDFLayoutOptimizer.optimization_log o) stats)
        as [a|e|].
      * destruct Hout as (c & cfg & _ & _ & _ & Hs'). eauto.
      * destruct Hout as [_ Hs']. eauto.
      * contradiction.
    + apply (config_at_frame (heap w)); [exact Hbase|].
      intros l Hl. apply Hfr.
      * eapply config_at_in_dom; eauto.
      * intros ->. eapply config_at_not_optimizer; eauto.
  - unfold optimize_for_document_entry in E. rewrite Hst in E.
    unfold lift, bind in E. injection E as <- <-. eauto.
  - unfold optimize_for_document_entry in E. rewrite Hst in E.
    unfold lift, bind in E. injection E as <- <-. eauto.
Qed.

Lemma optimize_for_document_outcome self document_ir now w r w' :
  optimize_for_document self document_ir now w = (r, w') ->
  exists r0, optimize_for_document_entry self document_ir now w = (r0, w').
Proof.
  unfold optimize_for_document, bind, ret.
  destruct (optimize_for_document_entry self document_ir now w)
    as [[p|e|] w0]; intros [= <- <-]; eauto.
Qed.

(** The configuration a pass returns is not installed in the optimizer:
    [generate_pdf_css] gives after the pass what it gives before it, the
    stylesheet of the baseline, however the pass ends. *)
Theorem optimize_for_document_keeps_stylesheet w self o bcfg bv document_ir
    now r w' :
  heap w !! self = Some (OOptimizer o) ->
  config_at (heap w) (PDFLayoutOptimizer.config o) bcfg bv ->
  optimize_for_document self document_ir now w = (r, w') ->
  generate_pdf_css self w' = (fst (generate_pdf_css self w), w').
Proof.
  intros Hs Hbase E.
  rewrite (generate_pdf_css_at w self o bcfg bv Hs Hbase). simpl.
  destruct (optimize_for_document_outcome _ _ _ _ _ _ E) as [r0 E0].
  destruct (optimize_for_document_entry_baseline w self o bcfg bv
              document_ir now r0 w' Hs Hbase E0)
    as [(o' & Hs' & Hcfg) Hbase'].
  apply (generate_pdf_css_at w' self o' bcfg bv Hs').
  rewrite Hcfg. exact Hbase'.
Qed.




(** A pass over a document without KPI items returns for every baseline,
    whatever its fonts are: no text is measured.  The result has the KPI
    value font size of the baseline, one grid column and a card padding of
    24. *)
Theorem optimize_for_document_without_kpi w self o bcfg bv document_ir stats
    now :
  heap w !! self = Some (OOptimizer o) ->
  config_at (heap w) (PDFLayoutOptimizer.config o) bcfg bv ->
  _analyze_document document_ir = Ok stats ->
  kpi_count stats = 0 ->
  exists c cfg v' w',
    optimize_for_document self document_ir now w = (Ok c, w') /\
    config_at (heap w') c cfg v' /\
    KPICardLayout.font_size_value (ConfigValue.kpi_card v')
    = KPICardLayout.font_size_value (ConfigValue.kpi_card bv) /\
    GridLayout.columns (ConfigValue.grid v') = 1 /\
    KPICardLayout.padding (ConfigValue.kpi_card v') = 24.
Proof.
  intros Hs Hbase Hst Hk.
  assert (Hlen : max_kpi_value_length stats = 0).
  { destruct (analyze_document_fold document_ir stats Hst)
      as [chapters Hfold].
    assert (Hc : stats_consistent stats).
    { refine (res_fold_preserves stats_consistent _analyze_chapter chapters
                _ _ _ stats_consistent_initial Hfold).
      intros chapter s s' _. apply consistent_analyze_chapter. }
    unfold stats_consistent in Hc. tauto. }
  destruct (optimize_for_document_entry_spec w self o bcfg bv document_ir
              stats now Hs Hbase Hst)
    as (r & w' & E & _ & _ & _ & Hout).
  assert (Hconv : max_kpi_value_length stats <= 0 \/
                 convertible (KPICardLayout.font_size_value
                                (ConfigValue.kpi_card bv)))
    by (left; lia).
  rewrite (adjust_value_returns _ _ _ Hconv) in Hout.
  destruct Hout as (c & cfg & -> & _ & Hcfg & _).
  eexists c, cfg, _, w'.
  split; [unfold optimize_for_document; rewrite (bind_ok _ _ _ _ _ E);
          reflexivity|].
  split; [exact Hcfg|].
  split.
  { rewrite adjust_rules_font_size_value, Hlen. reflexivity. }
  apply (adjust_rules_grid stats (bv, PDFLayoutOptimizer.optimization_log o)).
  lia.
Qed.

(** ** The configuration an optimizer is built on *)




(** ** The configuration store, edge by edge *)

(** *** Saving *)


(** *** Loading *)

Lemma init_spec c w :
  exists self,
    __init__ (Some c) w
    = (Ok self,
       set_heap (<[self := OOptimizer {|
                     PDFLayoutOptimizer.config := c;
                     PDFLayoutOptimizer.optimization_log := [] |}]>
                   (heap w)) w)
    /\ self ∉ dom (heap w).
Proof.
  unfold __init__. unfold bind, ret.
  destruct (alloc_spec
              (OOptimizer {| PDFLayoutOptimizer.config := c;
                             PDFLayoutOptimizer.optimization_log := [] |}) w)
    as (self & E & Hnew).
  exists self. split; [exact E|exact Hnew].
Qed.

(** A new optimizer for a configuration of content [v]: eight new objects,
    an empty log, nothing else changed. *)
Lemma new_optimizer_spec v w :
  exists self c cfg w',
    (config <- new_config v ;; __init__ (Some config))%M w = (Ok self, w') /\
    heap w' !! self
    = Some (OOptimizer {| PDFLayoutOptimizer.config := c;
                          PDFLayoutOptimizer.optimization_log := [] |}) /\
    config_at (heap w') c cfg v /\
    (self ∉ dom (heap w)) /\ fresh_config (heap w) c cfg /\
    (forall l, l ∈ dom (heap w) -> heap w' !! l = heap w !! l) /\
    files w' = files w /\ writable w' = writable w.
Proof.
  destruct (new_config_spec v w)
    as (c & cfg & w1 & E1 & Hfresh & Hcfg & Hfr & Hfi & Hwr).
  destruct (init_spec c w1) as (self & E2 & Hnew).
  exists self, c, cfg. eexists. rewrite (bind_ok _ _ _ _ _ E1).
  split; [exact E2|]. simpl.
  split; [apply lookup_insert_eq|].
  split.
  { apply (config_at_frame (heap w1)); [exact Hcfg|].
    intros l Hl. apply lookup_insert_ne. intros <-.
    apply Hnew. exact (config_at_in_dom _ _ _ _ _ Hcfg Hl). }
  split.
  { intros Hin. apply Hnew. apply elem_of_dom.
    rewrite Hfr by exact Hin. apply elem_of_dom. exact Hin. }
  split; [exact Hfresh|].
  split; [|split; assumption].
  intros l Hl. rewrite lookup_insert_ne; [apply Hfr, Hl|].
  intros <-. apply Hnew. apply elem_of_dom.
  rewrite Hfr by exact Hl. apply elem_of_dom. exact Hl.
Qed.

Lemma load_config_file_json w path data :
  files w !! path = Some (JsonDoc data) ->
  load_config_file path w
  = match (d <- py_getitem data (lit "config") ;;
           config_value_of_dict d)%res with
    | Ok v => (config <- new_config v ;; __init__ (Some config))%M w
    | Raise e => (Raise e, w)
    | Undef => (Undef, w)
    end.
Proof.
  intros Hf. unfold load_config_file. rewrite Hf.
  unfold from_dict, lift, bind.
  destruct (py_getitem data (lit "config")) as [d| |]; simpl; auto.
  destruct (config_value_of_dict d) as [v| |]; reflexivity.
Qed.

(** Loading from a path at which there is no file gives an optimizer on a
    new default configuration, with an empty log; no file and no existing
    object is touched. *)
Theorem load_config_missing_file w path :
  files w !! path = None ->
  exists self c cfg w',
    load_config_file path w = (Ok self, w') /\
    heap w' !! self
    = Some (OOptimizer {| PDFLayoutOptimizer.config := c;
                          PDFLayoutOptimizer.optimization_log := [] |}) /\
    config_at (heap w') c cfg ConfigValue.default /\
    (self ∉ dom (heap w)) /\ fresh_config (heap w) c cfg /\
    (forall l, l ∈ dom (heap w) -> heap w' !! l = heap w !! l) /\
    files w' = files w.
Proof.
  intros Hf. unfold load_config_file. rewrite Hf.
  destruct (new_optimizer_spec ConfigValue.default w)
    as (self & c & cfg & w' & E & Hs & Hcfg & Hnew & Hfresh & Hfr & Hfi & _).
  exists self, c, cfg, w'.
  split; [exact E|]. split; [exact Hs|]. split; [exact Hcfg|].
  split; [exact Hnew|]. split; [exact Hfresh|]. split; assumption.
Qed.

(** A file whose document has no [config] entry, or is not an object at
    all, makes [load_config] raise, [KeyError] and [TypeError]; nothing is
    created. *)
Theorem load_config_without_config_entry w path data :
  files w !! path = Some (JsonDoc data) ->
  match data with
  | PDict d => dict_lookup d (lit "config") = None
  | _ => True
  end ->
  load_config_file path w
  = (Raise (if is_dict data then KeyError else TypeError), w).
Proof.
  intros Hf Hd. rewrite (load_config_file_json w path data Hf).
  destruct data; try reflexivity. simpl. rewrite Hd. reflexivity.
Qed.

(** An entry of the [page] section that names no field of [PageLayout]
    makes [load_config] raise [TypeError]. *)
Theorem load_config_unknown_field w path data config page :
  files w !! path = Some (JsonDoc data) ->
  py_getitem data (lit "config") = Ok config ->
  py_getitem config (lit "page") = Ok (PDict page) ->
  forallb (fun kv => existsb (pystr_eqb (fst kv)) PageLayout.fields) page
  = false ->
  load_config_file path w = (Raise TypeError, w).
Proof.
  intros Hf Hc Hp Hk. rewrite (load_config_file_json w path data Hf).
  rewrite Hc. simpl. unfold config_value_of_dict. rewrite Hp. simpl.
  unfold PageLayout.of_kwargs, kwargs_of. rewrite Hk. reflexivity.
Qed.

(** *** Files without flags *)

Lemma config_value_of_sections v :
  config_value_of_dict (sections_dict v) = Ok (with_flags true true true true v).
Proof.
  unfold config_value_of_dict, sections_dict. cbn [py_getitem py_get].
  change (dict_lookup _ (lit "page"))
    with (Some (PageLayout.asdict (ConfigValue.page v))).
  change (dict_lookup _ (lit "kpi_card"))
    with (Some (KPICardLayout.asdict (ConfigValue.kpi_card v))).
  change (dict_lookup _ (lit "callout"))
    with (Some (CalloutLayout.asdict (ConfigValue.callout v))).
  change (dict_lookup _ (lit "table"))
    with (Some (TableLayout.asdict (ConfigValue.table v))).
  change (dict_lookup _ (lit "chart"))
    with (Some (ChartLayout.asdict (ConfigValue.chart v))).
  change (dict_lookup _ (lit "grid"))
    with (Some (GridLayout.asdict (ConfigValue.grid v))).
  change (dict_lookup _ (lit "auto_adjust_font_size")) with (@None pyval).
  change (dict_lookup _ (lit "auto_adjust_grid_columns")) with (@None pyval).
  change (dict_lookup _ (lit "prevent_orphan_headers")) with (@None pyval).
  change (dict_lookup _ (lit "optimize_for_print")) with (@None pyval).
  cbn [res_bind as_bool].
  rewrite page_of_kwargs_asdict, kpi_card_of_kwargs_asdict,
    callout_of_kwargs_asdict, table_of_kwargs_asdict,
    chart_of_kwargs_asdict, grid_of_kwargs_asdict.
  reflexivity.
Qed.

(** A file that holds the six sections and no flag loads with the four
    flags set, whatever they were when the sections were written. *)
Theorem load_config_without_flags w path data v :
  files w !! path = Some (JsonDoc data) ->
  py_getitem data (lit "config") = Ok (sections_dict v) ->
  exists self c cfg w',
    load_config_file path w = (Ok self, w') /\
    heap w' !! self
    = Some (OOptimizer {| PDFLayoutOptimizer.config := c;
                          PDFLayoutOptimizer.optimization_log := [] |}) /\
    config_at (heap w') c cfg (with_flags true true true true v).
Proof.
  intros Hf Hd. rewrite (load_config_file_json w path data Hf).
  rewrite Hd. cbn [res_bind]. rewrite config_value_of_sections.
  destruct (new_optimizer_spec (with_flags true true true true v) w)
    as (self & c & cfg & w' & E & Hs & Hcfg & _).
  exists self, c, cfg, w'. auto.
Qed.

(** *** Saving with a log entry, and loading *)



(** ** What the stylesheet reads *)

Lemma css_template_declarations :
  forallb (fun seg => match seg with
                      | Hole f => negb (declarations_of f =? 0)%nat
                      | Text _ => true
                      end) css_template = true.
Proof. vm_compute. reflexivity. Qed.

(** The stylesheet is a function of the twenty-nine fields that are the
    value of a declaration: two configurations that agree on them have the
    same stylesheet, whatever their flags, their two string fields,
    [KPICard.value_max_length], [Chart.font_size_label] and
    [Grid.responsive_breakpoint] are. *)
Theorem css_text_reads_only v v' :
  (forall f, declarations_of f <> 0%nat -> field_text v f = field_text v' f) ->
  css_text v = css_text v'.
Proof.
  intros H. unfold css_text. f_equal. apply map_ext_in.
  intros seg Hin. destruct seg as [s|f]; [reflexivity|]. simpl.
  apply H. pose proof css_template_declarations as Hall.
  rewrite forallb_forall in Hall. specialize (Hall (Hole f) Hin).
  simpl in Hall. intros Hz. rewrite Hz in Hall. discriminate Hall.
Qed.

End FurtherProperties.

(* ================================================================== *)
(** * Evaluation of the further properties *)

(** ** Documents *)


Lemma analyze_document_consistent_witness :
  _analyze_document (rt := ascii_runtime) scenario_a_ir = Ok scenario_a_stats /\
  stats_consistent scenario_a_stats.
Proof.
  split; [exact scenario_a_analysis|].
  exact (analyze_document_consistent (rt := ascii_runtime) scenario_a_ir
           scenario_a_stats scenario_a_analysis).
Defined.

Lemma kpi_chapter_analysis :
  _analyze_document (rt := ascii_runtime)
    (chapters_document [kpi_chapter "123456789012"])
  = Ok scenario_a_stats.
Proof. vm_compute. reflexivity. Qed.

Lemma table_chapter_analysis :
  _analyze_document (rt := ascii_runtime) (chapters_document [table_chapter])
  = Ok table_chapter_stats.
Proof. vm_compute. reflexivity. Qed.

Lemma analyze_document_concat_witness :
  _analyze_document (rt := ascii_runtime)
    (chapters_document [kpi_chapter "123456789012"])
  = Ok scenario_a_stats /\
  _analyze_document (rt := ascii_runtime) (chapters_document [table_chapter])
  = Ok table_chapter_stats /\
  _analyze_document (rt := ascii_runtime)
    (chapters_document ([kpi_chapter "123456789012"] ++ [table_chapter]))
  = Ok (merge_stats scenario_a_stats table_chapter_stats).
Proof.
  split; [exact kpi_chapter_analysis|].
  split; [exact table_chapter_analysis|].
  exact (analyze_document_concat (rt := ascii_runtime)
           [kpi_chapter "123456789012"] [table_chapter]
           scenario_a_stats table_chapter_stats
           kpi_chapter_analysis table_chapter_analysis).
Defined.

(** ** The solver *)


Lemma thirty_digits_solved :
  _calculate_safe_font_size (rt := ascii_runtime)
    (lit "123456789012345678901234567890") 350 18 32 = Ok (19, true).
Proof. vm_compute. reflexivity. Qed.


Lemma calculate_safe_font_size_again_witness :
  18 <= 32 /\
  _calculate_safe_font_size (rt := ascii_runtime)
    (lit "123456789012345678901234567890") 350 18 32 = Ok (19, true) /\
  exists again,
    _calculate_safe_font_size (rt := ascii_runtime)
      (lit "123456789012345678901234567890") 350 18 19 = Ok (19, again) /\
    (lit "123456789012345678901234567890" <> [] ->
     _check_text_overflow (rt := ascii_runtime)
       (lit "123456789012345678901234567890") 19 350 = Ok again) /\
    (again = true -> true = true).
Proof.
  split; [lia|]. split; [exact thirty_digits_solved|].
  exact (calculate_safe_font_size_again (rt := ascii_runtime)
           (lit "123456789012345678901234567890") 350 18 32 19 true
           ltac:(lia) convertible_18_32 thirty_digits_solved).
Defined.


Lemma calculate_safe_font_size_empty_range_witness :
  lit "abc" <> [] /\ 10 < 20 /\
  _calculate_safe_font_size (rt := ascii_runtime) (lit "abc") 100 20 10
  = Ok (20, true).
Proof.
  assert (Htext : lit "abc" <> []) by discriminate.
  split; [exact Htext|]. split; [lia|].
  exact (calculate_safe_font_size_empty_range (rt := ascii_runtime)
           (lit "abc") 100 20 10 Htext ltac:(lia)).
Defined.

(** ** The adjustment *)

Lemma adjust_config_untouched_fields_witness :
  heap default_world !! default_optimizer
  = Some (OOptimizer default_optimizer_object) /\
  config_at (heap default_world)
    (PDFLayoutOptimizer.config default_optimizer_object)
    default_config_object ConfigValue.default /\
  (max_kpi_value_length busy_stats <= 0 \/
   convertible
     (KPICardLayout.font_size_value
        (ConfigValue.kpi_card ConfigValue.default))) /\
  exists c cfg v' w',
    _adjust_config_based_on_stats (rt := ascii_runtime) default_optimizer
      busy_stats default_world = (Ok c, w') /\
    config_at (heap w') c cfg v' /\
    untouched_fields v' = untouched_fields ConfigValue.default.
Proof.
  split; [exact default_world_optimizer|].
  split; [exact default_world_config|].
  split; [right; exact convertible_32|].
  exact (adjust_config_untouched_fields (rt := ascii_runtime) default_world
           default_optimizer default_optimizer_object default_config_object
           ConfigValue.default busy_stats default_world_optimizer
           default_world_config (or_intror convertible_32)).
Defined.


Lemma adjust_config_table_rule_witness :
  heap default_world !! default_optimizer
  = Some (OOptimizer default_optimizer_object) /\
  config_at (heap default_world)
    (PDFLayoutOptimizer.config default_optimizer_object)
    default_config_object ConfigValue.default /\
  (max_kpi_value_length wide_table_stats <= 0 \/
   convertible
     (KPICardLayout.font_size_value
        (ConfigValue.kpi_card ConfigValue.default))) /\
  exists c cfg v' w',
    _adjust_config_based_on_stats (rt := ascii_runtime) default_optimizer
      wide_table_stats default_world = (Ok c, w') /\
    config_at (heap w') c cfg v' /\
    (TableLayout.font_size_header (ConfigValue.table v'),
     TableLayout.font_size_body (ConfigValue.table v'),
     TableLayout.cell_padding (ConfigValue.table v')) = (10, 9, 6).
Proof.
  split; [exact default_world_optimizer|].
  split; [exact default_world_config|].
  split; [right; exact convertible_32|].
  exact (adjust_config_table_rule (rt := ascii_runtime) default_world
           default_optimizer default_optimizer_object default_config_object
           ConfigValue.default wide_table_stats default_world_optimizer
           default_world_config (or_intror convertible_32)).
Defined.

Lemma adjust_config_page_rules_witness :
  heap default_world !! default_optimizer
  = Some (OOptimizer default_optimizer_object) /\
  config_at (heap default_world)
    (PDFLayoutOptimizer.config default_optimizer_object)
    default_config_object ConfigValue.default /\
  (max_kpi_value_length busy_stats <= 0 \/
   convertible
     (KPICardLayout.font_size_value
        (ConfigValue.kpi_card ConfigValue.default))) /\
  exists c cfg v' w',
    _adjust_config_based_on_stats (rt := ascii_runtime) default_optimizer
      busy_stats default_world = (Ok c, w') /\
    config_at (heap w') c cfg v' /\
    (PageLayout.line_height (ConfigValue.page v'),
     CalloutLayout.line_height (ConfigValue.callout v'),
     PageLayout.paragraph_spacing (ConfigValue.page v'))
    = (1.8%float, 1.8%float, 18) /\
    (PageLayout.font_size_base (ConfigValue.page v'),
     PageLayout.font_size_h2 (ConfigValue.page v'),
     PageLayout.font_size_h3 (ConfigValue.page v')) = (13, 22, 18).
Proof.
  split; [exact default_world_optimizer|].
  split; [exact default_world_config|].
  split; [right; exact convertible_32|].
  exact (adjust_config_page_rules (rt := ascii_runtime) default_world
           default_optimizer default_optimizer_object default_config_object
           ConfigValue.default busy_stats default_world_optimizer
           default_world_config (or_intror convertible_32)).
Defined.

Lemma adjust_config_messages_witness :
  heap default_world !! default_optimizer
  = Some (OOptimizer default_optimizer_object) /\
  config_at (heap default_world)
    (PDFLayoutOptimizer.config default_optimizer_object)
    default_config_object ConfigValue.default /\
  (max_kpi_value_length busy_stats <= 0 \/
   convertible
     (KPICardLayout.font_size_value
        (ConfigValue.kpi_card ConfigValue.default))) /\
  exists c cfg v' w' messages,
    _adjust_config_based_on_stats (rt := ascii_runtime) default_optimizer
      busy_stats default_world = (Ok c, w') /\
    config_at (heap w') c cfg v' /\
    heap w' !! default_optimizer
    = Some (OOptimizer {|
          PDFLayoutOptimizer.config :=
            PDFLayoutOptimizer.config default_optimizer_object;
          PDFLayoutOptimizer.optimization_log :=
            PDFLayoutOptimizer.optimization_log default_optimizer_object
            ++ messages |}) /\
    (length messages <= 5)%nat /\
    (messages = [] -> v' = ConfigValue.default).
Proof.
  split; [exact default_world_optimizer|].
  split; [exact default_world_config|].
  split; [right; exact convertible_32|].
  exact (adjust_config_messages (rt := ascii_runtime) default_world
           default_optimizer default_optimizer_object default_config_object
           ConfigValue.default busy_stats default_world_optimizer
           default_world_config (or_intror convertible_32)).
Defined.


(** ** Passes *)

Lemma optimize_for_document_keeps_stylesheet_witness :
  heap default_world !! default_optimizer
  = Some (OOptimizer default_optimizer_object) /\
  config_at (heap default_world)
    (PDFLayoutOptimizer.config default_optimizer_object)
    default_config_object ConfigValue.default /\
  exists r w',
    optimize_for_document (rt := ascii_runtime) default_optimizer
      scenario_a_ir (lit "now") default_world = (r, w') /\
    generate_pdf_css (rt := ascii_runtime) default_optimizer w'
    = (fst (generate_pdf_css (rt := ascii_runtime) default_optimizer
              default_world), w').
Proof.
  split; [exact default_world_optimizer|].
  split; [exact default_world_config|].
  destruct (optimize_for_document (rt := ascii_runtime) default_optimizer
              scenario_a_ir (lit "now") default_world) as [r w'] eqn:E.
  exists r, w'. split; [reflexivity|].
  exact (optimize_for_document_keeps_stylesheet (rt := ascii_runtime)
           default_world default_optimizer default_optimizer_object
           default_config_object ConfigValue.default scenario_a_ir
           (lit "now") r w' default_world_optimizer default_world_config E).
Defined.



Lemma optimize_for_document_without_kpi_witness :
  heap default_world !! default_optimizer
  = Some (OOptimizer default_optimizer_object) /\
  config_at (heap default_world)
    (PDFLayoutOptimizer.config default_optimizer_object)
    default_config_object ConfigValue.default /\
  _analyze_document (rt := ascii_runtime) (chapters_document [table_chapter])
  = Ok table_chapter_stats /\
  kpi_count table_chapter_stats = 0 /\
  exists c cfg v' w',
    optimize_for_document (rt := ascii_runtime) default_optimizer
      (chapters_document [table_chapter]) (lit "now") default_world
    = (Ok c, w') /\
    config_at (heap w') c cfg v' /\
    KPICardLayout.font_size_value (ConfigValue.kpi_card v')
    = KPICardLayout.font_size_value (ConfigValue.kpi_card ConfigValue.default)
    /\ GridLayout.columns (ConfigValue.grid v') = 1 /\
    KPICardLayout.padding (ConfigValue.kpi_card v') = 24.
Proof.
  split; [exact default_world_optimizer|].
  split; [exact default_world_config|].
  split; [exact table_chapter_analysis|]. split; [reflexivity|].
  exact (optimize_for_document_without_kpi (rt := ascii_runtime)
           default_world default_optimizer default_optimizer_object
           default_config_object ConfigValue.default
           (chapters_document [table_chapter]) table_chapter_stats
           (lit "now") default_world_optimizer default_world_config
           table_chapter_analysis eq_refl).
Defined.




(** ** Files *)

Lemma load_config_missing_file_witness :
  files empty_world !! lit "layout.json" = None /\
  exists self c cfg w',
    load_config_file (lit "layout.json") empty_world = (Ok self, w') /\
    heap w' !! self
    = Some (OOptimizer {| PDFLayoutOptimizer.config := c;
                          PDFLayoutOptimizer.optimization_log := [] |}) /\
    config_at (heap w') c cfg ConfigValue.default.
Proof.
  split; [reflexivity|].
  destruct (load_config_missing_file empty_world (lit "layout.json") eq_refl)
    as (self & c & cfg & w' & E & Hs & Hcfg & _).
  exists self, c, cfg, w'. auto.
Defined.

Lemma file_world_lookup path content :
  files (file_world path content) !! path = Some content.
Proof. apply lookup_singleton_eq. Qed.

Lemma load_config_without_config_entry_witness :
  files (file_world (lit "layout.json") (JsonDoc no_config_document))
    !! lit "layout.json" = Some (JsonDoc no_config_document) /\
  load_config_file (lit "layout.json")
    (file_world (lit "layout.json") (JsonDoc no_config_document))
  = (Raise KeyError,
     file_world (lit "layout.json") (JsonDoc no_config_document)).
Proof.
  split; [apply file_world_lookup|].
  exact (load_config_without_config_entry
           (file_world (lit "layout.json") (JsonDoc no_config_document))
           (lit "layout.json") no_config_document
           (file_world_lookup _ _) eq_refl).
Defined.

Lemma load_config_unknown_field_witness :
  files (file_world (lit "layout.json") (JsonDoc unknown_field_document))
    !! lit "layout.json" = Some (JsonDoc unknown_field_document) /\
  load_config_file (lit "layout.json")
    (file_world (lit "layout.json") (JsonDoc unknown_field_document))
  = (Raise TypeError,
     file_world (lit "layout.json") (JsonDoc unknown_field_document)).
Proof.
  split; [apply file_world_lookup|].
  exact (load_config_unknown_field
           (file_world (lit "layout.json") (JsonDoc unknown_field_document))
           (lit "layout.json") unknown_field_document _ _
           (file_world_lookup _ _) eq_refl eq_refl eq_refl).
Defined.

Lemma load_config_without_flags_witness :
  files (file_world (lit "layout.json") (JsonDoc no_flags_document))
    !! lit "layout.json" = Some (JsonDoc no_flags_document) /\
  ConfigValue.auto_adjust_font_size unread_fields_config = false /\
  exists self c cfg w',
    load_config_file (lit "layout.json")
      (file_world (lit "layout.json") (JsonDoc no_flags_document))
    = (Ok self, w') /\
    heap w' !! self
    = Some (OOptimizer {| PDFLayoutOptimizer.config := c;
                          PDFLayoutOptimizer.optimization_log := [] |}) /\
    config_at (heap w') c cfg
      (with_flags true true true true unread_fields_config).
Proof.
  split; [apply file_world_lookup|]. split; [reflexivity|].
  exact (load_config_without_flags
           (file_world (lit "layout.json") (JsonDoc no_flags_document))
           (lit "layout.json") no_flags_document unread_fields_config
           (file_world_lookup _ _) eq_refl).
Defined.





(** ** The stylesheet *)

Lemma unread_fields_agree f :
  declarations_of f <> 0%nat ->
  field_text (rt := ascii_runtime) ConfigValue.default f
  = field_text (rt := ascii_runtime) unread_fields_config f.
Proof.
  intros Hf. destruct f; try reflexivity; exfalso; apply Hf;
    vm_compute; reflexivity.
Qed.

Lemma css_text_reads_only_witness :
  (forall f, declarations_of f <> 0%nat ->
     field_text (rt := ascii_runtime) ConfigValue.default f
     = field_text (rt := ascii_runtime) unread_fields_config f) /\
  css_text (rt := ascii_runtime) ConfigValue.default
  = css_text (rt := ascii_runtime) unread_fields_config.
Proof.
  split; [exact unread_fields_agree|].
  exact (css_text_reads_only (rt := ascii_runtime) ConfigValue.default
           unread_fields_config unread_fields_agree).
Defined.
